(** * Life-with-Py: the quota service of [core.py]

    A shallow embedding of [TemplateRepository], [DayRepository] and
    [QuotaService] together with the properties claimed for them.

    Conventions of the embedding.
    - Python values that travel through the template (the result of
      [json.loads], the argument of [save]) are values of [json]: [None],
      booleans, integers, floats, strings, lists and insertion-ordered
      dicts with string keys.  A float is an IEEE 754 double, kept as a
      [spec_float].
    - A [str] is kept as its UTF-8 encoding, one [ascii] per byte, so
      U+00A0 is the two bytes 194 and 160.  SQLite stores text the same
      way and orders it by these bytes.  [str.strip] removes the code
      points Python counts as white space, the ones beyond ASCII included.
      A [str] with a lone surrogate has no UTF-8 encoding and is not
      covered.
    - What Python and SQLite compute from tables of their own ([json.dumps]
      and [json.loads], [int] and [repr] of a [str], [repr] of a [float],
      the text SQLite stores for a [REAL]) is a field of the class
      [Runtime]; the repositories are written against that class.
    - A raised exception is a value of [exn]; a method that may raise
      returns a [result].
    - The SQLite file is the record [Database]; a table that has not been
      created yet is [None] there, and a statement that names it raises
      [OperationalError].  Every method runs inside [with conn:], which
      commits on return and rolls back on an exception, so a method maps a
      database to either a new database or an exception that leaves the
      old one in place.
    - [datetime.now()] is an explicit argument [now]. *)

From Stdlib Require Import ZArith Ascii String List Sorting.Sorted.
From Stdlib Require Import Floats.SpecFloat.
From stdpp Require Import base tactics option list gmap strings pretty sorting.

Local Open Scope string_scope.
Local Open Scope Z_scope.

(** ** Exceptions and results *)

Inductive exn :=
| ValueError (msg : string)
| TypeError
| AttributeError
| OverflowError
| OperationalError (msg : string)   (* sqlite3: no such table *)
| BindingError.                     (* sqlite3: parameter type not supported *)

Inductive result (A : Type) :=
| Ok (a : A)
| Raise (e : exn).
Arguments Ok {A} a.
Arguments Raise {A} e.

#[global] Instance result_ret : MRet result := @Ok.
#[global] Instance result_bind : MBind result := fun A B f m =>
  match m with
  | Ok a => f a
  | Raise e => Raise e
  end.

Definition is_ok {A} (r : result A) : bool :=
  match r with Ok _ => true | Raise _ => false end.

(** A [for] loop whose body may raise, threading the loop state. *)
Fixpoint foldM {A B} (f : A -> B -> result A) (acc : A) (l : list B)
  : result A :=
  match l with
  | [] => Ok acc
  | x :: l' => acc' ← f acc x; foldM f acc' l'
  end.

(** ** Python values *)

#[local] Set Warnings "-register-all".

Inductive json :=
| JNull
| JBool (b : bool)
| JInt (z : Z)
| JFloat (x : spec_float)
| JStr (s : string)
| JList (l : list json)
| JDict (d : list (string * json)).

Abbreviation pydict := (list (string * json)).

(** ** What the interpreter and its libraries compute

    [dumps] is [json.dumps]; [loads] is [json.loads], [None] when it
    raises.  [int_of_str] is [int(s)] for a [str]: it reads the decimal
    digits of every script and raises [ValueError] on anything else.
    [repr_of_str] and [repr_of_float] are [repr] on a [str] and on a
    [float].  [text_of_real] is the text SQLite stores when a [REAL] goes
    into a [TEXT] column. *)

Class Runtime := {
  dumps : json -> string;
  loads : string -> option json;
  int_of_str : string -> result Z;
  repr_of_str : string -> string;
  repr_of_float : spec_float -> string;
  text_of_real : spec_float -> string
}.

(** [v] survives being written and read back. *)
Definition round_trips `{Runtime} (v : json) : Prop :=
  loads (dumps v) = Some v.

Module Py.

(** [d.get(k, default)] *)
Fixpoint get (d : pydict) (k : string) (default : json) : json :=
  match d with
  | [] => default
  | (k', v) :: d' => if String.eqb k' k then v else get d' k default
  end.

(** [k in d] *)
Fixpoint contains (d : pydict) (k : string) : bool :=
  match d with
  | [] => false
  | (k', _) :: d' => String.eqb k' k || contains d' k
  end.

(** [d.setdefault(k, v)], for its effect on [d]: a new key goes last. *)
Definition setdefault (d : pydict) (k : string) (v : json) : pydict :=
  if contains d k then d else (d ++ [(k, v)])%list.

(** [x.get] exists on dicts only. *)
Definition as_dict (v : json) : result pydict :=
  match v with
  | JDict d => Ok d
  | _ => Raise AttributeError
  end.

(** [bool(v)] *)
Definition truthy (v : json) : bool :=
  match v with
  | JNull => false
  | JBool b => b
  | JInt z => negb (z =? 0)
  | JFloat x => match x with S754_zero _ => false | _ => true end
  | JStr s => negb (String.eqb s "")
  | JList l => match l with [] => false | _ => true end
  | JDict d => match d with [] => false | _ => true end
  end.

(** [a or b] *)
Definition or (a b : json) : json := if truthy a then a else b.

(** *** Code points

    In UTF-8 a code point is one byte below 128, or a first byte from 192
    on followed by bytes from 128 to 191. *)

Definition is_continuation (c : ascii) : bool :=
  let n := nat_of_ascii c in ((128 <=? n) && (n <=? 191))%nat.

Definition starts_inside (s : string) : bool :=
  match s with
  | String c _ => is_continuation c
  | "" => false
  end.

(** The characters of [s], each a string of its own. *)
Fixpoint chars (s : string) : list string :=
  match s with
  | "" => []
  | String c s' =>
      match chars s' with
      | x :: l =>
          if starts_inside s' then String c x :: l else String c "" :: x :: l
      | [] => [String c ""]
      end
  end.

(** The elements a [for] loop over [v] visits. *)
Definition iter (v : json) : result (list json) :=
  match v with
  | JList l => Ok l
  | JDict d => Ok (map (fun kv => JStr kv.1) d)
  | JStr s => Ok (map JStr (chars s))
  | _ => Raise TypeError
  end.

(** *** [str.strip]

    The code points with [str.isspace]: U+0009 to U+000D and U+001C to
    U+0020 in one byte; U+0085 and U+00A0 in two; U+1680, U+2000 to
    U+200A, U+2028, U+2029, U+202F, U+205F and U+3000 in three. *)

Definition is_space (c : ascii) : bool :=
  let n := nat_of_ascii c in
  ((9 <=? n) && (n <=? 13) || (28 <=? n) && (n <=? 32))%nat.

Definition is_space2 (c1 c2 : ascii) : bool :=
  let n1 := nat_of_ascii c1 in
  let n2 := nat_of_ascii c2 in
  ((n1 =? 194) && ((n2 =? 133) || (n2 =? 160)))%nat.

Definition is_space3 (c1 c2 c3 : ascii) : bool :=
  let n1 := nat_of_ascii c1 in
  let n2 := nat_of_ascii c2 in
  let n3 := nat_of_ascii c3 in
  ((n1 =? 225) && (n2 =? 154) && (n3 =? 128)
   || (n1 =? 226) && (n2 =? 128)
      && ((128 <=? n3) && (n3 <=? 138)
          || (n3 =? 168) || (n3 =? 169) || (n3 =? 175))
   || (n1 =? 226) && (n2 =? 129) && (n3 =? 159)
   || (n1 =? 227) && (n2 =? 128) && (n3 =? 128))%nat.

(** What follows the first code point of [s], when that is white space. *)
Definition skip_space (s : string) : option string :=
  match s with
  | String c1 s1 =>
      if is_space c1 then Some s1
      else
        match s1 with
        | String c2 s2 =>
            if is_space2 c1 c2 then Some s2
            else
              match s2 with
              | String c3 s3 => if is_space3 c1 c2 c3 then Some s3 else None
              | "" => None
              end
        | "" => None
        end
  | "" => None
  end.

Fixpoint lstrip (s : string) : string :=
  match s with
  | "" => ""
  | String c1 s1 =>
      if is_space c1 then lstrip s1
      else
        match s1 with
        | String c2 s2 =>
            if is_space2 c1 c2 then lstrip s2
            else
              match s2 with
              | String c3 s3 => if is_space3 c1 c2 c3 then lstrip s3 else s
              | "" => s
              end
        | "" => s
        end
  end.

(** The text ends where only white space follows. *)
Fixpoint rstrip (s : string) : string :=
  match s with
  | "" => ""
  | String c s' => if String.eqb (lstrip s) "" then "" else String c (rstrip s')
  end.

Definition strip (s : string) : string := rstrip (lstrip s).

(** *** [repr] and [str] *)

Definition dquote : ascii := ascii_of_nat 34.

Fixpoint join (sep : string) (l : list string) : string :=
  match l with
  | [] => ""
  | [x] => x
  | x :: l' => x ++ sep ++ join sep l'
  end.

Section WithRuntime.
Context `{Runtime}.

Fixpoint repr (v : json) : string :=
  match v with
  | JNull => "None"
  | JBool b => if b then "True" else "False"
  | JInt z => pretty z
  | JFloat x => repr_of_float x
  | JStr s => repr_of_str s
  | JList l => "[" ++ join ", " (map repr l) ++ "]"
  | JDict d =>
      "{" ++ join ", "
               (map (fun kv => repr_of_str kv.1 ++ ": " ++ repr kv.2) d) ++ "}"
  end.

(** [str(v)], also what an f-string field prints. *)
Definition str (v : json) : string :=
  match v with
  | JStr s => s
  | _ => repr v
  end.

(** *** [int] *)

(** [int(x)] for a float cuts the fraction off. *)
Definition int_of_float (x : spec_float) : result Z :=
  match x with
  | S754_zero _ => Ok 0
  | S754_infinity _ => Raise OverflowError
  | S754_nan => Raise (ValueError "cannot convert float NaN to integer")
  | S754_finite s m e =>
      let n := if 0 <=? e then Z.pos m * 2 ^ e else Z.pos m / 2 ^ (- e) in
      Ok (if s then - n else n)
  end.

(** [int(v)] *)
Definition int (v : json) : result Z :=
  match v with
  | JInt z => Ok z
  | JBool b => Ok (if b then 1 else 0)
  | JFloat x => int_of_float x
  | JStr s => int_of_str s
  | _ => Raise TypeError
  end.

End WithRuntime.

End Py.

(** ** The built-in template *)

Definition template_item (id text : string) (importance : Z) : json :=
  JDict [("id", JStr id); ("text", JStr text);
         ("importance", JInt importance); ("subitems", JList [])].

Definition DEFAULT_TEMPLATE : list json :=
  [ template_item "progress" "Progress: move a project forward" 3;
    template_item "care" "Care/Connection: serve or connect" 2;
    template_item "maintenance" "Maintenance: body / admin / environment" 2 ].

(** ** Dates *)

Record date := { year : nat; month : nat; day_of_month : nat }.

Fixpoint zeros (n : nat) : string :=
  match n with
  | O => ""
  | S n' => String "0" (zeros n')
  end.

Definition zero_pad (width : nat) (n : nat) : string :=
  let s := pretty (N.of_nat n) in
  zeros (width - String.length s) ++ s.

(** [day.isoformat()] *)
Definition isoformat (d : date) : string :=
  zero_pad 4 (year d) ++ "-" ++ zero_pad 2 (month d) ++ "-"
    ++ zero_pad 2 (day_of_month d).

(** ** The database *)

Module DayItem.
(** A row of [day_item]. *)
Record t := mk {
  day : string;
  item_id : string;
  item_text : string;
  importance : Z;
  checked : bool;
  evidence : string;
  why : string;
  checked_at : option string
}.
End DayItem.

Module DayStatus.
(** A row of [day_status], without its key [day]. *)
Record t := mk {
  closed : bool;
  closed_at : option string
}.
End DayStatus.

(** The three tables.  [template] holds at most the row with [id = 1], of
    which only [data] is kept; [day_item] keeps its rows in insertion
    order; [day_status] is keyed by [day]. *)
Record Database := mkDatabase {
  template : option (option string);
  day_item : option (list DayItem.t);
  day_status : option (gmap string DayStatus.t)
}.

Definition empty_database : Database :=
  {| template := None; day_item := None; day_status := None |}.

Definition with_template (db : Database) (t : option string) : Database :=
  {| template := Some t; day_item := day_item db;
     day_status := day_status db |}.

Definition with_day_item (db : Database) (rows : list DayItem.t) : Database :=
  {| template := template db; day_item := Some rows;
     day_status := day_status db |}.

Definition with_day_status (db : Database) (st : gmap string DayStatus.t)
  : Database :=
  {| template := template db; day_item := day_item db;
     day_status := Some st |}.

Definition no_such_table (name : string) : exn :=
  OperationalError ("no such table: " ++ name).

(** ** Methods: state and exceptions

    A method takes the database as it finds it and leaves a database
    together with a value or an exception. *)

Definition M (A : Type) : Type := Database -> result A * Database.

#[global] Instance M_ret : MRet M := fun A a db => (Ok a, db).
#[global] Instance M_bind : MBind M := fun A B f m db =>
  match m db with
  | (Ok a, db') => f a db'
  | (Raise e, db') => (Raise e, db')
  end.

Definition raise {A} (e : exn) : M A := fun db => (Raise e, db).

(** A pure computation that may raise. *)
Definition lift {A} (r : result A) : M A := fun db => (r, db).

(** [with self.db.connect() as conn: body]: what [body] wrote is committed
    when it returns and rolled back when it raises. *)
Definition transaction {A} (body : M A) : M A := fun db =>
  match body db with
  | (Ok a, db') => (Ok a, db')
  | (Raise e, _) => (Raise e, db)
  end.

(** A [for] loop run for its effect. *)
Fixpoint for_each {A} (l : list A) (body : A -> M unit) : M unit :=
  match l with
  | [] => mret tt
  | x :: l' => body x;; for_each l' body
  end.

(** Reading and writing the tables. *)
Definition table_template : M (option string) := fun db =>
  match template db with
  | Some t => (Ok t, db)
  | None => (Raise (no_such_table "template"), db)
  end.

Definition table_day_item : M (list DayItem.t) := fun db =>
  match day_item db with
  | Some rows => (Ok rows, db)
  | None => (Raise (no_such_table "day_item"), db)
  end.

Definition table_day_status : M (gmap string DayStatus.t) := fun db =>
  match day_status db with
  | Some st => (Ok st, db)
  | None => (Raise (no_such_table "day_status"), db)
  end.

Definition write_template (t : option string) : M unit := fun db =>
  (Ok tt, with_template db t).

Definition write_day_item (rows : list DayItem.t) : M unit := fun db =>
  (Ok tt, with_day_item db rows).

Definition write_day_status (st : gmap string DayStatus.t) : M unit :=
  fun db => (Ok tt, with_day_status db st).

(** ** [TemplateRepository] *)

(** One entry of the list [flatten] returns: the dict with the keys
    [item_id], [item_text] and [importance]. *)
Record FlatLine := mkFlatLine {
  line_id : string;
  line_text : json;
  line_importance : Z
}.

Module TemplateRepository.
Section WithRuntime.
Context `{Runtime}.

(** [CREATE TABLE IF NOT EXISTS template] *)
Definition init_schema : M unit :=
  transaction (fun db =>
    match template db with
    | Some _ => (Ok tt, db)
    | None => (Ok tt, with_template db None)
    end).

Definition ensure_default : M unit :=
  transaction (
    row ← table_template;
    match row with
    | None => write_template (Some (dumps (JList DEFAULT_TEMPLATE)))
    | Some _ => mret tt
    end).

Definition load : M (list json) :=
  transaction (
    row ← table_template;
    match row with
    | None => mret DEFAULT_TEMPLATE
    | Some data =>
        match loads data with
        | Some (JList l) => mret l
        | _ => mret DEFAULT_TEMPLATE
        end
    end).

(** The body of the loop of [_validate_template]; the result is the item
    after the two [setdefault] calls. *)
Definition validate_item (item : json) : result json :=
  match item with
  | JDict d =>
      if Py.contains d "id" && Py.contains d "text" then
        Ok (JDict (Py.setdefault (Py.setdefault d "importance" (JInt 1))
                     "subitems" (JList [])))
      else Raise (ValueError "Each item must have id and text")
  | _ => Raise (ValueError "Each item must have id and text")
  end.

Fixpoint validate_items (items : list json) : result (list json) :=
  match items with
  | [] => Ok []
  | item :: rest =>
      item' ← validate_item item;
      rest' ← validate_items rest;
      Ok (item' :: rest')
  end.

(** [_validate_template] changes its argument in place; the result is the
    argument as the call leaves it. *)
Definition _validate_template (template_data : json) : result json :=
  match template_data with
  | JList items => items' ← validate_items items; Ok (JList items')
  | _ => Raise (ValueError "Template must be a list")
  end.

(** [UPDATE template SET data = ? WHERE id = 1] changes the row when
    there is one. *)
Definition save (template_data : json) : M unit :=
  data ← lift (_validate_template template_data);
  transaction (
    row ← table_template;
    match row with
    | None => mret tt
    | Some _ => write_template (Some (dumps data))
    end).

(** The inner loop body of [flatten]. *)
Definition flatten_sub (item : pydict) (base_id : string)
    (flat : list FlatLine) (sub : json) : result (list FlatLine) :=
  s ← Py.as_dict sub;
  let sub_id :=
    base_id ++ ":" ++ Py.str (Py.get s "id" (JInt (Z.of_nat (length flat)))) in
  importance ←
    Py.int (Py.get s "importance" (Py.get item "importance" (JInt 1)));
  Ok (flat ++ [ {| line_id := sub_id;
                   line_text := Py.get s "text" (JStr sub_id);
                   line_importance := importance |} ])%list.

(** The outer loop body of [flatten]. *)
Definition flatten_item (flat : list FlatLine) (item : json)
  : result (list FlatLine) :=
  d ← Py.as_dict item;
  let base_id := Py.str (Py.get d "id" JNull) in
  importance ← Py.int (Py.get d "importance" (JInt 1));
  let flat := (flat ++ [ {| line_id := base_id;
                            line_text := Py.get d "text" (JStr base_id);
                            line_importance := importance |} ])%list in
  subs ← Py.iter (Py.or (Py.get d "subitems" (JList [])) (JList []));
  foldM (flatten_sub d base_id) flat subs.

Definition flatten (template_data : list json) : result (list FlatLine) :=
  foldM flatten_item [] template_data.

End WithRuntime.
End TemplateRepository.

(** ** [DayRepository] *)

(** What SQLite receives for a statement parameter. *)
Inductive sqlvalue :=
| SqlNull
| SqlInteger (z : Z)
| SqlReal (x : spec_float)
| SqlText (s : string).

Definition fits_int64 (z : Z) : bool :=
  (- 2 ^ 63 <=? z) && (z <? 2 ^ 63).

(** The [sqlite3] module binds [None], [int], [float] and [str] and
    refuses lists and dicts; an [int] must fit 64 bits, and SQLite takes a
    NaN for [NULL]. *)
Definition bind_parameter (v : json) : result sqlvalue :=
  match v with
  | JNull => Ok SqlNull
  | JBool b => Ok (SqlInteger (if b then 1 else 0))
  | JInt z => if fits_int64 z then Ok (SqlInteger z) else Raise OverflowError
  | JFloat S754_nan => Ok SqlNull
  | JFloat x => Ok (SqlReal x)
  | JStr s => Ok (SqlText s)
  | JList _ | JDict _ => Raise BindingError
  end.

(** A value stored in a [TEXT] column; [None] for [NULL]. *)
Definition as_text `{Runtime} (v : sqlvalue) : option string :=
  match v with
  | SqlNull => None
  | SqlInteger z => Some (pretty z)
  | SqlReal x => Some (text_of_real x)
  | SqlText s => Some s
  end.

(** A value stored in an [INTEGER] column, for the integers [flatten]
    produces. *)
Definition as_integer (v : sqlvalue) : option Z :=
  match v with
  | SqlInteger z => Some z
  | _ => None
  end.

Definition same_key (day_str item_id : string) (r : DayItem.t) : bool :=
  String.eqb (DayItem.day r) day_str && String.eqb (DayItem.item_id r) item_id.

(** [ORDER BY item_id] *)
Definition by_item_id (r1 r2 : DayItem.t) : Prop :=
  String.le (DayItem.item_id r1) (DayItem.item_id r2).

#[global] Instance by_item_id_dec : RelDecision by_item_id.
Proof. intros r1 r2. unfold by_item_id. apply _. Defined.

Record DayState := mkDayState {
  items : list DayItem.t;
  closed : bool
}.

Module DayRepository.
Section WithRuntime.
Context `{Runtime}.

(** The two [CREATE TABLE IF NOT EXISTS] statements. *)
Definition init_schema : M unit :=
  transaction (fun db =>
    let db1 := match day_item db with
               | Some _ => db
               | None => with_day_item db []
               end in
    let db2 := match day_status db1 with
               | Some _ => db1
               | None => with_day_status db1 ∅
               end in
    (Ok tt, db2)).

(** [INSERT OR IGNORE INTO day_item ... VALUES (?, ?, ?, ?, 0, '', '', NULL)]:
    a row that would break [NOT NULL] or the primary key is skipped. *)
Definition insert_or_ignore (day_str : string) (row : FlatLine) : M unit :=
  text ← lift (bind_parameter (line_text row));
  importance ← lift (bind_parameter (JInt (line_importance row)));
  rows ← table_day_item;
  match as_text text, as_integer importance with
  | Some item_text, Some importance =>
      if existsb (same_key day_str (line_id row)) rows then mret tt
      else write_day_item
             (rows ++ [ DayItem.mk day_str (line_id row) item_text importance
                          false "" "" None ])%list
  | _, _ => mret tt
  end.

Definition instantiate_day_if_needed (day : date) : M unit :=
  let day_str := isoformat day in
  transaction (
    rows ← table_day_item;
    if (0 <? length (filter (fun r => DayItem.day r = day_str) rows))%nat
    then mret tt
    else
      template_data ← TemplateRepository.load;
      flat ← lift (TemplateRepository.flatten template_data);
      for_each flat (insert_or_ignore day_str)).

Definition get_day_items (day : date) : M (list DayItem.t) :=
  instantiate_day_if_needed day;;
  transaction (
    rows ← table_day_item;
    mret (merge_sort by_item_id
            (filter (fun r => DayItem.day r = isoformat day) rows))).

Definition is_day_closed (day : date) : M bool :=
  transaction (
    st ← table_day_status;
    mret (match st !! isoformat day with
          | Some row => DayStatus.closed row
          | None => false
          end)).

(** The [UPDATE day_item SET ... WHERE day = ? AND item_id = ?] of
    [set_item_checked], on one row. *)
Definition update_checked (day_str item_id : string) (checked : bool)
    (evidence why : string) (checked_at : option string) (r : DayItem.t)
  : DayItem.t :=
  if same_key day_str item_id r then
    DayItem.mk (DayItem.day r) (DayItem.item_id r) (DayItem.item_text r)
      (DayItem.importance r) checked evidence why checked_at
  else r.

Definition set_item_checked (day : date) (item_id : string) (checked : bool)
    (evidence why : string) (now : string) : M unit :=
  if checked && String.eqb (Py.strip evidence) "" then
    raise (ValueError "Evidence is required")
  else
    is_closed ← is_day_closed day;
    if is_closed : bool then raise (ValueError "Day is closed. Reopen to edit.")
    else
      transaction (
        rows ← table_day_item;
        write_day_item
          (map (update_checked (isoformat day) item_id checked
                  (Py.strip evidence) (Py.strip why)
                  (if checked then Some now else None)) rows)).

Definition get_checked_days (month_start month_end : date) : M (gset string) :=
  transaction (
    rows ← table_day_item;
    mret (list_to_set
            (map DayItem.day
               (filter (fun r =>
                          String.le (isoformat month_start) (DayItem.day r)
                          ∧ String.le (DayItem.day r) (isoformat month_end)
                          ∧ DayItem.checked r = true) rows)))).

(** The upsert of [set_day_closed]. *)
Definition set_day_closed (day : date) (closed : bool) (now : string)
  : M unit :=
  transaction (
    st ← table_day_status;
    if closed then
      write_day_status (<[isoformat day := DayStatus.mk true (Some now)]> st)
    else
      write_day_status (<[isoformat day := DayStatus.mk false None]> st)).

End WithRuntime.
End DayRepository.

(** ** [QuotaService] *)

Module QuotaService.
Section WithRuntime.
Context `{Runtime}.

Definition initialize : M unit :=
  TemplateRepository.init_schema;;
  TemplateRepository.ensure_default;;
  DayRepository.init_schema.

Definition get_day (day : date) : M DayState :=
  items ← DayRepository.get_day_items day;
  closed ← DayRepository.is_day_closed day;
  mret (mkDayState items closed).

Definition mark_item (day : date) (item_id : string) (checked : bool)
    (evidence why : string) (now : string) : M unit :=
  DayRepository.set_item_checked day item_id checked evidence why now.

Definition close_day (day : date) (now : string) : M unit :=
  DayRepository.set_day_closed day true now.

Definition reopen_day (day : date) (now : string) : M unit :=
  DayRepository.set_day_closed day false now.

Definition get_checked_days (month_start month_end : date)
  : M (gset string) :=
  DayRepository.get_checked_days month_start month_end.

Definition load_template : M (list json) := TemplateRepository.load.

Definition save_template (template_data : json) : M unit :=
  TemplateRepository.save template_data.

(** [json.loads(json.dumps(DEFAULT_TEMPLATE))] is handed to [save]; the
    value returned is the built-in list itself. *)
Definition reset_template : M (list json) :=
  match loads (dumps (JList DEFAULT_TEMPLATE)) with
  | Some copy =>
      TemplateRepository.save copy;;
      mret DEFAULT_TEMPLATE
  | None => raise (ValueError "JSONDecodeError")
  end.

End WithRuntime.
End QuotaService.

(** ** A runtime to run the methods on examples

    An instance of [Runtime] that computes, for the examples of this file,
    which are ASCII text without floats.  It stands for Python and SQLite
    on such values only; no property below is proved of it alone, apart
    from those that say so. *)

Module MiniPy.

(** *** [repr] of ASCII text *)

Fixpoint has_char (c : ascii) (s : string) : bool :=
  match s with
  | "" => false
  | String c' s' => Ascii.eqb c c' || has_char c s'
  end.

Definition hex_digit (n : nat) : ascii :=
  ascii_of_nat (if (n <? 10)%nat then 48 + n else 87 + n)%nat.

Definition repr_char (quote c : ascii) : string :=
  let n := nat_of_ascii c in
  if Ascii.eqb c quote || Ascii.eqb c "\" then String "\" (String c "")
  else if (n =? 9)%nat then "\t"
  else if (n =? 10)%nat then "\n"
  else if (n =? 13)%nat then "\r"
  else if (n <? 32)%nat || (n =? 127)%nat then
    String "\" (String "x"
      (String (hex_digit (n / 16)) (String (hex_digit (n mod 16)) "")))
  else String c "".

Fixpoint repr_body (quote : ascii) (s : string) : string :=
  match s with
  | "" => ""
  | String c s' => repr_char quote c ++ repr_body quote s'
  end.

(** Single quotes unless the text has a single quote and no double
    quote. *)
Definition repr_str (s : string) : string :=
  let quote : ascii :=
    if has_char "'" s && negb (has_char Py.dquote s) then Py.dquote
    else "'"%char in
  String quote (repr_body quote s ++ String quote "").

(** *** [int] of ASCII text

    White space (tab to carriage return, and the space) on both sides, a
    sign, then digits with single underscores between them. *)

Definition digit_of (c : ascii) : option Z :=
  let n := nat_of_ascii c in
  if ((48 <=? n) && (n <=? 57))%nat then Some (Z.of_nat n - 48) else None.

Fixpoint parse_digits (acc : Z) (after_digit : bool) (s : string)
  : option Z :=
  match s with
  | "" => if after_digit then Some acc else None
  | String c s' =>
      if Ascii.eqb c "_" then
        if after_digit then parse_digits acc false s' else None
      else
        match digit_of c with
        | Some d => parse_digits (10 * acc + d) true s'
        | None => None
        end
  end.

Definition is_blank (c : ascii) : bool :=
  let n := nat_of_ascii c in
  ((9 <=? n) && (n <=? 13) || (n =? 32))%nat.

Fixpoint skip_blanks (s : string) : string :=
  match s with
  | "" => ""
  | String c s' => if is_blank c then skip_blanks s' else s
  end.

Fixpoint drop_blanks (s : string) : string :=
  match s with
  | "" => ""
  | String c s' =>
      let r := drop_blanks s' in
      if is_blank c && String.eqb r "" then "" else String c r
  end.

Definition parse_int (s : string) : option Z :=
  match drop_blanks (skip_blanks s) with
  | String "+" s' => parse_digits 0 false s'
  | String "-" s' => Z.opp <$> parse_digits 0 false s'
  | s' => parse_digits 0 false s'
  end.

Definition int_of_str (s : string) : result Z :=
  match parse_int s with
  | Some z => Ok z
  | None =>
      Raise (ValueError
               ("invalid literal for int() with base 10: " ++ repr_str s))
  end.

(** *** Floats in decimal

    A finite double has an exact decimal expansion; it is the text Python
    and SQLite print for the doubles that have a short one (2.5, 0.75,
    100.0). *)

Fixpoint drop_zeros (s : string) : string :=
  match s with
  | "" => ""
  | String c s' =>
      let r := drop_zeros s' in
      if Ascii.eqb c "0" && String.eqb r "" then "" else String c r
  end.

Fixpoint zeros (n : nat) : string :=
  match n with
  | O => ""
  | S n' => String "0" (zeros n')
  end.

Definition decimal (m : positive) (e : Z) : string :=
  if 0 <=? e then pretty (Z.pos m * 2 ^ e) ++ ".0"
  else
    let k := Z.to_nat (- e) in
    let n := Z.pos m * 5 ^ (- e) in
    let scale := 10 ^ (- e) in
    let digits := pretty (n mod scale) in
    let fraction := drop_zeros (zeros (k - String.length digits) ++ digits) in
    pretty (n / scale) ++ "."
      ++ (if String.eqb fraction "" then "0" else fraction).

Definition float_text (nan inf : string) (x : spec_float) : string :=
  match x with
  | S754_nan => nan
  | S754_infinity s => (if s then "-" else "") ++ inf
  | S754_zero s => if s then "-0.0" else "0.0"
  | S754_finite s m e => (if s then "-" else "") ++ decimal m e
  end.

End MiniPy.

(** *** The codec

    On ASCII text without floats [MiniJson.dumps] prints the way
    [json.dumps] does by default (", " and ": " as separators, quotes,
    backslashes and control characters escaped); text beyond ASCII it
    writes as it is, where [json.dumps] writes escapes.  [MiniJson.loads]
    reads back what [MiniJson.dumps] wrote.  Of JSON text in general it
    reads the part whose numbers have neither fraction nor exponent and
    whose escapes stay below [\u0080]; unlike [json.loads] it takes a
    number with leading zeros and keeps a repeated key of an object
    twice. *)

Module MiniJson.

Definition escape_char (c : ascii) : string :=
  let n := nat_of_ascii c in
  if Ascii.eqb c Py.dquote then String "\" (String Py.dquote "")
  else if Ascii.eqb c "\" then "\\"
  else if (n =? 8)%nat then "\b"
  else if (n =? 9)%nat then "\t"
  else if (n =? 10)%nat then "\n"
  else if (n =? 12)%nat then "\f"
  else if (n =? 13)%nat then "\r"
  else if (n <? 32)%nat || (n =? 127)%nat then
    "\u00"
      ++ String (MiniPy.hex_digit (n / 16))
           (String (MiniPy.hex_digit (n mod 16)) "")
  else String c "".

Fixpoint escape (s : string) : string :=
  match s with
  | "" => ""
  | String c s' => escape_char c ++ escape s'
  end.

Definition quoted (s : string) : string :=
  String Py.dquote (escape s ++ String Py.dquote "").

Fixpoint dumps (v : json) : string :=
  match v with
  | JNull => "null"
  | JBool b => if b then "true" else "false"
  | JInt z => pretty z
  | JFloat x => MiniPy.float_text "NaN" "Infinity" x
  | JStr s => quoted s
  | JList l => "[" ++ Py.join ", " (map dumps l) ++ "]"
  | JDict d =>
      "{" ++ Py.join ", " (map (fun kv => quoted kv.1 ++ ": " ++ dumps kv.2) d)
        ++ "}"
  end.

Definition is_ws (c : ascii) : bool :=
  let n := nat_of_ascii c in
  ((n =? 32) || (n =? 9) || (n =? 10) || (n =? 13))%nat.

Fixpoint skip_ws (s : string) : string :=
  match s with
  | "" => ""
  | String c s' => if is_ws c then skip_ws s' else s
  end.

Definition hex_value (c : ascii) : option nat :=
  let n := nat_of_ascii c in
  if ((48 <=? n) && (n <=? 57))%nat then Some (n - 48)%nat
  else if ((97 <=? n) && (n <=? 102))%nat then Some (n - 87)%nat
  else if ((65 <=? n) && (n <=? 70))%nat then Some (n - 55)%nat
  else None.

Definition unescape (c : ascii) : option ascii :=
  if Ascii.eqb c Py.dquote then Some Py.dquote
  else if Ascii.eqb c "\" then Some "\"%char
  else if Ascii.eqb c "/" then Some "/"%char
  else if Ascii.eqb c "b" then Some (ascii_of_nat 8)
  else if Ascii.eqb c "t" then Some (ascii_of_nat 9)
  else if Ascii.eqb c "n" then Some (ascii_of_nat 10)
  else if Ascii.eqb c "f" then Some (ascii_of_nat 12)
  else if Ascii.eqb c "r" then Some (ascii_of_nat 13)
  else None.

(** The text up to the closing quote, and what follows it. *)
Fixpoint parse_string_body (s : string) : option (string * string) :=
  match s with
  | "" => None
  | String c s' =>
      if Ascii.eqb c Py.dquote then Some ("", s')
      else if Ascii.eqb c "\" then
        match s' with
        | String e s'' =>
            match unescape e with
            | Some c' =>
                '(body, rest) ← parse_string_body s''; Some (String c' body, rest)
            | None =>
                match s'' with
                | String h1 (String h2 (String h3 (String h4 s4))) =>
                    if Ascii.eqb e "u" && Ascii.eqb h1 "0" && Ascii.eqb h2 "0" then
                      a ← hex_value h3;
                      b ← hex_value h4;
                      if (a <? 8)%nat then
                        '(body, rest) ← parse_string_body s4;
                        Some (String (ascii_of_nat (16 * a + b)) body, rest)
                      else None
                    else None
                | _ => None
                end
            end
        | "" => None
        end
      else if (nat_of_ascii c <? 32)%nat then None
      else '(body, rest) ← parse_string_body s'; Some (String c body, rest)
  end.

Fixpoint parse_digits (acc : Z) (s : string) : Z * string :=
  match s with
  | "" => (acc, "")
  | String c s' =>
      match MiniPy.digit_of c with
      | Some d => parse_digits (10 * acc + d) s'
      | None => (acc, s)
      end
  end.

Definition starts_with_digit (s : string) : bool :=
  match s with
  | String c _ => bool_decide (is_Some (MiniPy.digit_of c))
  | "" => false
  end.

Definition parse_number (s : string) : option (json * string) :=
  match s with
  | String c s' =>
      if Ascii.eqb c "-" then
        if starts_with_digit s' then
          let '(z, rest) := parse_digits 0 s' in Some (JInt (- z), rest)
        else None
      else if starts_with_digit s then
        let '(z, rest) := parse_digits 0 s in Some (JInt z, rest)
      else None
  | "" => None
  end.

(** [s] without the prefix [word], when it starts with it. *)
Fixpoint strip_prefix (word s : string) : option string :=
  match word with
  | "" => Some s
  | String a word' =>
      match s with
      | String b s' => if Ascii.eqb a b then strip_prefix word' s' else None
      | "" => None
      end
  end.

Definition literal (word : string) (v : json) (s : string)
  : option (json * string) :=
  rest ← strip_prefix word s; Some (v, rest).

(** What follows [c], when [c] is the next character that is not
    whitespace. *)
Definition next_is (c : ascii) (s : string) : option string :=
  match skip_ws s with
  | String c' rest => if Ascii.eqb c' c then Some rest else None
  | "" => None
  end.

Fixpoint parse_value (fuel : nat) (s : string) : option (json * string) :=
  match fuel with
  | O => None
  | S fuel' =>
      match skip_ws s with
      | "" => None
      | String c rest =>
          if Ascii.eqb c "n" then literal "null" JNull (String c rest)
          else if Ascii.eqb c "t" then literal "true" (JBool true) (String c rest)
          else if Ascii.eqb c "f" then literal "false" (JBool false) (String c rest)
          else if Ascii.eqb c Py.dquote then
            '(body, rest') ← parse_string_body rest; Some (JStr body, rest')
          else if Ascii.eqb c "[" then
            match next_is "]" rest with
            | Some rest' => Some (JList [], rest')
            | None => '(l, rest') ← parse_elements fuel' rest; Some (JList l, rest')
            end
          else if Ascii.eqb c "{" then
            match next_is "}" rest with
            | Some rest' => Some (JDict [], rest')
            | None => '(d, rest') ← parse_members fuel' rest; Some (JDict d, rest')
            end
          else parse_number (String c rest)
      end
  end
with parse_elements (fuel : nat) (s : string) : option (list json * string) :=
  match fuel with
  | O => None
  | S fuel' =>
      '(v, rest) ← parse_value fuel' s;
      match next_is "," rest with
      | Some rest' =>
          '(l, rest'') ← parse_elements fuel' rest'; Some (v :: l, rest'')
      | None =>
          match next_is "]" rest with
          | Some rest' => Some ([v], rest')
          | None => None
          end
      end
  end
with parse_members (fuel : nat) (s : string) : option (pydict * string) :=
  match fuel with
  | O => None
  | S fuel' =>
      rest ← next_is Py.dquote s;
      '(k, rest1) ← parse_string_body rest;
      rest2 ← next_is ":" rest1;
      '(v, rest3) ← parse_value fuel' rest2;
      match next_is "," rest3 with
      | Some rest4 =>
          '(d, rest5) ← parse_members fuel' rest4; Some ((k, v) :: d, rest5)
      | None =>
          match next_is "}" rest3 with
          | Some rest4 => Some ([(k, v)], rest4)
          | None => None
          end
      end
  end.

Definition loads (s : string) : option json :=
  '(v, rest) ← parse_value (S (String.length s)) s;
  match skip_ws rest with
  | "" => Some v
  | _ => None
  end.

(** Fuel enough to read back [dumps v]. *)
Fixpoint weight (v : json) : nat :=
  match v with
  | JList l => S (list_sum (map (fun x => S (weight x)) l))
  | JDict d => S (list_sum (map (fun kv => S (weight kv.2)) d))
  | _ => 1
  end.

(** Text after which a number ends. *)
Definition delimited (rest : string) : Prop :=
  match rest with
  | "" => True
  | String c _ => MiniPy.digit_of c = None
  end.

End MiniJson.

(** No float in [v], nor inside it. *)
Fixpoint float_free (v : json) : bool :=
  match v with
  | JFloat _ => false
  | JList l => forallb float_free l
  | JDict d => forallb (fun kv => float_free kv.2) d
  | _ => true
  end.

Definition mini : Runtime :=
  {| dumps := MiniJson.dumps;
     loads := MiniJson.loads;
     int_of_str := MiniPy.int_of_str;
     repr_of_str := MiniPy.repr_str;
     repr_of_float := MiniPy.float_text "nan" "inf";
     text_of_real := MiniPy.float_text "NaN" "Inf" |}.

(** [U+00A0], the no-break space, in UTF-8. *)
Definition nbsp : string :=
  String (ascii_of_nat 194) (String (ascii_of_nat 160) "").

(** ** Vocabulary of the specification *)

(** The two failures of [set_item_checked]; the specification calls them
    [ValidationError] and [DayClosedError]. *)
Definition evidence_required : exn := ValueError "Evidence is required".
Definition day_is_closed : exn := ValueError "Day is closed. Reopen to edit.".

(** The template table exists and holds its row; the day tables exist. *)
Definition initialized (db : Database) : Prop :=
  (∃ data, template db = Some (Some data))
  ∧ is_Some (day_item db) ∧ is_Some (day_status db).

(** [(day, item_id)] names a row of [day_item]. *)
Definition has_row (db : Database) (day : date) (item_id : string) : bool :=
  match day_item db with
  | Some rows => existsb (same_key (isoformat day) item_id) rows
  | None => false
  end.

(** The rows of [day_item] for one day, in insertion order. *)
Definition rows_of_day (db : Database) (day : date) : list DayItem.t :=
  match day_item db with
  | Some rows => filter (fun r => DayItem.day r = isoformat day) rows
  | None => []
  end.

(** [day_status] says the day is closed. *)
Definition closed_in (db : Database) (day : date) : bool :=
  match day_status db with
  | Some st =>
      match st !! isoformat day with
      | Some row => DayStatus.closed row
      | None => false
      end
  | None => false
  end.

(** Empty, or white space only. *)
Definition blank (evidence : string) : bool :=
  String.eqb (Py.strip evidence) "".

(** *** Templates as the data model describes them *)

Record SubItem := mkSubItem {
  sub_id : string;
  sub_text : string;
  sub_importance : option Z
}.

Record TemplateItem := mkTemplateItem {
  id : string;
  text : string;
  importance : option Z;
  subitems : list SubItem
}.

Definition as_string (v : json) : option string :=
  match v with
  | JStr s => Some s
  | _ => None
  end.

(** An optional integer field: absent, or present with an integer. *)
Definition optional_int (d : pydict) (k : string) : option (option Z) :=
  if Py.contains d k then
    match Py.get d k JNull with
    | JInt z => Some (Some z)
    | _ => None
    end
  else Some None.

Definition as_sub_item (v : json) : option SubItem :=
  match v with
  | JDict d =>
      i ← as_string (Py.get d "id" JNull);
      t ← as_string (Py.get d "text" JNull);
      imp ← optional_int d "importance";
      Some (mkSubItem i t imp)
  | _ => None
  end.

Definition as_item (v : json) : option TemplateItem :=
  match v with
  | JDict d =>
      i ← as_string (Py.get d "id" JNull);
      t ← as_string (Py.get d "text" JNull);
      imp ← optional_int d "importance";
      subs ← (if Py.contains d "subitems" then
                match Py.get d "subitems" JNull with
                | JList l => mapM as_sub_item l
                | _ => None
                end
              else Some []);
      Some (mkTemplateItem i t imp subs)
  | _ => None
  end.

(** The typed reading of a template, when every item and sub-item has a
    string [id], a string [text], an integer [importance] if any, and a
    list of sub-items if any. *)
Definition as_template (template_data : list json)
  : option (list TemplateItem) :=
  mapM as_item template_data.

(** Flattening as the specification words it: an item, then its sub-items
    in their order; a sub-item is named [<parent_id>:<sub_id>] and takes the
    parent's importance when it has none. *)
Definition item_importance (it : TemplateItem) : Z :=
  default 1 (importance it).

Definition top_line (it : TemplateItem) : FlatLine :=
  {| line_id := id it;
     line_text := JStr (text it);
     line_importance := item_importance it |}.

Definition sub_line (it : TemplateItem) (sub : SubItem) : FlatLine :=
  {| line_id := id it ++ ":" ++ sub_id sub;
     line_text := JStr (sub_text sub);
     line_importance := default (item_importance it) (sub_importance sub) |}.

Definition expand (it : TemplateItem) : list FlatLine :=
  top_line it :: map (sub_line it) (subitems it).

Definition flatten_spec (t : list TemplateItem) : list FlatLine :=
  concat (map expand t).

(** The row day instantiation writes for a line with a string text. *)
Definition line_row `{Runtime} (day_str : string) (line : FlatLine)
  : DayItem.t :=
  DayItem.mk day_str (line_id line) (Py.str (line_text line))
    (line_importance line) false "" "" None.

(** A template the data model calls valid: every item and sub-item has an
    [id] and a [text] that are not empty and an importance of at least 1,
    and no two items, and no two sub-items of one item, share an [id]. *)
Definition valid_sub_item (sub : SubItem) : Prop :=
  sub_id sub ≠ "" ∧ sub_text sub ≠ ""
  ∧ ∀ z, sub_importance sub = Some z → 1 ≤ z.

Definition valid_item (it : TemplateItem) : Prop :=
  id it ≠ "" ∧ text it ≠ ""
  ∧ (∀ z, importance it = Some z → 1 ≤ z)
  ∧ Forall valid_sub_item (subitems it)
  ∧ NoDup (map sub_id (subitems it)).

Definition valid_template (t : list TemplateItem) : Prop :=
  Forall valid_item t ∧ NoDup (map id t).

(** What day instantiation needs beyond that: the flattened lines have ids
    that differ from one another and importances that fit the 64 bits of
    an SQLite [INTEGER]. *)
Definition storable_template (t : list TemplateItem) : Prop :=
  NoDup (map line_id (flatten_spec t))
  ∧ Forall (fun line => fits_int64 (line_importance line) = true)
      (flatten_spec t).

(** *** Templates [save] accepts, and their defaults *)

Definition accepted_item (item : json) : Prop :=
  ∃ d, item = JDict d
       ∧ Py.contains d "id" = true ∧ Py.contains d "text" = true.

(** [item] with [importance = 1] and [subitems = []] where absent. *)
Definition with_defaults (item : json) : json :=
  match item with
  | JDict d =>
      let d1 := if Py.contains d "importance" then d
                else (d ++ [("importance", JInt 1)])%list in
      let d2 := if Py.contains d1 "subitems" then d1
                else (d1 ++ [("subitems", JList [])])%list in
      JDict d2
  | _ => item
  end.

(** *** The invariant of a [day_item] row *)

Definition row_ok (r : DayItem.t) : Prop :=
  (DayItem.checked r = true →
     Py.strip (DayItem.evidence r) ≠ "" ∧ is_Some (DayItem.checked_at r))
  ∧ (DayItem.checked r = false → DayItem.checked_at r = None).

Definition rows_ok (db : Database) : Prop :=
  ∀ rows, day_item db = Some rows → Forall row_ok rows.

(** *** The calls of the service *)

Inductive call :=
| Initialize
| GetDay (day : date)
| MarkItem (day : date) (item_id : string) (checked : bool)
    (evidence why : string) (now : string)
| CloseDay (day : date) (now : string)
| ReopenDay (day : date) (now : string)
| GetCheckedDays (month_start month_end : date)
| LoadTemplate
| SaveTemplate (template_data : json)
| ResetTemplate.

(** The database a call leaves, whether it returns or raises. *)
Definition run `{Runtime} (db : Database) (c : call) : Database :=
  match c with
  | Initialize => (QuotaService.initialize db).2
  | GetDay day => (QuotaService.get_day day db).2
  | MarkItem day item_id checked evidence why now =>
      (QuotaService.mark_item day item_id checked evidence why now db).2
  | CloseDay day now => (QuotaService.close_day day now db).2
  | ReopenDay day now => (QuotaService.reopen_day day now db).2
  | GetCheckedDays a b => (QuotaService.get_checked_days a b db).2
  | LoadTemplate => (QuotaService.load_template db).2
  | SaveTemplate template_data =>
      (QuotaService.save_template template_data db).2
  | ResetTemplate => (QuotaService.reset_template db).2
  end.


(** *** Auxiliary predicates *)

(** A row as day instantiation writes it for [day_str]. *)
Definition fresh_for (day_str : string) (r : DayItem.t) : Prop :=
  DayItem.day r = day_str ∧ DayItem.checked r = false
  ∧ DayItem.evidence r = "" ∧ DayItem.why r = ""
  ∧ DayItem.checked_at r = None.

Ltac unfold_M :=
  unfold transaction, raise, lift, table_template, table_day_item,
    table_day_status, write_template, write_day_item, write_day_status,
    mbind, M_bind, mret, M_ret in *.

(** ** Examples to run the methods on *)

Definition new_year : date := {| year := 2024; month := 1; day_of_month := 1 |}.

(** The database after [initialize()] on a new file. *)
Definition started : Database :=
  (QuotaService.initialize (H := mini) empty_database).2.

(** ... after [get_day] has instantiated [new_year] ... *)
Definition opened : Database :=
  (QuotaService.get_day (H := mini) new_year started).2.

(** ... and after that day was closed. *)
Definition shut : Database :=
  (QuotaService.close_day new_year "2024-01-01T21:00:00" opened).2.

(** A template that is valid as the data model has it, in which the
    sub-item [1] of the item [a] and the item [a:1] get the same line id. *)
Definition crossing_template : list json :=
  [ JDict [("id", JStr "a"); ("text", JStr "A"); ("importance", JInt 1);
           ("subitems",
            JList [JDict [("id", JStr "1"); ("text", JStr "A1")]])];
    JDict [("id", JStr "a:1"); ("text", JStr "B"); ("importance", JInt 1);
           ("subitems", JList [])] ].

Definition crossed : Database :=
  (QuotaService.save_template (H := mini) (JList crossing_template)
     started).2.

(** A valid template with an importance beyond 64 bits. *)
Definition oversized_template : list json :=
  [ JDict [("id", JStr "a"); ("text", JStr "A"); ("importance", JInt (2 ^ 63));
           ("subitems", JList [])] ].

Definition oversized : Database :=
  (QuotaService.save_template (H := mini) (JList oversized_template)
     started).2.

(** The template row overwritten from outside with a list of numbers. *)
Definition overwritten : Database := with_template started (Some "[1, 2]").

(** The database after [TemplateRepository.init_schema] alone. *)
Definition schema_only : Database :=
  (TemplateRepository.init_schema empty_database).2.

(** ** More vocabulary *)

(** The invariant of a [day_status] row: closed exactly when [closed_at]
    is set. *)
Definition status_ok (s : DayStatus.t) : Prop :=
  DayStatus.closed s = true ↔ is_Some (DayStatus.closed_at s).

Definition statuses_ok (db : Database) : Prop :=
  ∀ st day_str s,
    day_status db = Some st → st !! day_str = Some s → status_ok s.

(** The primary key of a [day_item] row. *)
Definition row_key (r : DayItem.t) : string * string :=
  (DayItem.day r, DayItem.item_id r).

Definition keys_unique (db : Database) : Prop :=
  ∀ rows, day_item db = Some rows → NoDup (map row_key rows).

(** The columns day instantiation fills from the template. *)
Definition row_snapshot (r : DayItem.t) : string * string * string * Z :=
  (DayItem.day r, DayItem.item_id r, DayItem.item_text r,
   DayItem.importance r).

(** The lines that survive [INSERT OR IGNORE]: the first line of every id
    not in [seen]. *)
Fixpoint first_by_id (seen : list string) (lines : list FlatLine)
  : list FlatLine :=
  match lines with
  | [] => []
  | line :: lines' =>
      if bool_decide (line_id line ∈ seen) then first_by_id seen lines'
      else line :: first_by_id (line_id line :: seen) lines'
  end.

(** The sorted rows of a day, as [get_day_items] selects them. *)
Definition sorted_rows_of_day (db : Database) (day : date)
  : list DayItem.t :=
  merge_sort by_item_id (rows_of_day db day).

(** ** More examples *)

(** Two items that share the id [walk]. *)
Definition colliding_template : list json :=
  [ JDict [("id", JStr "walk"); ("text", JStr "Walk"); ("importance", JInt 2);
           ("subitems", JList [])];
    JDict [("id", JStr "walk"); ("text", JStr "Walk again");
           ("importance", JInt 5); ("subitems", JList [])] ].

Definition collided : Database :=
  (QuotaService.save_template (H := mini) (JList colliding_template)
     started).2.

(** A template [save] accepts whose second item has a list for a text. *)
Definition unstorable_template : list json :=
  [ JDict [("id", JStr "walk"); ("text", JStr "Walk")];
    JDict [("id", JStr "read"); ("text", JList [JStr "Read"])] ].

Definition unstorable : Database :=
  (QuotaService.save_template (H := mini) (JList unstorable_template)
     started).2.

(** ** Templates with keys left out

    A reading of a template that allows what the data model forbids: an
    item or sub-item without [id] or without [text], and a [subitems] that
    is not a list but counts as false in Python. *)

Record LooseSub := mkLooseSub {
  loose_sub_id : option string;
  loose_sub_text : option string;
  loose_sub_importance : option Z
}.

Record LooseItem := mkLooseItem {
  loose_id : option string;
  loose_text : option string;
  loose_importance : option Z;
  loose_subitems : list LooseSub
}.

(** An optional string field: absent, or present with a string. *)
Definition optional_string (d : pydict) (k : string)
  : option (option string) :=
  if Py.contains d k then
    match Py.get d k JNull with
    | JStr s => Some (Some s)
    | _ => None
    end
  else Some None.

Definition as_loose_sub (v : json) : option LooseSub :=
  match v with
  | JDict d =>
      i ← optional_string d "id";
      t ← optional_string d "text";
      imp ← optional_int d "importance";
      Some (mkLooseSub i t imp)
  | _ => None
  end.

Definition as_loose_item (v : json) : option LooseItem :=
  match v with
  | JDict d =>
      i ← optional_string d "id";
      t ← optional_string d "text";
      imp ← optional_int d "importance";
      subs ← (match Py.get d "subitems" (JList []) with
              | JList l => mapM as_loose_sub l
              | other => if Py.truthy other then None else Some []
              end);
      Some (mkLooseItem i t imp subs)
  | _ => None
  end.

(** The lines of the sub-items of one item; [pos] is the number of lines
    flattened before the first of them. *)
Fixpoint loose_sub_lines (base_id : string) (parent : Z) (pos : nat)
    (subs : list LooseSub) : list FlatLine :=
  match subs with
  | [] => []
  | sub :: subs' =>
      let sub_id :=
        base_id ++ ":"
          ++ default (pretty (Z.of_nat pos)) (loose_sub_id sub) in
      {| line_id := sub_id;
         line_text := JStr (default sub_id (loose_sub_text sub));
         line_importance := default parent (loose_sub_importance sub) |}
      :: loose_sub_lines base_id parent (S pos) subs'
  end.

(** The lines of a template; [pos] is the number of lines flattened before
    it. *)
Fixpoint loose_lines (pos : nat) (t : list LooseItem) : list FlatLine :=
  match t with
  | [] => []
  | it :: t' =>
      let base_id := default "None" (loose_id it) in
      let importance := default 1 (loose_importance it) in
      let subs :=
        loose_sub_lines base_id importance (S pos) (loose_subitems it) in
      ({| line_id := base_id;
          line_text := JStr (default base_id (loose_text it));
          line_importance := importance |}
       :: subs ++ loose_lines (S pos + length subs) t')%list
  end.

(** ** [app.py]

    The functions of [app.py] work on the same three tables.  Those that
    differ from their namesakes in [core.py] are [init_db], which does in
    one transaction what [QuotaService.initialize] does in three, and
    [set_item_checked], which does not look at [day_status]. *)

Module App.
Section WithRuntime.
Context `{Runtime}.

(** The three [CREATE TABLE IF NOT EXISTS] statements of [init_db]. *)
Definition create_tables : M unit := fun db =>
  (Ok tt,
   {| template := Some (default None (template db));
      day_item := Some (default [] (day_item db));
      day_status := Some (default ∅ (day_status db)) |}).

Definition init_db : M unit :=
  transaction (
    create_tables;;
    row ← table_template;
    match row with
    | None => write_template (Some (dumps (JList DEFAULT_TEMPLATE)))
    | Some _ => mret tt
    end).

Definition set_item_checked (day : date) (item_id : string) (checked : bool)
    (evidence why : string) (now : string) : M unit :=
  if checked && String.eqb (Py.strip evidence) "" then
    raise (ValueError "Evidence is required")
  else
    transaction (
      rows ← table_day_item;
      write_day_item
        (map (DayRepository.update_checked (isoformat day) item_id checked
                (Py.strip evidence) (Py.strip why)
                (if checked then Some now else None)) rows)).

End WithRuntime.
End App.

(** ** Calendar dates

    [datetime.date] holds a year from 1 to 9999, a month from 1 to 12 and a
    day of that month.  [date + timedelta(days=n)] moves [n] days along the
    proleptic Gregorian calendar and raises [OverflowError] when it leaves
    these years; it is modelled a day at a time. *)

(** [datetime.MAXYEAR], 9999 *)
Definition MAXYEAR : nat := 9 * 1111.

Definition is_leap (y : nat) : bool :=
  ((y mod 4 =? 0) && (negb (y mod 100 =? 0) || (y mod 400 =? 0)))%nat.

Definition days_in_month (y m : nat) : nat :=
  match m with
  | 2 => if is_leap y then 29 else 28
  | 4 | 6 | 9 | 11 => 30
  | _ => 31
  end%nat.

Definition valid_date (d : date) : Prop :=
  (1 ≤ year d ≤ MAXYEAR ∧ 1 ≤ month d ≤ 12
   ∧ 1 ≤ day_of_month d ≤ days_in_month (year d) (month d))%nat.

(** [a <= b] on dates *)
Definition date_le (a b : date) : Prop :=
  (year a < year b
   ∨ year a = year b
     ∧ (month a < month b
        ∨ month a = month b ∧ day_of_month a ≤ day_of_month b))%nat.

(** [d.replace(day=k)] *)
Definition replace_day (d : date) (k : nat) : result date :=
  if ((1 <=? k) && (k <=? days_in_month (year d) (month d)))%nat then
    Ok {| year := year d; month := month d; day_of_month := k |}
  else Raise (ValueError "day is out of range for month").

(** [d + timedelta(days=1)] *)
Definition next_day (d : date) : result date :=
  if (day_of_month d <? days_in_month (year d) (month d))%nat then
    Ok {| year := year d; month := month d;
          day_of_month := S (day_of_month d) |}
  else if (month d <? 12)%nat then
    Ok {| year := year d; month := S (month d); day_of_month := 1 |}
  else if (year d <? MAXYEAR)%nat then
    Ok {| year := S (year d); month := 1; day_of_month := 1 |}
  else Raise OverflowError.

(** [d - timedelta(days=1)] *)
Definition previous_day (d : date) : result date :=
  if (1 <? day_of_month d)%nat then
    Ok {| year := year d; month := month d;
          day_of_month := pred (day_of_month d) |}
  else if (1 <? month d)%nat then
    Ok {| year := year d; month := pred (month d);
          day_of_month := days_in_month (year d) (pred (month d)) |}
  else if (1 <? year d)%nat then
    Ok {| year := pred (year d); month := 12; day_of_month := 31 |}
  else Raise OverflowError.

(** [d + timedelta(days=n)] *)
Fixpoint add_days (d : date) (n : nat) : result date :=
  match n with
  | O => Ok d
  | S n' => d' ← next_day d; add_days d' n'
  end.

(** [d - timedelta(days=n)] *)
Fixpoint subtract_days (d : date) (n : nat) : result date :=
  match n with
  | O => Ok d
  | S n' => d' ← previous_day d; subtract_days d' n'
  end.

(** [CalendarView] of [app.py], without its widgets: the month shown is a
    date, and the methods compute from it. *)
Module CalendarView.

(** The first three statements of [watch_month] (and the same three in
    [MainScreen.load_day]): the first and the last day of the month of
    [new]. *)
Definition month_window (new : date) : result (date * date) :=
  month_start ← replace_day new 1;
  day_28 ← replace_day month_start 28;
  later ← add_days day_28 4;
  next_month ← replace_day later 1;
  month_end ← subtract_days next_month 1;
  Ok (month_start, month_end).

(** The value [watch_month] gives [self.checked_days].  [get_checked_days]
    of [app.py] has the text of [DayRepository.get_checked_days]. *)
Definition watch_month (new : date) : M (gset string) :=
  '(month_start, month_end) ← lift (month_window new);
  DayRepository.get_checked_days month_start month_end.

(** The month [action_prev] assigns to [self.month]. *)
Definition action_prev (month : date) : result date :=
  first ← replace_day month 1;
  before ← subtract_days first 1;
  replace_day before 1.

(** The month [action_next] assigns to [self.month]. *)
Definition action_next (month : date) : result date :=
  day_28 ← replace_day month 28;
  later ← add_days day_28 4;
  replace_day later 1.

End CalendarView.

Definition first_of_month (d : date) : date :=
  {| year := year d; month := month d; day_of_month := 1 |}.

Definition last_of_month (d : date) : date :=
  {| year := year d; month := month d;
     day_of_month := days_in_month (year d) (month d) |}.

(** The first day of the month after, and of the month before. *)
Definition first_of_next_month (d : date) : date :=
  if (month d =? 12)%nat then
    {| year := S (year d); month := 1; day_of_month := 1 |}
  else {| year := year d; month := S (month d); day_of_month := 1 |}.

Definition first_of_previous_month (d : date) : date :=
  if (month d =? 1)%nat then
    {| year := pred (year d); month := 12; day_of_month := 1 |}
  else {| year := year d; month := pred (month d); day_of_month := 1 |}.

(** * Properties *)

Example mini_default :
  round_trips (H := mini) (JList DEFAULT_TEMPLATE).
Proof. vm_compute. reflexivity. Qed.

(** ** [str.strip] *)

Lemma lstrip_unfold s :
  Py.lstrip s
  = match Py.skip_space s with Some r => Py.lstrip r | None => s end.
Proof.
  destruct s as [|c1 [|c2 [|c3 s3]]]; cbn [Py.lstrip Py.skip_space];
    try done.
  - by destruct (Py.is_space c1).
  - destruct (Py.is_space c1); [done|]. by destruct (Py.is_space2 c1 c2).
  - destruct (Py.is_space c1); [done|].
    destruct (Py.is_space2 c1 c2); [done|].
    by destruct (Py.is_space3 c1 c2 c3).
Qed.

Lemma skip_space_shorter s r :
  Py.skip_space s = Some r → (String.length r < String.length s)%nat.
Proof.
  destruct s as [|c1 [|c2 [|c3 s3]]]; cbn [Py.skip_space]; try done.
  - destruct (Py.is_space c1); [|done]. intros [= <-]. simpl. lia.
  - destruct (Py.is_space c1); [intros [= <-]; simpl; lia|].
    destruct (Py.is_space2 c1 c2); [|done]. intros [= <-]. simpl. lia.
  - destruct (Py.is_space c1); [intros [= <-]; simpl; lia|].
    destruct (Py.is_space2 c1 c2); [intros [= <-]; simpl; lia|].
    destruct (Py.is_space3 c1 c2 c3); [|done]. intros [= <-]. simpl. lia.
Qed.

(** Whether a text starts with white space shows in its first code
    point. *)
Lemma skip_space_app s r w :
  Py.skip_space s = Some r → Py.skip_space (s ++ w) = Some (r ++ w).
Proof.
  destruct s as [|c1 [|c2 [|c3 s3]]]; simpl; try done.
  - destruct (Py.is_space c1); [|done]. by intros [= <-].
  - destruct (Py.is_space c1); [by intros [= <-]|].
    destruct (Py.is_space2 c1 c2); [|done]. by intros [= <-].
  - destruct (Py.is_space c1); [by intros [= <-]|].
    destruct (Py.is_space2 c1 c2); [by intros [= <-]|].
    destruct (Py.is_space3 c1 c2 c3); [|done]. by intros [= <-].
Qed.

Lemma lstrip_no_space s : Py.skip_space (Py.lstrip s) = None.
Proof.
  remember (String.length s) as n eqn:Hn. revert s Hn.
  induction (lt_wf n) as [n _ IH]. intros s ->.
  rewrite lstrip_unfold. destruct (Py.skip_space s) as [r|] eqn:Hs; [|done].
  eapply IH; [|done]. by apply skip_space_shorter.
Qed.

Lemma lstrip_fixed s : Py.skip_space s = None → Py.lstrip s = s.
Proof. intros Hs. by rewrite lstrip_unfold, Hs. Qed.

(** White space followed by white space is white space. *)
Lemma lstrip_app_blank s w :
  Py.lstrip s = "" → Py.lstrip w = "" → Py.lstrip (s ++ w) = "".
Proof.
  remember (String.length s) as n eqn:Hn. revert s Hn.
  induction (lt_wf n) as [n _ IH]. intros s -> Hs Hw.
  destruct (Py.skip_space s) as [r|] eqn:Hskip.
  - rewrite lstrip_unfold, (skip_space_app _ r) by done.
    rewrite lstrip_unfold, Hskip in Hs.
    eapply IH; [|done..]. by apply skip_space_shorter.
  - rewrite lstrip_fixed in Hs by done. by subst s.
Qed.

(** [rstrip] cuts white space off the end. *)
Lemma rstrip_split s : ∃ w, s = Py.rstrip s ++ w ∧ Py.lstrip w = "".
Proof.
  induction s as [|c s (w & Hs & Hw)]; [by exists ""|].
  cbn [Py.rstrip]. destruct (String.eqb_spec (Py.lstrip (String c s)) "").
  - by exists (String c s).
  - exists w. split; [|done].
    change (String c s = String c (Py.rstrip s ++ w)). by rewrite <- Hs.
Qed.

Lemma rstrip_idempotent s : Py.rstrip (Py.rstrip s) = Py.rstrip s.
Proof.
  induction s as [|c s IH]; [done|]. cbn [Py.rstrip].
  destruct (String.eqb_spec (Py.lstrip (String c s)) "") as [|Hs]; [done|].
  cbn [Py.rstrip]. rewrite IH.
  destruct (String.eqb_spec (Py.lstrip (String c (Py.rstrip s))) "")
    as [Hblank|]; [|done].
  destruct Hs. destruct (rstrip_split s) as (w & Hw & Hblank').
  rewrite Hw. change (String c (Py.rstrip s ++ w))
    with (String c (Py.rstrip s) ++ w).
  by apply lstrip_app_blank.
Qed.

Lemma rstrip_no_space s :
  Py.skip_space s = None → Py.skip_space (Py.rstrip s) = None.
Proof.
  intros Hs. destruct (rstrip_split s) as (w & Hw & _).
  destruct (Py.skip_space (Py.rstrip s)) as [r|] eqn:Hr; [|done].
  apply (skip_space_app _ _ w) in Hr. rewrite <- Hw in Hr. congruence.
Qed.

Lemma strip_idempotent s : Py.strip (Py.strip s) = Py.strip s.
Proof.
  unfold Py.strip.
  rewrite (lstrip_fixed (Py.rstrip (Py.lstrip s))).
  - apply rstrip_idempotent.
  - apply rstrip_no_space, lstrip_no_space.
Qed.

(** The white space [strip] removes is Python's, not only the ASCII one:
    a no-break space and an ideographic space go like the blank. *)
Example strip_unicode_space :
  Py.strip (nbsp ++ " walked " ++ nbsp) = "walked"
  ∧ blank (nbsp ++ " ") = true
  ∧ blank (String (ascii_of_nat 227)
             (String (ascii_of_nat 128) (String (ascii_of_nat 128) "")))
    = true.
Proof. vm_compute. done. Qed.

Lemma blank_false_iff s : blank s = false ↔ Py.strip s ≠ "".
Proof.
  unfold blank. destruct (String.eqb_spec (Py.strip s) ""); split; congruence.
Qed.

(** ** Running methods *)


Lemma with_day_item_same db rows :
  day_item db = Some rows → with_day_item db rows = db.
Proof. destruct db; simpl; intros ->; done. Qed.

Lemma with_template_same db t :
  template db = Some t → with_template db t = db.
Proof. destruct db; simpl; intros ->; done. Qed.

Lemma with_day_status_same db st :
  day_status db = Some st → with_day_status db st = db.
Proof. destruct db; simpl; intros ->; done. Qed.

Section Methods.

Lemma is_day_closed_spec day db :
  is_Some (day_status db) →
  DayRepository.is_day_closed day db = (Ok (closed_in db day), db).
Proof.
  intros [st Hst]. unfold DayRepository.is_day_closed, closed_in.
  unfold_M. rewrite Hst. done.
Qed.

Lemma is_day_closed_no_table day db :
  day_status db = None →
  DayRepository.is_day_closed day db
  = (Raise (no_such_table "day_status"), db).
Proof.
  intros Hst. unfold DayRepository.is_day_closed. unfold_M.
  rewrite Hst. done.
Qed.

Lemma update_checked_other_rows day_str item_id c e w at_ rows :
  existsb (same_key day_str item_id) rows = false →
  map (DayRepository.update_checked day_str item_id c e w at_) rows = rows.
Proof.
  induction rows as [|r rows IH]; simpl; [done|].
  intros [Hr Hrows]%orb_false_elim.
  unfold DayRepository.update_checked at 1. rewrite Hr, IH; done.
Qed.

(** [set_item_checked] when both of its guards pass. *)
Lemma set_item_checked_passes day item_id checked evidence why now db rows :
  (checked = true → blank evidence = false) →
  is_Some (day_status db) →
  closed_in db day = false →
  day_item db = Some rows →
  DayRepository.set_item_checked day item_id checked evidence why now db
  = (Ok tt,
     with_day_item db
       (map (DayRepository.update_checked (isoformat day) item_id checked
               (Py.strip evidence) (Py.strip why)
               (if checked then Some now else None)) rows)).
Proof.
  intros Hev Hst Hopen Hrows. unfold DayRepository.set_item_checked.
  fold (blank evidence).
  assert (checked && blank evidence = false) as ->.
  { destruct checked; [by rewrite Hev|done]. }
  unfold mbind at 1, M_bind. rewrite is_day_closed_spec, Hopen by done.
  unfold_M. rewrite Hrows. done.
Qed.

End Methods.


Example started_initialized : initialized started.
Proof. vm_compute. repeat split; eauto. Qed.

Example opened_rows :
  map DayItem.item_id (rows_of_day opened new_year)
  = ["progress"; "care"; "maintenance"].
Proof. vm_compute. reflexivity. Qed.

(** ** [set_item_checked]: a row that does not exist *)

Section MissingRow.

(** C1, as amended: when no row exists for [(day, item_id)], the day is not
    closed and the evidence is not blank when [checked] is set,
    [set_item_checked] returns normally and leaves the database as it
    was; it raises nothing. *)
Theorem set_item_checked_missing_row
    day item_id checked evidence why now db :
  is_Some (day_item db) →
  is_Some (day_status db) →
  has_row db day item_id = false →
  closed_in db day = false →
  (checked = true → blank evidence = false) →
  DayRepository.set_item_checked day item_id checked evidence why now db
  = (Ok tt, db).
Proof.
  intros [rows Hrows] Hst Hrow Hopen Hev.
  rewrite (set_item_checked_passes _ _ _ _ _ _ _ rows) by done.
  unfold has_row in Hrow. rewrite Hrows in Hrow.
  rewrite update_checked_other_rows by done.
  by rewrite with_day_item_same.
Qed.

End MissingRow.

(** C1 fails as stated: after [initialize()], marking an item that day
    [new_year] does not have, with evidence, on an open day, returns
    normally. *)
Lemma set_item_checked_missing_row_returns :
  has_row started new_year "ghost" = false
  ∧ closed_in started new_year = false
  ∧ blank "done" = false
  ∧ (DayRepository.set_item_checked
       new_year "ghost" true "done" "" "2024-01-01T09:00:00" started).1
    = Ok tt.
Proof. vm_compute. done. Qed.

Lemma set_item_checked_missing_row_witness :
  DayRepository.set_item_checked
    new_year "ghost" true "done" "" "2024-01-01T09:00:00" started
  = (Ok tt, started).
Proof.
  apply set_item_checked_missing_row.
  - vm_compute. eauto.
  - vm_compute. eauto.
  - vm_compute. reflexivity.
  - vm_compute. reflexivity.
  - intros _. vm_compute. reflexivity.
Defined.

(** ** [set_item_checked]: the order of the two guards *)

Section Guards.

Lemma set_item_checked_blank day item_id evidence why now db :
  blank evidence = true →
  DayRepository.set_item_checked day item_id true evidence why now db
  = (Raise evidence_required, db).
Proof.
  intros Hev. unfold DayRepository.set_item_checked.
  fold (blank evidence). rewrite Hev. done.
Qed.

Lemma set_item_checked_closed day item_id checked evidence why now db :
  closed_in db day = true →
  (checked = true → blank evidence = false) →
  DayRepository.set_item_checked day item_id checked evidence why now db
  = (Raise day_is_closed, db).
Proof.
  intros Hclosed Hev. unfold DayRepository.set_item_checked.
  fold (blank evidence).
  assert (checked && blank evidence = false) as ->.
  { destruct checked; [by rewrite Hev|done]. }
  assert (is_Some (day_status db)) as Hst.
  { unfold closed_in in Hclosed. destruct (day_status db); [eauto|done]. }
  unfold mbind at 1, M_bind. rewrite is_day_closed_spec, Hclosed by done.
  done.
Qed.

(** C9: on a closed day and an existing item, marking as checked with
    blank evidence raises the missing-evidence error, which is not the
    closed-day error; the closed-day error is what any call that passes
    the evidence check gets; either way the database is left as it was. *)
Theorem evidence_checked_before_closed_day
    day item_id evidence why now db :
  closed_in db day = true →
  has_row db day item_id = true →
  blank evidence = true →
  DayRepository.set_item_checked day item_id true evidence why now db
  = (Raise evidence_required, db)
  ∧ evidence_required ≠ day_is_closed
  ∧ ∀ checked evidence',
      (checked = true → blank evidence' = false) →
      DayRepository.set_item_checked day item_id checked evidence' why now db
      = (Raise day_is_closed, db).
Proof.
  intros Hclosed _ Hev. split; [|split].
  - by apply set_item_checked_blank.
  - discriminate.
  - intros checked evidence' Hev'. by apply set_item_checked_closed.
Qed.

End Guards.

Lemma evidence_checked_before_closed_day_witness :
  DayRepository.set_item_checked
    new_year "care" true (" " ++ nbsp) "" "2024-01-01T22:00:00" shut
  = (Raise evidence_required, shut)
  ∧ evidence_required ≠ day_is_closed
  ∧ ∀ checked evidence',
      (checked = true → blank evidence' = false) →
      DayRepository.set_item_checked
        new_year "care" checked evidence' "" "2024-01-01T22:00:00" shut
      = (Raise day_is_closed, shut).
Proof.
  apply evidence_checked_before_closed_day.
  - vm_compute. reflexivity.
  - vm_compute. reflexivity.
  - vm_compute. reflexivity.
Defined.

(** ** Closing and reopening a day *)

Section Lifecycle.

Lemma set_day_closed_spec day closed now db st :
  day_status db = Some st →
  DayRepository.set_day_closed day closed now db
  = (Ok tt,
     with_day_status db
       (<[isoformat day :=
            DayStatus.mk closed (if closed then Some now else None)]> st)).
Proof.
  intros Hst. unfold DayRepository.set_day_closed. unfold_M.
  rewrite Hst. by destruct closed.
Qed.

Lemma set_day_closed_returns day closed now db db' :
  DayRepository.set_day_closed day closed now db = (Ok tt, db') →
  ∃ st, day_status db = Some st
        ∧ db' = with_day_status db
                  (<[isoformat day :=
                       DayStatus.mk closed (if closed then Some now else None)]> st).
Proof.
  destruct (day_status db) as [st|] eqn:Hst.
  - rewrite (set_day_closed_spec _ _ _ _ st) by done.
    intros [= <-]. eauto.
  - unfold DayRepository.set_day_closed. unfold_M. rewrite Hst.
    discriminate.
Qed.

Lemma closed_in_with_day_status db st day closed at_ :
  closed_in (with_day_status db (<[isoformat day := DayStatus.mk closed at_]> st))
    day = closed.
Proof. unfold closed_in. simpl. by rewrite lookup_insert_eq. Qed.

Lemma update_checked_day day_str item_id c e w at_ r :
  DayItem.day (DayRepository.update_checked day_str item_id c e w at_ r)
  = DayItem.day r.
Proof. unfold DayRepository.update_checked. by destruct (same_key _ _ _). Qed.

Lemma filter_day_update_checked day_str item_id c e w at_ rows :
  filter (fun r => DayItem.day r = day_str)
    (map (DayRepository.update_checked day_str item_id c e w at_) rows)
  = map (DayRepository.update_checked day_str item_id c e w at_)
      (filter (fun r => DayItem.day r = day_str) rows).
Proof.
  induction rows as [|r rows IH]; [done|].
  cbn [map]. rewrite !filter_cons, update_checked_day.
  destruct (decide (DayItem.day r = day_str)); cbn [map]; by rewrite IH.
Qed.

Lemma existsb_same_key_filter day_str item_id rows :
  existsb (same_key day_str item_id)
    (filter (fun r => DayItem.day r = day_str) rows)
  = existsb (same_key day_str item_id) rows.
Proof.
  induction rows as [|r rows IH]; [done|].
  rewrite filter_cons. destruct (decide (DayItem.day r = day_str)) as [Hd|Hd].
  - simpl. by rewrite IH.
  - simpl. rewrite IH. unfold same_key at 2.
    destruct (String.eqb_spec (DayItem.day r) day_str); [done|]. done.
Qed.

(** C3, as amended: once [close_day] has returned, every [mark_item] on
    that day raises: the missing-evidence error when [checked] is set and
    the evidence is blank, the closed-day error otherwise, and the database
    stays as it is.  After [reopen_day], [mark_item] with [checked] set and
    evidence that is not blank returns; the rows of the day are the old
    ones with the row of [item_id], if there is one, now checked and
    holding the trimmed evidence and the time of the call. *)
Theorem closed_day_rejects_until_reopened day t1 t2 db db1 :
  rows_of_day db day ≠ [] →
  QuotaService.close_day day t1 db = (Ok tt, db1) →
  (∀ item_id checked evidence why now,
     QuotaService.mark_item day item_id checked evidence why now db1
     = (Raise (if checked && blank evidence then evidence_required
               else day_is_closed), db1))
  ∧ ∃ db2,
      QuotaService.reopen_day day t2 db1 = (Ok tt, db2)
      ∧ ∀ item_id evidence why now,
          blank evidence = false →
          ∃ db3,
            QuotaService.mark_item day item_id true evidence why now db2
            = (Ok tt, db3)
            ∧ rows_of_day db3 day
              = map (DayRepository.update_checked (isoformat day) item_id true
                       (Py.strip evidence) (Py.strip why) (Some now))
                  (rows_of_day db day)
            ∧ (has_row db day item_id = true →
               ∃ r, r ∈ rows_of_day db3 day
                    ∧ DayItem.item_id r = item_id
                    ∧ DayItem.checked r = true
                    ∧ DayItem.evidence r = Py.strip evidence
                    ∧ DayItem.checked_at r = Some now).
Proof.
  intros Hrows Hclose.
  apply set_day_closed_returns in Hclose as (st & Hst & ->).
  destruct (day_item db) as [rows|] eqn:Hitems; last first.
  { unfold rows_of_day in Hrows. by rewrite Hitems in Hrows. }
  split.
  - intros item_id checked evidence why now. unfold QuotaService.mark_item.
    destruct (checked && blank evidence) eqn:Hguard.
    + apply andb_true_iff in Hguard as [-> Hblank].
      by apply set_item_checked_blank.
    + apply set_item_checked_closed.
      * apply closed_in_with_day_status.
      * intros ->. done.
  - eexists. split.
    { unfold QuotaService.reopen_day. by apply set_day_closed_spec. }
    intros item_id evidence why now Hev. eexists. split; [|split].
    + unfold QuotaService.mark_item.
      apply set_item_checked_passes; simpl; eauto.
      apply closed_in_with_day_status.
    + unfold rows_of_day. simpl. rewrite Hitems.
      apply filter_day_update_checked.
    + unfold has_row, rows_of_day. simpl. rewrite Hitems.
      rewrite filter_day_update_checked.
      rewrite <- (existsb_same_key_filter _ _ rows).
      intros (r & Hr & Hkey)%existsb_exists.
      exists (DayRepository.update_checked (isoformat day) item_id true
                (Py.strip evidence) (Py.strip why) (Some now) r).
      split.
      { apply list_elem_of_In, in_map, Hr. }
      unfold DayRepository.update_checked. rewrite Hkey. simpl.
      unfold same_key in Hkey. apply andb_true_iff in Hkey as [_ Hid].
      apply String.eqb_eq in Hid. done.
Qed.

End Lifecycle.

(** C3 fails as stated: on the closed day [new_year], marking the existing
    item [care] as checked with blank evidence raises the missing-evidence
    error, not the closed-day error. *)
Lemma mark_item_closed_day_blank_evidence :
  closed_in shut new_year = true
  ∧ has_row shut new_year "care" = true
  ∧ (QuotaService.mark_item new_year "care" true "" ""
       "2024-01-01T22:00:00" shut).1
    = Raise (ValueError "Evidence is required")
  ∧ ValueError "Evidence is required" ≠ day_is_closed.
Proof. vm_compute. repeat split; discriminate. Qed.

Lemma closed_day_rejects_until_reopened_witness :
  ∃ db1,
    QuotaService.close_day new_year "2024-01-01T21:00:00" opened = (Ok tt, db1)
    ∧ (QuotaService.mark_item new_year "care" true "walked" ""
         "2024-01-01T22:00:00" db1).1 = Raise day_is_closed
    ∧ ∃ db2,
        QuotaService.reopen_day new_year "2024-01-02T08:00:00" db1 = (Ok tt, db2)
        ∧ is_ok (QuotaService.mark_item new_year "care" true "walked" ""
                   "2024-01-02T08:01:00" db2).1 = true.
Proof.
  exists shut. split; [vm_compute; reflexivity|].
  destruct (closed_day_rejects_until_reopened new_year
              "2024-01-01T21:00:00" "2024-01-02T08:00:00" opened shut)
    as [Hclosed (db2 & Hreopen & Hmark)].
  - vm_compute. discriminate.
  - vm_compute. reflexivity.
  - split.
    + rewrite Hclosed. reflexivity.
    + exists db2. split; [exact Hreopen|].
      destruct (Hmark "care" "walked" "" "2024-01-02T08:01:00")
        as (db3 & -> & _); [vm_compute; reflexivity|]. reflexivity.
Defined.

(** ** The template store *)

Section TemplateStore.
Context `{Runtime}.

Lemma validate_item_accepted item :
  accepted_item item →
  TemplateRepository.validate_item item = Ok (with_defaults item).
Proof.
  intros (d & -> & Hid & Htext). simpl. rewrite Hid, Htext. done.
Qed.

Lemma validate_item_returns item item' :
  TemplateRepository.validate_item item = Ok item' → accepted_item item.
Proof.
  destruct item as [| | | | |l|d]; simpl; try discriminate.
  destruct (Py.contains d "id") eqn:Hid; [|discriminate].
  destruct (Py.contains d "text") eqn:Htext; [|discriminate].
  intros _. by exists d.
Qed.

Lemma validate_items_accepted items :
  Forall accepted_item items →
  TemplateRepository.validate_items items = Ok (map with_defaults items).
Proof.
  induction 1 as [|item items Hitem _ IH]; [done|].
  simpl. rewrite validate_item_accepted, IH by done. done.
Qed.

Lemma validate_items_returns items items' :
  TemplateRepository.validate_items items = Ok items' →
  Forall accepted_item items.
Proof.
  revert items'. induction items as [|item items IH]; intros items'; [done|].
  simpl. destruct (TemplateRepository.validate_item item) eqn:Hitem;
    [|discriminate].
  simpl. destruct (TemplateRepository.validate_items items) eqn:Hitems;
    [|discriminate].
  intros _. constructor; eauto using validate_item_returns.
Qed.

(** What [save] accepts is a list of dicts that each have [id] and [text]. *)
Lemma validate_template_ok_iff template_data :
  is_ok (TemplateRepository._validate_template template_data) = true
  ↔ ∃ items, template_data = JList items ∧ Forall accepted_item items.
Proof.
  split.
  - destruct template_data as [| | | | |items|d]; simpl; try discriminate.
    destruct (TemplateRepository.validate_items items) eqn:Hitems;
      [|discriminate].
    intros _. exists items. eauto using validate_items_returns.
  - intros (items & -> & Hitems). simpl.
    by rewrite validate_items_accepted.
Qed.

Lemma load_spec db row :
  template db = Some row →
  TemplateRepository.load db
  = (Ok match row with
        | None => DEFAULT_TEMPLATE
        | Some data =>
            match loads data with
            | Some (JList l) => l
            | _ => DEFAULT_TEMPLATE
            end
        end, db).
Proof.
  intros Hrow. unfold TemplateRepository.load. unfold_M. rewrite Hrow.
  destruct row as [data|]; [|done].
  destruct (loads data) as [[]|]; done.
Qed.

(** A stored list comes back with the floats [json.loads] read. *)
Lemma load_returns_floats db data x :
  template db = Some (Some data) →
  loads data = Some (JList [JFloat x]) →
  TemplateRepository.load db = (Ok [JFloat x], db).
Proof.
  intros Hrow Hloads. rewrite (load_spec _ (Some data)) by done.
  by rewrite Hloads.
Qed.

Lemma load_no_table db :
  template db = None →
  TemplateRepository.load db = (Raise (no_such_table "template"), db).
Proof.
  intros Hrow. unfold TemplateRepository.load. unfold_M. by rewrite Hrow.
Qed.

Lemma save_spec db items row :
  template db = Some row →
  Forall accepted_item items →
  TemplateRepository.save (JList items) db
  = (Ok tt,
     match row with
     | None => db
     | Some _ =>
         with_template db (Some (dumps (JList (map with_defaults items))))
     end).
Proof.
  intros Hrow Hitems. unfold TemplateRepository.save.
  unfold TemplateRepository._validate_template.
  rewrite validate_items_accepted by done.
  unfold_M. simpl. rewrite Hrow. by destruct row.
Qed.

(** Everything [initialize] does, from any database. *)
Lemma initialize_spec db :
  QuotaService.initialize db
  = (Ok tt,
     {| template :=
          Some (Some match template db with
                     | Some (Some data) => data
                     | _ => dumps (JList DEFAULT_TEMPLATE)
                     end);
        day_item := Some (default [] (day_item db));
        day_status := Some (default ∅ (day_status db)) |}).
Proof.
  unfold QuotaService.initialize, TemplateRepository.init_schema,
    TemplateRepository.ensure_default, DayRepository.init_schema.
  unfold_M. destruct db as [[[data|]|] [rows|] [st|]]; reflexivity.
Qed.

Lemma initialize_initialized db :
  initialized (QuotaService.initialize db).2.
Proof. rewrite initialize_spec. simpl. repeat split; eauto. Qed.

(** C4: in a database [initialize] has prepared, for a list [items] of
    dicts that each have [id] and [text] (what [save_template] accepts),
    [save_template] followed by [load_template] returns the items with
    [importance = 1] and [subitems = []] added where they were absent,
    provided that list is a value the [json] module writes and reads back
    unchanged. *)
Theorem save_then_load_fills_defaults db items :
  initialized db →
  Forall accepted_item items →
  round_trips (JList (map with_defaults items)) →
  ∃ db',
    (QuotaService.save_template (JList items);; QuotaService.load_template) db
    = (Ok (map with_defaults items), db').
Proof.
  intros [[data Hrow] _] Hitems Hround. eexists.
  unfold QuotaService.save_template, QuotaService.load_template.
  unfold mbind at 1, M_bind.
  rewrite (save_spec _ _ (Some data)) by done.
  rewrite (load_spec _ (Some (dumps (JList (map with_defaults items)))))
    by done.
  unfold round_trips in Hround. rewrite Hround. done.
Qed.



End TemplateStore.

(** C4 on an example: an item without [importance] and [subitems]. *)
Lemma save_then_load_fills_defaults_witness :
  ∃ db',
    (QuotaService.save_template (H := mini)
       (JList [JDict [("id", JStr "read"); ("text", JStr "Read a chapter")]]);;
     QuotaService.load_template (H := mini)) started
    = (Ok [JDict [("id", JStr "read"); ("text", JStr "Read a chapter");
                  ("importance", JInt 1); ("subitems", JList [])]], db').
Proof.
  apply (save_then_load_fills_defaults (H := mini) started
           [JDict [("id", JStr "read"); ("text", JStr "Read a chapter")]]).
  - exact started_initialized.
  - constructor; [|constructor]. eexists. repeat split.
  - vm_compute. reflexivity.
Defined.






(** ** [flatten] *)

Section Flatten.
Context `{Runtime}.

Lemma get_absent d k v : Py.contains d k = false → Py.get d k v = v.
Proof.
  induction d as [|[k' v'] d IH]; simpl; [done|].
  destruct (String.eqb k' k); simpl; [discriminate|done].
Qed.

Lemma get_present d k v1 v2 :
  Py.contains d k = true → Py.get d k v1 = Py.get d k v2.
Proof.
  induction d as [|[k' v'] d IH]; simpl; [discriminate|].
  destruct (String.eqb k' k); simpl; done.
Qed.

Lemma get_string d k s v :
  as_string (Py.get d k JNull) = Some s → Py.get d k v = JStr s.
Proof.
  intros Hs. destruct (Py.contains d k) eqn:Hk.
  - rewrite (get_present _ _ v JNull) by done.
    destruct (Py.get d k JNull); simpl in Hs; congruence.
  - rewrite get_absent in Hs by done. discriminate.
Qed.

(** An optional integer field read with a default. *)
Lemma get_optional_int d k o v :
  optional_int d k = Some o →
  Py.get d k v = match o with Some z => JInt z | None => v end.
Proof.
  unfold optional_int. destruct (Py.contains d k) eqn:Hk.
  - rewrite (get_present _ _ v JNull) by done.
    destruct (Py.get d k JNull); intros [= <-]; done.
  - intros [= <-]. by apply get_absent.
Qed.

Lemma flatten_sub_typed d base_id parent flat sub si :
  Py.get d "importance" (JInt 1) = JInt parent →
  as_sub_item sub = Some si →
  TemplateRepository.flatten_sub d base_id flat sub
  = Ok (flat ++ [ {| line_id := base_id ++ ":" ++ sub_id si;
                     line_text := JStr (sub_text si);
                     line_importance := default parent (sub_importance si) |} ])%list.
Proof.
  intros Hparent Hsub. destruct sub as [| | | | |l|s]; try discriminate.
  simpl in Hsub.
  destruct (as_string (Py.get s "id" JNull)) as [i|] eqn:Hid; [|discriminate].
  destruct (as_string (Py.get s "text" JNull)) as [t|] eqn:Htext;
    [|discriminate].
  destruct (optional_int s "importance") as [imp|] eqn:Himp; [|discriminate].
  simpl in Hsub. injection Hsub as <-.
  unfold TemplateRepository.flatten_sub. simpl.
  rewrite (get_string _ _ i), (get_string _ _ t) by done.
  rewrite (get_optional_int _ _ imp) by done. rewrite Hparent.
  by destruct imp.
Qed.

Lemma flatten_subs_typed d base_id parent subs sis :
  Py.get d "importance" (JInt 1) = JInt parent →
  Forall2 (fun sub si => as_sub_item sub = Some si) subs sis →
  ∀ flat,
    foldM (TemplateRepository.flatten_sub d base_id) flat subs
    = Ok (flat ++ map (fun si =>
            {| line_id := base_id ++ ":" ++ sub_id si;
               line_text := JStr (sub_text si);
               line_importance := default parent (sub_importance si) |}) sis)%list.
Proof.
  intros Hparent. induction 1 as [|sub si subs sis Hsub _ IH]; intros flat.
  - simpl. by rewrite app_nil_r.
  - simpl. rewrite (flatten_sub_typed _ _ parent _ _ si) by done.
    simpl. rewrite IH, <- app_assoc. done.
Qed.

Lemma flatten_item_typed flat item it :
  as_item item = Some it →
  TemplateRepository.flatten_item flat item = Ok (flat ++ expand it)%list.
Proof.
  intros Hitem. destruct item as [| | | | |l|d]; try discriminate.
  simpl in Hitem.
  destruct (as_string (Py.get d "id" JNull)) as [i|] eqn:Hid; [|discriminate].
  destruct (as_string (Py.get d "text" JNull)) as [t|] eqn:Htext;
    [|discriminate].
  destruct (optional_int d "importance") as [imp|] eqn:Himp; [|discriminate].
  simpl in Hitem.
  assert (Py.get d "importance" (JInt 1) = JInt (default 1 imp)) as Hparent.
  { rewrite (get_optional_int _ _ imp) by done. by destruct imp. }
  assert (∃ l, Py.iter (Py.or (Py.get d "subitems" (JList [])) (JList []))
               = Ok l
               ∧ ∃ sis, Forall2 (fun sub si => as_sub_item sub = Some si) l sis
                        ∧ it = mkTemplateItem i t imp sis)
    as (l & Hiter & sis & Hsubs & ->).
  { destruct (Py.contains d "subitems") eqn:Hk.
    - rewrite (get_present _ _ _ JNull) by done.
      destruct (Py.get d "subitems" JNull) as [| | | | |l|]; try discriminate.
      destruct (mapM as_sub_item l) as [sis|] eqn:Hl; [|discriminate].
      simpl in Hitem. injection Hitem as <-.
      exists l. split; [by destruct l|].
      exists sis. split; [by apply mapM_Some|done].
    - rewrite get_absent by done. simpl in Hitem. injection Hitem as <-.
      exists []. split; [done|]. exists []. split; [constructor|done]. }
  unfold TemplateRepository.flatten_item. simpl.
  rewrite (get_string _ _ i), (get_string _ _ t) by done.
  rewrite Hparent. simpl. rewrite Hiter. simpl.
  rewrite (flatten_subs_typed _ _ (default 1 imp) _ sis) by done.
  unfold expand. simpl. by rewrite <- app_assoc.
Qed.

Lemma flatten_items_typed template_data t :
  Forall2 (fun item it => as_item item = Some it) template_data t →
  ∀ flat,
    foldM TemplateRepository.flatten_item flat template_data
    = Ok (flat ++ flatten_spec t)%list.
Proof.
  induction 1 as [|item it items t Hitem _ IH]; intros flat.
  - simpl. by rewrite app_nil_r.
  - simpl. rewrite (flatten_item_typed _ _ it) by done.
    simpl. rewrite IH. unfold flatten_spec. simpl.
    by rewrite <- app_assoc.
Qed.

(** C8: [flatten] is a function of the template alone, and on a template
    whose items and sub-items have string ids and texts it returns what the
    specification describes: every item in template order, each followed
    at once by its sub-items in their order, a sub-item named
    [<parent_id>:<sub_id>] and given the parent's importance (1 when the
    parent has none) when it has none of its own. *)
Theorem flatten_refines_spec template_data t :
  as_template template_data = Some t →
  TemplateRepository.flatten template_data = Ok (flatten_spec t)
  ∧ flatten_spec t
    = concat (map (fun it =>
        {| line_id := id it; line_text := JStr (text it);
           line_importance := default 1 (importance it) |}
        :: map (fun sub =>
             {| line_id := id it ++ ":" ++ sub_id sub;
                line_text := JStr (sub_text sub);
                line_importance :=
                  default (default 1 (importance it)) (sub_importance sub) |})
             (subitems it)) t).
Proof.
  intros Ht. split; [|reflexivity].
  apply mapM_Some in Ht.
  unfold TemplateRepository.flatten.
  rewrite (flatten_items_typed template_data t Ht []).
  reflexivity.
Qed.

End Flatten.

(** C8 on the scenario of the specification: the item [a] with the
    sub-item [1] gives the lines [a] and [a:1]. *)
Lemma flatten_refines_spec_witness :
  TemplateRepository.flatten (H := mini)
    [JDict [("id", JStr "a"); ("text", JStr "A");
            ("subitems", JList [JDict [("id", JStr "1"); ("text", JStr "A1")]])]]
  = Ok [ {| line_id := "a"; line_text := JStr "A"; line_importance := 1 |};
         {| line_id := "a:1"; line_text := JStr "A1"; line_importance := 1 |} ].
Proof.
  apply (flatten_refines_spec (H := mini)
           [JDict [("id", JStr "a"); ("text", JStr "A");
                   ("subitems",
                    JList [JDict [("id", JStr "1"); ("text", JStr "A1")]])]]
           [mkTemplateItem "a" "A" None [mkSubItem "1" "A1" None]]).
  vm_compute. reflexivity.
Defined.

(** ** Day instantiation *)

Section Instantiation.
Context `{Runtime}.

Lemma with_day_item_grown db rows :
  day_item db = Some rows → db = with_day_item db (rows ++ [])%list.
Proof. intros Hrows. by rewrite app_nil_r, with_day_item_same. Qed.

(** One [INSERT OR IGNORE] appends at most one row, a fresh one. *)
Lemma insert_or_ignore_grows day_str line db rows :
  day_item db = Some rows →
  ∃ r added,
    DayRepository.insert_or_ignore day_str line db
    = (r, with_day_item db (rows ++ added)%list)
    ∧ Forall (fresh_for day_str) added.
Proof.
  intros Hrows. unfold DayRepository.insert_or_ignore. unfold_M.
  destruct (bind_parameter (line_text line)) as [text|e].
  2:{ exists (Raise e), []. split; [|done]. f_equal. by apply with_day_item_grown. }
  destruct (bind_parameter (JInt (line_importance line))) as [imp|e].
  2:{ exists (Raise e), []. split; [|done]. f_equal. by apply with_day_item_grown. }
  rewrite Hrows.
  destruct (as_text text) as [item_text|], (as_integer imp) as [importance|];
    try (exists (Ok tt), []; split; [|done]; f_equal;
         by apply with_day_item_grown).
  destruct (existsb (same_key day_str (line_id line)) rows).
  - exists (Ok tt), []. split; [|done]. f_equal. by apply with_day_item_grown.
  - eexists (Ok tt), [_]. split; [done|].
    repeat constructor.
Qed.

Lemma for_each_insert_grows day_str lines :
  ∀ db rows,
    day_item db = Some rows →
    ∃ r added,
      for_each lines (DayRepository.insert_or_ignore day_str) db
      = (r, with_day_item db (rows ++ added)%list)
      ∧ Forall (fresh_for day_str) added.
Proof.
  induction lines as [|line lines IH]; intros db rows Hrows.
  - exists (Ok tt), []. split; [|done]. simpl. unfold_M. f_equal.
    by apply with_day_item_grown.
  - simpl. unfold mbind, M_bind.
    destruct (insert_or_ignore_grows day_str line db rows Hrows)
      as (r & added & -> & Hadded).
    destruct r as [[]|e].
    + destruct (IH (with_day_item db (rows ++ added)%list) (rows ++ added)%list)
        as (r' & added' & -> & Hadded'); [done|].
      exists r', (added ++ added')%list. split.
      * f_equal. unfold with_day_item. simpl. by rewrite app_assoc.
      * by apply Forall_app.
    + by exists (Raise e), added.
Qed.

(** The outcomes of [instantiate_day_if_needed]: it raises and leaves the
    database alone, or it returns and either leaves the database alone or
    has given a day without rows its first rows. *)
Lemma instantiate_outcome day db :
  ∃ r db1,
    DayRepository.instantiate_day_if_needed day db = (r, db1)
    ∧ ((∃ e, r = Raise e) ∧ db1 = db
       ∨ r = Ok tt ∧ is_Some (day_item db)
         ∧ (db1 = db
            ∨ rows_of_day db day = []
              ∧ ∃ rows added,
                  day_item db = Some rows ∧ added ≠ []
                  ∧ Forall (fresh_for (isoformat day)) added
                  ∧ db1 = with_day_item db (rows ++ added)%list)).
Proof.
  unfold DayRepository.instantiate_day_if_needed, transaction.
  unfold mbind at 1, M_bind. unfold table_day_item at 1.
  destruct (day_item db) as [rows|] eqn:Hrows; [|by eauto 10].
  destruct (0 <? length (filter (fun r => DayItem.day r = isoformat day) rows))%nat
    eqn:Hcount.
  { do 2 eexists. split; [done|]. right. eauto. }
  unfold mbind at 1, M_bind.
  destruct (template db) as [row|] eqn:Hrow.
  2:{ rewrite load_no_table by done. eauto 10. }
  rewrite (load_spec _ row) by done.
  unfold mbind at 1, M_bind. unfold lift at 1.
  destruct (TemplateRepository.flatten _) as [flat|e]; [|by eauto 10].
  destruct (for_each_insert_grows (isoformat day) flat db rows Hrows)
    as (r & added & -> & Hadded).
  destruct r as [[]|e]; [|by eauto 10].
  do 2 eexists. split; [done|]. right. split; [done|]. split; [eauto|].
  destruct added as [|a added].
  - left. symmetry. by apply with_day_item_grown.
  - right. split.
    + unfold rows_of_day. rewrite Hrows.
      apply Nat.ltb_ge in Hcount.
      destruct (filter _ rows); [done|simpl in Hcount; lia].
    + exists rows, (a :: added). done.
Qed.

Lemma instantiate_existing day db :
  rows_of_day db day ≠ [] →
  DayRepository.instantiate_day_if_needed day db = (Ok tt, db).
Proof.
  unfold rows_of_day. intros Hrows.
  destruct (day_item db) as [rows|] eqn:Hitems; [|done].
  unfold DayRepository.instantiate_day_if_needed, transaction.
  unfold mbind at 1, M_bind. unfold table_day_item at 1. rewrite Hitems.
  destruct (filter _ rows); [done|]. done.
Qed.

Lemma rows_of_day_grown db day rows added :
  day_item db = Some rows →
  Forall (fresh_for (isoformat day)) added →
  rows_of_day (with_day_item db (rows ++ added)%list) day
  = (rows_of_day db day ++ added)%list.
Proof.
  intros Hrows Hadded. unfold rows_of_day. simpl. rewrite Hrows.
  rewrite filter_app. f_equal.
  induction Hadded as [|r added [Hday _] _ IH]; [done|].
  rewrite filter_cons, decide_True by done. by rewrite IH.
Qed.

(** A second call of [instantiate_day_if_needed] behaves as the first did
    and changes nothing. *)
Lemma instantiate_twice day db :
  DayRepository.instantiate_day_if_needed day
    (DayRepository.instantiate_day_if_needed day db).2
  = ((DayRepository.instantiate_day_if_needed day db).1,
     (DayRepository.instantiate_day_if_needed day db).2).
Proof.
  destruct (instantiate_outcome day db) as (r & db1 & Hinst & Hcases).
  rewrite Hinst. simpl.
  destruct Hcases as [[_ ->]|(-> & _ & [->|(Hnone & rows & added & Hrows & Hadded & Hfresh & ->)])];
    try done.
  apply instantiate_existing.
  rewrite rows_of_day_grown by done. by destruct (rows_of_day db day), added.
Qed.

(** [get_day] changes the database the way day instantiation does. *)
Lemma get_day_state day db :
  (QuotaService.get_day day db).2
  = (DayRepository.instantiate_day_if_needed day db).2.
Proof.
  unfold QuotaService.get_day, DayRepository.get_day_items.
  unfold mbind, M_bind.
  destruct (instantiate_outcome day db) as (r & db1 & -> & Hcases).
  destruct Hcases as [[[e ->] ->]|(-> & [rows Hrows] & Hdb1)]; [done|].
  assert (∃ rows1, day_item db1 = Some rows1) as [rows1 Hrows1].
  { destruct Hdb1 as [->|(_ & ? & ? & _ & _ & _ & ->)]; simpl; eauto. }
  unfold transaction at 1. unfold table_day_item. rewrite Hrows1.
  unfold mret, M_ret.
  unfold DayRepository.is_day_closed, transaction, mbind, M_bind,
    table_day_status.
  by destruct (day_status db1).
Qed.

(** C5: calling [instantiate_day_if_needed] again gives the outcome of the
    first call and leaves the database of the first call as it is; the same
    holds for [get_day], which changes the database exactly as
    instantiation does; and a day that already has rows is never touched,
    so its rows are neither duplicated nor altered. *)
Theorem instantiation_is_idempotent day db :
  let db1 := (DayRepository.instantiate_day_if_needed day db).2 in
  DayRepository.instantiate_day_if_needed day db1
  = ((DayRepository.instantiate_day_if_needed day db).1, db1)
  ∧ (QuotaService.get_day day db).2 = db1
  ∧ (QuotaService.get_day day db1).2 = db1
  ∧ (QuotaService.get_day day (QuotaService.get_day day db).2).2
    = (QuotaService.get_day day db).2
  ∧ ∀ db', rows_of_day db' day ≠ [] →
           DayRepository.instantiate_day_if_needed day db' = (Ok tt, db')
           ∧ (QuotaService.get_day day db').2 = db'.
Proof.
  simpl. repeat split.
  - apply instantiate_twice.
  - apply get_day_state.
  - by rewrite get_day_state, instantiate_twice.
  - by rewrite !get_day_state, instantiate_twice.
  - by apply instantiate_existing.
  - by rewrite get_day_state, instantiate_existing.
Qed.

End Instantiation.

(** ** The invariant of the rows *)

Section RowInvariant.
Context `{Runtime}.

Lemma rows_ok_same_items db db' :
  day_item db' = day_item db → rows_ok db → rows_ok db'.
Proof. unfold rows_ok. intros ->. done. Qed.

Lemma fresh_for_row_ok day_str r : fresh_for day_str r → row_ok r.
Proof.
  intros (_ & Hchecked & _ & _ & Hat). split; [|done].
  rewrite Hchecked. discriminate.
Qed.

Lemma update_checked_row_ok day_str item_id checked evidence why now r :
  (checked = true → blank evidence = false) →
  row_ok r →
  row_ok (DayRepository.update_checked day_str item_id checked
            (Py.strip evidence) (Py.strip why)
            (if checked then Some now else None) r).
Proof.
  intros Hev Hr. unfold DayRepository.update_checked.
  destruct (same_key day_str item_id r); [|done].
  split; simpl; intros ->; [|done].
  split; [|by eauto].
  rewrite strip_idempotent. by apply blank_false_iff, Hev.
Qed.

Lemma set_item_checked_state day item_id checked evidence why now db :
  (DayRepository.set_item_checked day item_id checked evidence why now db).2
  = db
  ∨ (checked = true → blank evidence = false)
    ∧ ∃ rows,
        day_item db = Some rows
        ∧ (DayRepository.set_item_checked
             day item_id checked evidence why now db).2
          = with_day_item db
              (map (DayRepository.update_checked (isoformat day) item_id checked
                      (Py.strip evidence) (Py.strip why)
                      (if checked then Some now else None)) rows).
Proof.
  destruct (checked && blank evidence) eqn:Hguard.
  { apply andb_true_iff in Hguard as [-> Hblank].
    left. by rewrite set_item_checked_blank. }
  assert (checked = true → blank evidence = false) as Hev.
  { intros ->. done. }
  destruct (day_status db) as [st|] eqn:Hst.
  - destruct (closed_in db day) eqn:Hclosed.
    { left. by rewrite set_item_checked_closed. }
    destruct (day_item db) as [rows|] eqn:Hrows.
    + right. split; [done|]. exists rows. split; [done|].
      by rewrite (set_item_checked_passes _ _ _ _ _ _ _ rows).
    + left. unfold DayRepository.set_item_checked. fold (blank evidence).
      rewrite Hguard. unfold mbind at 1, M_bind.
      rewrite is_day_closed_spec, Hclosed by eauto.
      unfold_M. by rewrite Hrows.
  - left. unfold DayRepository.set_item_checked. fold (blank evidence).
    rewrite Hguard. unfold mbind at 1, M_bind.
    by rewrite is_day_closed_no_table.
Qed.

Lemma set_day_closed_items day closed now db :
  day_item (DayRepository.set_day_closed day closed now db).2 = day_item db.
Proof.
  unfold DayRepository.set_day_closed. unfold_M.
  destruct (day_status db), closed; done.
Qed.

Lemma save_items template_data db :
  day_item (TemplateRepository.save template_data db).2 = day_item db.
Proof.
  unfold TemplateRepository.save. unfold_M.
  destruct (TemplateRepository._validate_template template_data); [|done].
  destruct (template db) as [[|]|]; done.
Qed.

Lemma mark_item_rows_ok day item_id checked evidence why now db :
  rows_ok db →
  rows_ok (DayRepository.set_item_checked
             day item_id checked evidence why now db).2.
Proof.
  intros Hok.
  destruct (set_item_checked_state day item_id checked evidence why now db)
    as [->|(Hev & rows & Hrows & ->)]; [done|].
  intros rows' [= <-]. apply Forall_map.
  eapply Forall_impl; [by apply Hok|].
  intros r Hr. by apply update_checked_row_ok.
Qed.

Lemma instantiate_rows_ok day db :
  rows_ok db →
  rows_ok (DayRepository.instantiate_day_if_needed day db).2.
Proof.
  intros Hok.
  destruct (instantiate_outcome day db) as (r & db1 & -> & Hcases). simpl.
  destruct Hcases
    as [[_ ->]|(_ & _ & [->|(_ & rows & added & Hrows & _ & Hfresh & ->)])];
    try done.
  intros rows' [= <-]. apply Forall_app. split; [by apply Hok|].
  eapply Forall_impl; [done|]. apply fresh_for_row_ok.
Qed.

Lemma run_rows_ok db c : rows_ok db → rows_ok (run db c).
Proof.
  intros Hok. destruct c; simpl.
  - rewrite initialize_spec. simpl. intros rows [= <-].
    destruct (day_item db) as [rows|] eqn:Hrows; simpl; [by apply Hok|done].
  - rewrite get_day_state. by apply instantiate_rows_ok.
  - by apply mark_item_rows_ok.
  - eapply rows_ok_same_items; [apply set_day_closed_items|done].
  - eapply rows_ok_same_items; [apply set_day_closed_items|done].
  - unfold QuotaService.get_checked_days, DayRepository.get_checked_days.
    unfold_M. by destruct (day_item db).
  - unfold QuotaService.load_template.
    destruct (template db) as [row|] eqn:Hrow.
    + by rewrite (load_spec _ row).
    + by rewrite load_no_table.
  - eapply rows_ok_same_items; [apply save_items|done].
  - unfold QuotaService.reset_template.
    destruct (loads (dumps (JList DEFAULT_TEMPLATE))); [|done].
    unfold mbind, M_bind.
    pose proof (save_items j db) as Hitems.
    destruct (TemplateRepository.save j db) as [[[]|e] db']; simpl in *;
      by eapply rows_ok_same_items.
Qed.

(** The invariant holds in every database the service can produce from a
    new file. *)
Lemma reachable_rows_ok (calls : list call) :
  rows_ok (foldl run empty_database calls).
Proof.
  assert (∀ db, rows_ok db → rows_ok (foldl run db calls)) as Hfold.
  { induction calls as [|c calls IH]; intros db Hdb; [done|].
    simpl. by apply IH, run_rows_ok. }
  apply Hfold. intros rows. discriminate.
Qed.

(** C6: when every [day_item] row satisfies the invariant (a checked row
    has evidence that is not blank and a [checked_at] time, an unchecked
    row has no [checked_at]), so does every row after day instantiation,
    after [set_item_checked], and after any call of the service, whether
    the call returns or raises. *)
Theorem service_preserves_row_invariant db :
  rows_ok db →
  (∀ day, rows_ok (DayRepository.instantiate_day_if_needed day db).2)
  ∧ (∀ day item_id checked evidence why now,
       rows_ok (DayRepository.set_item_checked
                  day item_id checked evidence why now db).2)
  ∧ (∀ c, rows_ok (run db c)).
Proof.
  intros Hok. split; [|split].
  - intros day. by apply instantiate_rows_ok.
  - intros day item_id checked evidence why now. by apply mark_item_rows_ok.
  - intros c. by apply run_rows_ok.
Qed.

End RowInvariant.

Lemma service_preserves_row_invariant_witness :
  rows_ok (run (H := mini) opened
             (MarkItem new_year "care" true " called mum " ""
                "2024-01-01T18:30:00")).
Proof.
  apply (service_preserves_row_invariant (H := mini) opened).
  intros rows [= <-]. repeat constructor; simpl; discriminate.
Defined.

(** ** The first [get_day] of a day *)

#[local] Instance by_item_id_transitive : Transitive by_item_id.
Proof. intros r1 r2 r3. unfold by_item_id. apply transitivity. Qed.

#[local] Instance by_item_id_total : Total by_item_id.
Proof. intros r1 r2. unfold by_item_id. apply total, _. Qed.

Section FirstAccess.
Context `{Runtime}.

Lemma flatten_spec_texts t :
  Forall (fun line => ∃ s, line_text line = JStr s) (flatten_spec t).
Proof.
  unfold flatten_spec. apply Forall_concat, Forall_map, Forall_true.
  intros it. unfold expand. constructor; [by eexists|].
  apply Forall_map, Forall_true. intros sub. by eexists.
Qed.

(** Lines with string texts, storable importances and ids that are new to
    the day all become rows, in order. *)
Lemma for_each_insert_fresh day_str lines :
  ∀ db rows,
    day_item db = Some rows →
    NoDup (map line_id lines) →
    Forall (fun line => ∃ s, line_text line = JStr s) lines →
    Forall (fun line => fits_int64 (line_importance line) = true) lines →
    Forall (fun line =>
              existsb (same_key day_str (line_id line)) rows = false) lines →
    for_each lines (DayRepository.insert_or_ignore day_str) db
    = (Ok tt, with_day_item db (rows ++ map (line_row day_str) lines)%list).
Proof.
  induction lines as [|line lines IH];
    intros db rows Hrows Hnodup Htexts Hfits Hnew.
  - simpl. unfold_M. f_equal. by apply with_day_item_grown.
  - apply NoDup_cons in Hnodup as [Hline Hnodup].
    apply Forall_cons in Htexts as [[s Hs] Htexts].
    apply Forall_cons in Hfits as [Hfit Hfits].
    apply Forall_cons in Hnew as [Hfree Hnew].
    cbn [for_each]. unfold mbind at 1, M_bind.
    assert (DayRepository.insert_or_ignore day_str line db
            = (Ok tt, with_day_item db (rows ++ [line_row day_str line])%list))
      as ->.
    { unfold DayRepository.insert_or_ignore. unfold_M.
      rewrite Hs. simpl. rewrite Hfit, Hrows. simpl. rewrite Hfree.
      unfold line_row. rewrite Hs. done. }
    rewrite (IH _ (rows ++ [line_row day_str line])%list); try done.
    + unfold with_day_item. simpl. by rewrite <- app_assoc.
    + apply Forall_forall. intros l Hl.
      rewrite existsb_app. rewrite Forall_forall in Hnew.
      rewrite (Hnew l Hl). simpl. rewrite orb_false_r.
      unfold same_key. simpl. apply andb_false_iff. right.
      apply String.eqb_neq. intros Heq. apply Hline.
      rewrite Heq. by apply list_elem_of_fmap_2.
Qed.

Lemma filter_day_line_rows day_str lines :
  filter (fun r => DayItem.day r = day_str) (map (line_row day_str) lines)
  = map (line_row day_str) lines.
Proof.
  induction lines as [|line lines IH]; [done|].
  cbn [map]. rewrite filter_cons, decide_True by done. by rewrite IH.
Qed.

Lemma no_rows_no_key day_str item_id rows :
  filter (fun r => DayItem.day r = day_str) rows = [] →
  existsb (same_key day_str item_id) rows = false.
Proof.
  intros Hnone. rewrite <- existsb_same_key_filter. by rewrite Hnone.
Qed.

(** C2, as amended: in a database [initialize] has prepared, whose
    template row holds a template typed as the data model says, whose
    flattened lines have ids that differ from one another and importances
    that fit an SQLite [INTEGER], the first [get_day] of a day returns one
    row per line of the flattening the specification describes (every item
    in order, followed by its sub-items named [<parent_id>:<sub_id>]) and
    nothing else, each row unchecked with empty evidence and why and no
    [checked_at], and the rows come ordered by [item_id].  These rows are
    what the day holds afterwards. *)
Theorem first_get_day_returns_flattened_template day db template_data t :
  initialized db →
  template db = Some (Some (dumps (JList template_data))) →
  round_trips (JList template_data) →
  as_template template_data = Some t →
  storable_template t →
  rows_of_day db day = [] →
  ∃ rows db',
    QuotaService.get_day day db
    = (Ok {| items := rows; closed := closed_in db day |}, db')
    ∧ rows ≡ₚ map (fun line =>
                     DayItem.mk (isoformat day) (line_id line)
                       (Py.str (line_text line)) (line_importance line)
                       false "" "" None)
                (flatten_spec t)
    ∧ StronglySorted by_item_id rows
    ∧ Forall (fresh_for (isoformat day)) rows
    ∧ length rows = length (flatten_spec t)
    ∧ rows_of_day db' day = map (line_row (isoformat day)) (flatten_spec t).
Proof.
  intros (_ & [rows0 Hrows0] & [st Hst]) Hrow Hround Ht [Hnodup Hfits] Hnone.
  assert (TemplateRepository.flatten template_data = Ok (flatten_spec t))
    as Hflat.
  { apply mapM_Some in Ht. unfold TemplateRepository.flatten.
    by rewrite (flatten_items_typed _ t). }
  unfold rows_of_day in Hnone. rewrite Hrows0 in Hnone.
  assert (DayRepository.instantiate_day_if_needed day db
          = (Ok tt, with_day_item db
               (rows0 ++ map (line_row (isoformat day)) (flatten_spec t))%list))
    as Hinst.
  { unfold DayRepository.instantiate_day_if_needed, transaction.
    unfold mbind at 1, M_bind. unfold table_day_item at 1.
    rewrite Hrows0, Hnone. cbn [length Nat.ltb Nat.leb].
    unfold mbind at 1, M_bind.
    rewrite (load_spec _ (Some (dumps (JList template_data)))) by done.
    unfold round_trips in Hround. rewrite Hround.
    unfold mbind at 1, M_bind. unfold lift at 1. rewrite Hflat.
    rewrite (for_each_insert_fresh _ _ _ rows0); try done.
    - apply flatten_spec_texts.
    - apply Forall_true. intros line. by apply no_rows_no_key. }
  exists (merge_sort by_item_id
            (map (line_row (isoformat day)) (flatten_spec t))).
  eexists. split; [|split; [|split; [|split; [|split]]]].
  - unfold QuotaService.get_day, DayRepository.get_day_items.
    unfold mbind, M_bind. rewrite Hinst.
    unfold transaction at 1. unfold table_day_item. simpl.
    rewrite filter_app, Hnone, filter_day_line_rows. simpl.
    rewrite is_day_closed_spec by (simpl; eauto).
    unfold closed_in. simpl. done.
  - apply merge_sort_Permutation.
  - apply StronglySorted_merge_sort; apply _.
  - rewrite merge_sort_Permutation. apply Forall_map, Forall_true.
    intros line. done.
  - by rewrite merge_sort_Permutation, length_map.
  - unfold rows_of_day. simpl.
    by rewrite filter_app, Hnone, filter_day_line_rows.
Qed.

End FirstAccess.

(** C2 fails as stated.  The template [crossing_template] is valid as the
    data model has it (ids and texts not empty, importance at least 1, no
    id twice among the items nor among the sub-items of an item), but the
    sub-item [1] of [a] and the item [a:1] flatten to the same id: the
    first [get_day] returns two rows for the three lines.  The template
    [oversized_template] is valid too, and its importance of 2^63 makes
    the first [get_day] raise. *)
Lemma first_get_day_loses_a_line :
  (∃ t, as_template crossing_template = Some t
        ∧ valid_template t
        ∧ map line_id (flatten_spec t) = ["a"; "a:1"; "a:1"])
  ∧ initialized crossed
  ∧ template crossed = Some (Some (MiniJson.dumps (JList crossing_template)))
  ∧ rows_of_day crossed new_year = []
  ∧ (∃ rows db',
       QuotaService.get_day (H := mini) new_year crossed
       = (Ok {| items := rows; closed := false |}, db')
       ∧ map DayItem.item_id rows = ["a"; "a:1"])
  ∧ (∃ t, as_template oversized_template = Some t ∧ valid_template t)
  ∧ template oversized
    = Some (Some (MiniJson.dumps (JList oversized_template)))
  ∧ QuotaService.get_day (H := mini) new_year oversized
    = (Raise OverflowError, oversized).
Proof.
  split; [|split; [|split; [|split; [|split; [|split; [|split]]]]]].
  - eexists. split; [vm_compute; reflexivity|]. split; [|reflexivity].
    split.
    + repeat constructor; simpl; try discriminate;
        try (intros z [= <-]; lia);
        apply (bool_decide_unpack _); vm_compute; exact I.
    + apply (bool_decide_unpack _). vm_compute. exact I.
  - vm_compute. repeat split; eauto.
  - vm_compute. reflexivity.
  - vm_compute. reflexivity.
  - do 2 eexists. split; vm_compute; reflexivity.
  - eexists. split; [vm_compute; reflexivity|]. split.
    + repeat constructor; simpl; try discriminate;
        try (intros z [= <-]; lia);
        apply (bool_decide_unpack _); vm_compute; exact I.
    + apply (bool_decide_unpack _). vm_compute. exact I.
  - vm_compute. reflexivity.
  - vm_compute. reflexivity.
Qed.

(** C2 on the first [get_day] after [initialize()] on a new file: the three
    built-in items, ordered by id. *)
Lemma first_get_day_returns_flattened_template_witness :
  ∃ rows db',
    QuotaService.get_day (H := mini) new_year started
    = (Ok {| items := rows; closed := false |}, db')
    ∧ map DayItem.item_id rows = ["care"; "maintenance"; "progress"]
    ∧ Forall (fresh_for "2024-01-01") rows.
Proof.
  destruct (first_get_day_returns_flattened_template (H := mini)
              new_year started DEFAULT_TEMPLATE
              [ mkTemplateItem "progress" "Progress: move a project forward"
                  (Some 3) [];
                mkTemplateItem "care" "Care/Connection: serve or connect"
                  (Some 2) [];
                mkTemplateItem "maintenance"
                  "Maintenance: body / admin / environment" (Some 2) [] ])
    as (rows & db' & Hget & _ & _ & Hfresh & _).
  - exact started_initialized.
  - vm_compute. reflexivity.
  - vm_compute. reflexivity.
  - vm_compute. reflexivity.
  - split.
    + apply (bool_decide_unpack (NoDup _)). vm_compute. exact I.
    + repeat constructor.
  - vm_compute. reflexivity.
  - exists rows, db'. split; [exact Hget|]. split; [|exact Hfresh].
    vm_compute in Hget. injection Hget as Hitems _. by subst rows.
Defined.

(** ** The example codec reads back what it writes *)

Section Codec.

Lemma append_cons c s t : String c s ++ t = String c (s ++ t).
Proof. reflexivity. Qed.

Lemma append_nil_r s : s ++ "" = s.
Proof. induction s as [|c s IH]; [done|]. by rewrite append_cons, IH. Qed.

Lemma append_assoc s t u : (s ++ t) ++ u = s ++ t ++ u.
Proof. induction s as [|c s IH]; [done|]. by rewrite !append_cons, IH. Qed.

Lemma length_append s t :
  String.length (s ++ t) = (String.length s + String.length t)%nat.
Proof.
  induction s as [|c s IH]; [done|]. rewrite append_cons. simpl. by rewrite IH.
Qed.

(** *** Strings *)

Lemma parse_escape_char c tail :
  MiniJson.parse_string_body (MiniJson.escape_char c ++ tail)
  = match MiniJson.parse_string_body tail with
    | Some (body, rest) => Some (String c body, rest)
    | None => None
    end.
Proof.
  destruct c as [[] [] [] [] [] [] [] []];
    (reflexivity
     || (cbn -[MiniJson.parse_string_body String.append];
         change (MiniJson.parse_string_body (String ?a tail))
           with (MiniJson.parse_string_body (String a tail)))).
Qed.

Lemma parse_escape s rest :
  MiniJson.parse_string_body (MiniJson.escape s ++ String Py.dquote rest)
  = Some (s, rest).
Proof.
  induction s as [|c s IH]; [done|].
  cbn [MiniJson.escape]. rewrite append_assoc, parse_escape_char, IH. done.
Qed.

Lemma parse_quoted s rest :
  MiniJson.quoted s ++ rest
  = String Py.dquote (MiniJson.escape s ++ String Py.dquote rest).
Proof.
  unfold MiniJson.quoted. by rewrite append_cons, append_assoc, append_cons.
Qed.

(** *** Numbers *)

Lemma digit_of_pretty_N_char d :
  (d < 10)%N → MiniPy.digit_of (pretty_N_char d) = Some (Z.of_N d).
Proof.
  intros Hd.
  assert (d ∈ [0; 1; 2; 3; 4; 5; 6; 7; 8; 9]%N) as Hcases.
  { apply list_elem_of_In, (bool_decide_unpack _).
    destruct d as [|[[[|[]|]|[[]|[]|]|]|[[|[]|]|[[]|[]|]|]|]]; try done; lia. }
  repeat (apply elem_of_cons in Hcases as [->|Hcases]; [reflexivity|]).
  by apply elem_of_nil in Hcases.
Qed.

Lemma parse_digits_delimited acc rest :
  MiniJson.delimited rest → MiniJson.parse_digits acc rest = (acc, rest).
Proof. destruct rest as [|c rest]; simpl; [done|]. by intros ->. Qed.

Lemma pretty_N_go_app x : ∀ s t, pretty_N_go x s ++ t = pretty_N_go x (s ++ t).
Proof.
  induction (N.lt_wf_0 x) as [x _ IH]; intros s t.
  assert (x = 0 ∨ 0 < x)%N as [->|Hx] by lia.
  - by rewrite !pretty_N_go_0.
  - rewrite (pretty_N_go_step x s), (pretty_N_go_step x (s ++ t)) by done.
    rewrite IH by (apply N.div_lt; lia). done.
Qed.

Lemma parse_digits_pretty_N_go x :
  ∀ s, ∃ k, 0 ≤ k ∧ ∀ acc,
    MiniJson.parse_digits acc (pretty_N_go x s)
    = MiniJson.parse_digits (acc * 10 ^ k + Z.of_N x) s.
Proof.
  induction (N.lt_wf_0 x) as [x _ IH]; intros s.
  assert (x = 0 ∨ 0 < x)%N as [->|Hx] by lia.
  - exists 0. split; [done|]. intros acc. rewrite pretty_N_go_0.
    f_equal. lia.
  - rewrite pretty_N_go_step by done.
    assert (x `div` 10 < x)%N as Hlt by (apply N.div_lt; lia).
    destruct (IH (x `div` 10)%N Hlt (String (pretty_N_char (x `mod` 10)) s))
      as (k & Hk & Hparse).
    exists (k + 1). split; [lia|]. intros acc. rewrite Hparse.
    cbn [MiniJson.parse_digits].
    rewrite digit_of_pretty_N_char by (apply N.mod_lt; lia).
    f_equal. rewrite Z.pow_add_r, Z.pow_1_r by lia.
    pose proof (N.div_mod x 10). lia.
Qed.

Lemma pretty_N_go_head x :
  (0 < x)%N →
  ∀ s, ∃ c s', pretty_N_go x s = String c s' ∧ is_Some (MiniPy.digit_of c).
Proof.
  induction (N.lt_wf_0 x) as [x _ IH]; intros Hx s.
  rewrite pretty_N_go_step by done.
  destruct (N.eq_0_gt_0_cases (x `div` 10)) as [->|Hdiv].
  - rewrite pretty_N_go_0. do 2 eexists. split; [done|].
    rewrite digit_of_pretty_N_char by (apply N.mod_lt; lia). eauto.
  - apply IH; [|done]. apply N.div_lt; lia.
Qed.

(** A positive number in decimal, followed by [rest]. *)
Lemma parse_pretty_positive p rest :
  MiniJson.delimited rest →
  MiniJson.starts_with_digit (pretty p ++ rest) = true
  ∧ MiniJson.parse_digits 0 (pretty p ++ rest) = (Z.pos p, rest).
Proof.
  intros Hrest. unfold pretty, pretty_positive, pretty, pretty_N.
  rewrite decide_False by done. rewrite pretty_N_go_app. split.
  - destruct (pretty_N_go_head (N.pos p) eq_refl ("" ++ rest))
      as (c & s' & -> & Hc).
    simpl. by apply bool_decide_eq_true.
  - destruct (parse_digits_pretty_N_go (N.pos p) ("" ++ rest))
      as (k & _ & ->).
    by rewrite parse_digits_delimited.
Qed.

Lemma digit_not_minus c : is_Some (MiniPy.digit_of c) → Ascii.eqb c "-" = false.
Proof.
  destruct c as [[] [] [] [] [] [] [] []]; try reflexivity;
    intros [d Hd]; discriminate.
Qed.

Lemma parse_number_pretty z rest :
  MiniJson.delimited rest →
  MiniJson.parse_number (pretty z ++ rest) = Some (JInt z, rest).
Proof.
  intros Hrest. destruct z as [|p|p].
  - change (pretty 0) with "0".
    destruct rest as [|c rest]; simpl in *; [done|]. by rewrite Hrest.
  - change (pretty (Z.pos p)) with (pretty p).
    destruct (parse_pretty_positive p rest Hrest) as [Hhead Hparse].
    destruct (pretty p ++ rest) as [|c s] eqn:Hs; [done|].
    unfold MiniJson.parse_number.
    rewrite digit_not_minus
      by (simpl in Hhead; by apply bool_decide_eq_true in Hhead).
    by rewrite Hhead, Hparse.
  - change (pretty (Z.neg p) ++ rest) with (String "-" (pretty p ++ rest)).
    destruct (parse_pretty_positive p rest Hrest) as [Hhead Hparse].
    unfold MiniJson.parse_number.
    change (Ascii.eqb "-" "-") with true. cbn iota.
    by rewrite Hhead, Hparse.
Qed.

(** *** Values *)

Lemma json_nested_ind (P : json → Prop) :
  P JNull → (∀ b, P (JBool b)) → (∀ z, P (JInt z)) → (∀ x, P (JFloat x)) →
  (∀ s, P (JStr s)) →
  (∀ l, Forall P l → P (JList l)) →
  (∀ d, Forall (fun kv => P kv.2) d → P (JDict d)) →
  ∀ v, P v.
Proof.
  intros Hnull Hbool Hint Hfloat Hstr Hlist Hdict. fix IH 1.
  intros [|b|z|x|s|l|d].
  - apply Hnull.
  - apply Hbool.
  - apply Hint.
  - apply Hfloat.
  - apply Hstr.
  - apply Hlist. induction l as [|v l IHl]; constructor; [apply IH|apply IHl].
  - apply Hdict.
    induction d as [|[k v] d IHd]; constructor; [apply IH|apply IHd].
Qed.

Lemma digit_head c :
  is_Some (MiniPy.digit_of c) →
  MiniJson.is_ws c = false ∧ Ascii.eqb c "]" = false.
Proof.
  destruct c as [[] [] [] [] [] [] [] []]; try (split; reflexivity);
    intros [d Hd]; discriminate.
Qed.

Lemma pretty_Z_head (z : Z) :
  ∃ c s, pretty z = String c s
         ∧ (is_Some (MiniPy.digit_of c) ∨ c = "-"%char).
Proof.
  destruct z as [|p|p].
  - exists "0"%char, "". split; [done|]. left. by eexists.
  - change (pretty (Z.pos p)) with (pretty_N (N.pos p)). unfold pretty_N.
    rewrite decide_False by done.
    destruct (pretty_N_go_head (N.pos p) eq_refl "") as (c & s & -> & Hc).
    eauto.
  - exists "-"%char, (pretty p). split; [done|]. by right.
Qed.

Lemma float_free_elements l :
  forallb float_free l = true → Forall (fun v => float_free v = true) l.
Proof.
  induction l as [|v l IH]; [done|]. simpl.
  intros [Hv Hl]%andb_true_iff. constructor; eauto.
Qed.

Lemma float_free_members (d : pydict) :
  forallb (fun kv => float_free kv.2) d = true →
  Forall (fun kv => float_free kv.2 = true) d.
Proof.
  induction d as [|kv d IH]; [done|]. simpl.
  intros [Hv Hd]%andb_true_iff. constructor; eauto.
Qed.

(** What [dumps] writes starts with a character that is neither
    whitespace nor a closing bracket. *)
Lemma dumps_head v :
  float_free v = true →
  ∃ c s, MiniJson.dumps v = String c s
         ∧ MiniJson.is_ws c = false ∧ Ascii.eqb c "]" = false.
Proof.
  destruct v as [|[]|z|x|s|l|d]; try discriminate; intros _;
    try (do 2 eexists; split; [reflexivity|done]).
  destruct (pretty_Z_head z) as (c & s & Hs & [Hc| ->]).
  - exists c, s. split; [done|]. by apply digit_head.
  - exists "-"%char, s. done.
Qed.

Lemma next_is_dumps v tail :
  float_free v = true →
  MiniJson.next_is "]" (MiniJson.dumps v ++ tail) = None.
Proof.
  intros Hv. destruct (dumps_head v Hv) as (c & s & -> & Hws & Hc).
  rewrite append_cons. unfold MiniJson.next_is. simpl. by rewrite Hws, Hc.
Qed.

Lemma parse_value_space fuel s :
  MiniJson.parse_value fuel (String " " s) = MiniJson.parse_value fuel s.
Proof. by destruct fuel. Qed.

Lemma parse_elements_space fuel s :
  MiniJson.parse_elements fuel (String " " s) = MiniJson.parse_elements fuel s.
Proof. destruct fuel; [done|]. simpl. by rewrite parse_value_space. Qed.

Lemma parse_members_space fuel s :
  MiniJson.parse_members fuel (String " " s) = MiniJson.parse_members fuel s.
Proof. by destruct fuel. Qed.

Lemma parse_value_number fuel c s :
  is_Some (MiniPy.digit_of c) ∨ c = "-"%char →
  MiniJson.parse_value (S fuel) (String c s)
  = MiniJson.parse_number (String c s).
Proof.
  destruct c as [[] [] [] [] [] [] [] []]; try reflexivity;
    intros [[d Hd]|Hc]; discriminate.
Qed.

(** Reading back [v] with enough fuel, whatever follows it. *)
Definition reads_back (v : json) : Prop :=
  ∀ fuel rest,
    (MiniJson.weight v ≤ fuel)%nat →
    MiniJson.delimited rest →
    MiniJson.parse_value fuel (MiniJson.dumps v ++ rest) = Some (v, rest).

Definition elements_fuel (l : list json) : nat :=
  list_sum (map (fun x => S (MiniJson.weight x)) l).

Definition members_fuel (d : pydict) : nat :=
  list_sum (map (fun kv => S (MiniJson.weight kv.2)) d).

Definition member_text (kv : string * json) : string :=
  MiniJson.quoted kv.1 ++ ": " ++ MiniJson.dumps kv.2.

Lemma join_cons_cons sep x y l :
  Py.join sep (x :: y :: l) = x ++ sep ++ Py.join sep (y :: l).
Proof. reflexivity. Qed.

Lemma parse_elements_dumps l :
  Forall reads_back l →
  ∀ v fuel rest,
    reads_back v →
    (elements_fuel (v :: l) ≤ fuel)%nat →
    MiniJson.parse_elements fuel
      (Py.join ", " (map MiniJson.dumps (v :: l)) ++ String "]" rest)
    = Some (v :: l, rest).
Proof.
  induction 1 as [|v' l Hv' _ IH]; intros v fuel rest Hv Hfuel.
  - destruct fuel as [|fuel]; [unfold elements_fuel in Hfuel; simpl in Hfuel; lia|].
    cbn [map Py.join MiniJson.parse_elements].
    rewrite Hv; [done| |done].
    unfold elements_fuel in Hfuel. simpl in Hfuel. lia.
  - destruct fuel as [|fuel]; [unfold elements_fuel in Hfuel; simpl in Hfuel; lia|].
    cbn [map]. rewrite join_cons_cons, !append_assoc.
    cbn [MiniJson.parse_elements].
    rewrite Hv; [| |done].
    2:{ unfold elements_fuel in Hfuel. simpl in Hfuel. lia. }
    change (Some (v, ", " ++ ?t) ≫= ?f) with (f (v, String "," (String " " t))).
    cbv beta iota.
    change (MiniJson.next_is "," (String "," ?t)) with (Some t).
    cbv beta iota. rewrite parse_elements_space.
    change (MiniJson.dumps v' :: map MiniJson.dumps l)
      with (map MiniJson.dumps (v' :: l)).
    rewrite IH; [done|done|].
    unfold elements_fuel in *. simpl in *. lia.
Qed.

Lemma parse_member_dumps fuel k v tail :
  reads_back v →
  (MiniJson.weight v ≤ fuel)%nat →
  MiniJson.delimited tail →
  MiniJson.parse_members (S fuel) (member_text (k, v) ++ tail)
  = match MiniJson.next_is "," tail with
    | Some rest4 =>
        '(d, rest5) ← MiniJson.parse_members fuel rest4;
        Some ((k, v) :: d, rest5)
    | None =>
        match MiniJson.next_is "}" tail with
        | Some rest4 => Some ([(k, v)], rest4)
        | None => None
        end
    end.
Proof.
  intros Hv Hfuel Htail. unfold member_text. cbn [fst snd].
  rewrite append_assoc, parse_quoted.
  cbn [MiniJson.parse_members].
  change (MiniJson.next_is Py.dquote (String Py.dquote ?t)) with (Some t).
  cbn [mbind option_bind]. rewrite parse_escape. cbn [mbind option_bind].
  rewrite append_assoc.
  change (MiniJson.next_is ":" (": " ++ ?t)) with (Some (String " " t)).
  cbn [mbind option_bind]. rewrite parse_value_space, Hv by done.
  reflexivity.
Qed.

Lemma parse_members_dumps d :
  Forall (fun kv => reads_back kv.2) d →
  ∀ kv fuel rest,
    reads_back kv.2 →
    (members_fuel (kv :: d) ≤ fuel)%nat →
    MiniJson.parse_members fuel
      (Py.join ", " (map member_text (kv :: d)) ++ String "}" rest)
    = Some (kv :: d, rest).
Proof.
  induction 1 as [|kv' d Hkv' _ IH]; intros [k v] fuel rest Hv Hfuel.
  - destruct fuel as [|fuel]; [unfold members_fuel in Hfuel; simpl in Hfuel; lia|].
    cbn [map Py.join].
    rewrite parse_member_dumps; [done|done| |done].
    unfold members_fuel in Hfuel. simpl in Hfuel. lia.
  - destruct fuel as [|fuel]; [unfold members_fuel in Hfuel; simpl in Hfuel; lia|].
    cbn [map]. rewrite join_cons_cons, !append_assoc.
    rewrite parse_member_dumps; [|done| |done].
    2:{ unfold members_fuel in Hfuel. simpl in Hfuel. lia. }
    change (MiniJson.next_is "," (", " ++ ?t)) with (Some (String " " t)).
    cbv beta iota. rewrite parse_members_space.
    change (member_text kv' :: map member_text d)
      with (map member_text (kv' :: d)).
    rewrite IH; [done|done|].
    unfold members_fuel in *. simpl in *. lia.
Qed.

(** Every value without floats is read back. *)
Lemma dumps_reads_back v : float_free v = true → reads_back v.
Proof.
  induction v as [|b|z|x|s|l IH|d IH] using json_nested_ind;
    intros Hfree fuel rest Hfuel Hrest;
    (destruct fuel as [|fuel]; [simpl in Hfuel; lia|]).
  - reflexivity.
  - by destruct b.
  - destruct (pretty_Z_head z) as (c & s & Hs & Hc).
    change (MiniJson.dumps (JInt z)) with (pretty z).
    assert (pretty z ++ rest = String c (s ++ rest)) as Htext.
    { by rewrite Hs. }
    rewrite Htext, parse_value_number, <- Htext by done.
    by apply parse_number_pretty.
  - discriminate.
  - change (MiniJson.dumps (JStr s)) with (MiniJson.quoted s).
    rewrite parse_quoted.
    change (MiniJson.parse_value (S fuel) (String Py.dquote ?t))
      with ('(body, rest') ← MiniJson.parse_string_body t;
            Some (JStr body, rest')).
    by rewrite parse_escape.
  - change (MiniJson.dumps (JList l))
      with ("[" ++ Py.join ", " (map MiniJson.dumps l) ++ "]").
    rewrite !append_assoc.
    change (MiniJson.parse_value (S fuel) ("[" ++ ?t))
      with (match MiniJson.next_is "]" t with
            | Some rest' => Some (JList [], rest')
            | None =>
                '(l, rest') ← MiniJson.parse_elements fuel t;
                Some (JList l, rest')
            end).
    destruct l as [|v l]; [reflexivity|].
    apply float_free_elements in Hfree.
    assert (Forall reads_back (v :: l)) as IH'.
    { rewrite Forall_forall in IH, Hfree. apply Forall_forall.
      intros x' Hin. apply IH; [done|]. by apply Hfree. }
    apply Forall_cons in Hfree as [Hfree _].
    clear IH. apply Forall_cons in IH' as [Hv Hl].
    assert (∃ tail,
              Py.join ", " (map MiniJson.dumps (v :: l)) ++ "]" ++ rest
              = MiniJson.dumps v ++ tail) as [tail Htail].
    { destruct l as [|v' l]; [by eexists|].
      cbn [map]. rewrite join_cons_cons, !append_assoc. by eexists. }
    rewrite Htail at 1. rewrite next_is_dumps by done.
    change ("]" ++ rest) with (String "]" rest).
    rewrite parse_elements_dumps; [done|done|done|].
    simpl in Hfuel. unfold elements_fuel. simpl. lia.
  - change (MiniJson.dumps (JDict d))
      with ("{" ++ Py.join ", " (map member_text d) ++ "}").
    rewrite !append_assoc.
    change (MiniJson.parse_value (S fuel) ("{" ++ ?t))
      with (match MiniJson.next_is "}" t with
            | Some rest' => Some (JDict [], rest')
            | None =>
                '(d, rest') ← MiniJson.parse_members fuel t;
                Some (JDict d, rest')
            end).
    destruct d as [|[k v] d]; [reflexivity|].
    apply float_free_members in Hfree.
    assert (Forall (fun kv => reads_back kv.2) ((k, v) :: d)) as IH'.
    { rewrite Forall_forall in IH, Hfree. apply Forall_forall.
      intros x' Hin. apply IH; [done|]. by apply Hfree. }
    clear IH. apply Forall_cons in IH' as [Hv Hd].
    assert (∃ tail,
              Py.join ", " (map member_text ((k, v) :: d)) ++ "}" ++ rest
              = String Py.dquote tail) as [tail Htail].
    { destruct d as [|kv' d]; cbn [map]; unfold member_text at 1;
        rewrite ?join_cons_cons, ?append_assoc; cbn [Py.join fst];
        rewrite ?append_assoc, parse_quoted; by eexists. }
    rewrite Htail at 1.
    change (MiniJson.next_is "}" (String Py.dquote tail)) with (@None string).
    change ("}" ++ rest) with (String "}" rest).
    rewrite parse_members_dumps; [done|done|done|].
    simpl in Hfuel. unfold members_fuel. simpl. lia.
Qed.

(** The fuel [loads] starts with is enough. *)
Lemma join_length_bound {A} (text : A → string) (w : A → nat) (l : list A) :
  Forall (fun x => (w x ≤ String.length (text x))%nat) l →
  (list_sum (map (fun x => S (w x)) l)
   ≤ S (String.length (Py.join ", " (map text l))))%nat.
Proof.
  induction 1 as [|x l Hx _ IH]; [simpl; lia|].
  destruct l as [|y l].
  - simpl. lia.
  - cbn [map] in *. rewrite join_cons_cons, !length_append.
    remember (Py.join ", " (text y :: map text l)) as j.
    remember (map (fun x => S (w x)) l) as ws.
    simpl in *. lia.
Qed.

Lemma weight_le_length v :
  float_free v = true →
  (MiniJson.weight v ≤ String.length (MiniJson.dumps v))%nat.
Proof.
  induction v as [|b|z|x|s|l IH|d IH] using json_nested_ind; intros Hfree.
  - simpl. lia.
  - destruct b; simpl; lia.
  - destruct (pretty_Z_head z) as (c & s & Hs & _).
    change (MiniJson.dumps (JInt z)) with (pretty z). rewrite Hs. simpl. lia.
  - discriminate.
  - simpl. lia.
  - change (MiniJson.dumps (JList l))
      with ("[" ++ Py.join ", " (map MiniJson.dumps l) ++ "]").
    rewrite !length_append. cbn [MiniJson.weight].
    apply float_free_elements in Hfree.
    assert (Forall (fun v => (MiniJson.weight v
                              ≤ String.length (MiniJson.dumps v))%nat) l)
      as IH'.
    { rewrite Forall_forall in IH, Hfree. apply Forall_forall.
      intros x' Hin. apply IH; [done|]. by apply Hfree. }
    pose proof (join_length_bound MiniJson.dumps MiniJson.weight l IH').
    simpl String.length. lia.
  - apply float_free_members in Hfree.
    assert (Forall (fun kv => (MiniJson.weight kv.2
                               ≤ String.length (MiniJson.dumps kv.2))%nat) d)
      as IH'.
    { rewrite Forall_forall in IH, Hfree. apply Forall_forall.
      intros x' Hin. apply IH; [done|]. by apply Hfree. }
    clear IH. rename IH' into IH.
    change (MiniJson.dumps (JDict d))
      with ("{" ++ Py.join ", " (map member_text d) ++ "}").
    rewrite !length_append. cbn [MiniJson.weight].
    pose proof (join_length_bound member_text
                  (fun kv => MiniJson.weight kv.2) d) as Hbound.
    simpl String.length.
    assert (Forall (fun kv =>
              (MiniJson.weight kv.2 ≤ String.length (member_text kv))%nat) d)
      as Hd.
    { eapply Forall_impl; [exact IH|]. intros [k v] Hv. unfold member_text.
      rewrite !length_append. simpl in *. lia. }
    specialize (Hbound Hd). lia.
Qed.

(** [MiniJson.loads] reads back what [MiniJson.dumps] writes for a value
    without floats. *)
Lemma mini_round_trips v :
  float_free v = true → round_trips (H := mini) v.
Proof.
  intros Hfree.
  unfold round_trips. cbn [loads dumps mini]. unfold MiniJson.loads.
  rewrite <- (append_nil_r (MiniJson.dumps v)) at 2.
  rewrite dumps_reads_back; [done|done| |done].
  pose proof (weight_le_length v Hfree). lia.
Qed.

Lemma with_defaults_float_free item :
  float_free item = true → float_free (with_defaults item) = true.
Proof.
  destruct item as [| | | | |l|d]; try done. cbn [with_defaults float_free].
  intros Hd.
  assert (∀ (d : pydict) k v,
            forallb (fun kv => float_free kv.2) d = true →
            float_free v = true →
            forallb (fun kv => float_free kv.2)
              (if Py.contains d k then d else (d ++ [(k, v)])%list) = true)
    as Hadd.
  { intros d0 k v Hd0 Hv. destruct (Py.contains d0 k); [done|].
    rewrite forallb_app, Hd0. simpl. by rewrite Hv. }
  cbv zeta. apply Hadd; [|done]. by apply Hadd.
Qed.

(** With this codec the round trip of the template needs no assumption
    about the codec: whatever list without floats [save_template] accepts
    comes back from [load_template] with its defaults filled in. *)
Lemma mini_save_then_load db items :
  initialized db →
  Forall accepted_item items →
  float_free (JList items) = true →
  ∃ db',
    (QuotaService.save_template (H := mini) (JList items);;
     QuotaService.load_template (H := mini)) db
    = (Ok (map with_defaults items), db').
Proof.
  intros [[data Hrow] _] Hitems Hfree. eexists.
  unfold QuotaService.save_template, QuotaService.load_template.
  unfold mbind at 1, M_bind.
  rewrite (save_spec (H := mini) _ _ (Some data)) by done.
  rewrite (load_spec (H := mini) _
             (Some (MiniJson.dumps (JList (map with_defaults items)))))
    by done.
  assert (float_free (JList (map with_defaults items)) = true) as Hfree'.
  { cbn [float_free] in *. apply float_free_elements in Hfree.
    apply forallb_forall. intros v (item & <- & Hitem)%in_map_iff.
    apply with_defaults_float_free.
    rewrite Forall_forall in Hfree. by apply Hfree, list_elem_of_In. }
  pose proof (mini_round_trips (JList (map with_defaults items)) Hfree')
    as Hround.
  unfold round_trips in Hround. cbn [loads dumps mini] in *.
  by rewrite Hround.
Qed.

End Codec.

(** * Further properties of the code *)

(** ** Validation and the template row *)

Section MoreTemplateStore.
Context `{Runtime}.

(** [validate_item] either accepts or raises its one message. *)
Lemma validate_item_cases item :
  accepted_item item
  ∧ TemplateRepository.validate_item item = Ok (with_defaults item)
  ∨ ¬ accepted_item item
    ∧ TemplateRepository.validate_item item
      = Raise (ValueError "Each item must have id and text").
Proof.
  destruct item as [| | | | |l|d];
    try (right; split; [by intros (d & ? & _)|done]).
  simpl. destruct (Py.contains d "id") eqn:Hid.
  - destruct (Py.contains d "text") eqn:Htext.
    + left. split; [by exists d|done].
    + right. split; [|done]. intros (d' & [= <-] & _ & Ht). congruence.
  - right. split; [|done]. intros (d' & [= <-] & Hi & _). congruence.
Qed.

Lemma validate_items_rejected items :
  ¬ Forall accepted_item items →
  TemplateRepository.validate_items items
  = Raise (ValueError "Each item must have id and text").
Proof.
  induction items as [|item items IH]; intros Hno.
  - destruct Hno. constructor.
  - simpl. destruct (validate_item_cases item) as [[Hacc ->]|[_ ->]]; [|done].
    simpl. rewrite IH; [done|]. intros Hitems. apply Hno. by constructor.
Qed.

(** X1: [save] raises [ValueError] on anything that is not a list of
    dicts with [id] and [text], with the message of the check that failed,
    and leaves the database as it was, whatever state it is in. *)
Theorem save_rejects_malformed_template template_data db :
  ¬ (∃ items, template_data = JList items ∧ Forall accepted_item items) →
  TemplateRepository.save template_data db
  = (Raise (ValueError match template_data with
                       | JList _ => "Each item must have id and text"
                       | _ => "Template must be a list"
                       end), db).
Proof.
  intros Hbad. unfold TemplateRepository.save, mbind, M_bind, lift.
  destruct template_data as [| | | | |items|d]; try reflexivity.
  simpl. rewrite validate_items_rejected; [done|].
  intros Hitems. apply Hbad. by exists items.
Qed.

Lemma contains_app d1 d2 k :
  Py.contains (d1 ++ d2)%list k = Py.contains d1 k || Py.contains d2 k.
Proof.
  induction d1 as [|[k' v] d1 IH]; [done|].
  simpl. rewrite IH. by rewrite orb_assoc.
Qed.

Lemma contains_setdefault d k v k' :
  Py.contains (Py.setdefault d k v) k'
  = Py.contains d k' || String.eqb k k'.
Proof.
  unfold Py.setdefault. destruct (Py.contains d k) eqn:Hk.
  - destruct (String.eqb_spec k k') as [<-|]; [by rewrite Hk|].
    by rewrite orb_false_r.
  - rewrite contains_app. simpl. by rewrite orb_false_r.
Qed.

Lemma setdefault_present d k v :
  Py.contains d k = true → Py.setdefault d k v = d.
Proof. unfold Py.setdefault. by intros ->. Qed.

Lemma with_defaults_setdefault d :
  with_defaults (JDict d)
  = JDict (Py.setdefault (Py.setdefault d "importance" (JInt 1))
             "subitems" (JList [])).
Proof. reflexivity. Qed.

Lemma with_defaults_idempotent item :
  with_defaults (with_defaults item) = with_defaults item.
Proof.
  destruct item as [| | | | |l|d]; try done.
  rewrite with_defaults_setdefault.
  set (d2 := Py.setdefault (Py.setdefault d "importance" (JInt 1))
               "subitems" (JList [])).
  rewrite with_defaults_setdefault. f_equal.
  rewrite (setdefault_present d2 "importance"), (setdefault_present d2 "subitems");
    [done|..]; unfold d2; rewrite !contains_setdefault; simpl;
    by rewrite ?orb_true_r.
Qed.

Lemma with_defaults_accepted item :
  accepted_item item → accepted_item (with_defaults item).
Proof.
  intros (d & -> & Hid & Htext). rewrite with_defaults_setdefault.
  eexists. split; [done|].
  rewrite !contains_setdefault, Hid, Htext. done.
Qed.

(** X2: what [_validate_template] returns it accepts again and leaves
    alone, so saving a template a second time, in the form the first
    [save] gave it, writes the same text: the second [save] changes
    nothing. *)
Theorem save_again_changes_nothing db items :
  Forall accepted_item items →
  TemplateRepository._validate_template (JList (map with_defaults items))
  = Ok (JList (map with_defaults items))
  ∧ TemplateRepository.save (JList (map with_defaults items))
      (TemplateRepository.save (JList items) db).2
    = ((TemplateRepository.save (JList items) db).1,
       (TemplateRepository.save (JList items) db).2).
Proof.
  intros Hitems.
  assert (Forall accepted_item (map with_defaults items)) as Hitems'.
  { apply Forall_map. eapply Forall_impl; [done|].
    apply with_defaults_accepted. }
  assert (map with_defaults (map with_defaults items)
          = map with_defaults items) as Hidem.
  { rewrite map_map. apply map_ext. intros item.
    apply with_defaults_idempotent. }
  split.
  - simpl. rewrite validate_items_accepted, Hidem by done. done.
  - destruct (template db) as [row|] eqn:Hrow.
    + rewrite (save_spec db items row) by done. simpl.
      destruct row as [data|].
      * rewrite (save_spec _ _ (Some (dumps (JList (map with_defaults items)))))
          by done.
        rewrite Hidem. done.
      * by rewrite (save_spec _ _ None).
    + unfold TemplateRepository.save, TemplateRepository._validate_template.
      rewrite !validate_items_accepted by done.
      unfold_M. simpl. rewrite Hrow. simpl. by rewrite Hrow.
Qed.

(** X3: where the table [template] exists, [ensure_default] returns and
    leaves a row in it: the built-in template when there was none, the row
    that was there otherwise (then nothing changes at all).  A second call
    changes nothing, and the day tables are never touched. *)
Theorem ensure_default_inserts_once db :
  is_Some (template db) →
  ∃ db',
    TemplateRepository.ensure_default db = (Ok tt, db')
    ∧ (template db = Some None →
       template db' = Some (Some (dumps (JList DEFAULT_TEMPLATE))))
    ∧ (∀ data, template db = Some (Some data) → db' = db)
    ∧ day_item db' = day_item db
    ∧ day_status db' = day_status db
    ∧ TemplateRepository.ensure_default db' = (Ok tt, db').
Proof.
  intros [row Hrow]. unfold TemplateRepository.ensure_default. unfold_M.
  rewrite Hrow. destruct row as [data|]; eexists; (split; [done|]); simpl.
  - rewrite Hrow. repeat split; done.
  - repeat split; done.
Qed.

(** X4: [initialize] returns from every database, leaves one that has the
    three tables and a template row, and keeps what was there: the stored
    template text, the rows of every day and the closed flags.  Called on
    a database that is already set up it changes nothing, so a second call
    is a no-op. *)
Theorem initialize_is_idempotent db :
  let db1 := (QuotaService.initialize db).2 in
  QuotaService.initialize db = (Ok tt, db1)
  ∧ initialized db1
  ∧ QuotaService.initialize db1 = (Ok tt, db1)
  ∧ (∀ data, template db = Some (Some data) → template db1 = Some (Some data))
  ∧ (∀ day, rows_of_day db1 day = rows_of_day db day)
  ∧ (∀ day, closed_in db1 day = closed_in db day)
  ∧ (initialized db → db1 = db).
Proof.
  simpl. rewrite !initialize_spec. simpl.
  split; [done|]. split; [repeat split; eauto|].
  split; [done|]. split; [|split; [|split]].
  - by intros data ->.
  - intros day. unfold rows_of_day. simpl. by destruct (day_item db).
  - intros day. unfold closed_in. simpl. by destruct (day_status db).
  - intros ([data Hdata] & [rows Hrows] & [st Hst]).
    destruct db. simpl in *. by subst.
Qed.

(** X5: in a database [initialize] has prepared, [reset_template] returns
    the built-in template and stores it, so that [load_template] returns it
    afterwards, whatever was stored before; the day tables stay as they
    are.  (The built-in template is assumed to survive [json.dumps] and
    [json.loads], which [reset_template] itself applies to it.) *)
Theorem reset_template_restores_default db :
  initialized db →
  round_trips (JList DEFAULT_TEMPLATE) →
  ∃ db',
    QuotaService.reset_template db = (Ok DEFAULT_TEMPLATE, db')
    ∧ QuotaService.load_template db' = (Ok DEFAULT_TEMPLATE, db')
    ∧ day_item db' = day_item db
    ∧ day_status db' = day_status db.
Proof.
  intros [[data Hrow] _] Hround. unfold QuotaService.reset_template.
  unfold round_trips in Hround. rewrite Hround.
  unfold mbind, M_bind.
  assert (Forall accepted_item DEFAULT_TEMPLATE) as Hdefault.
  { repeat constructor; eexists; repeat split. }
  rewrite (save_spec _ _ (Some data)) by done.
  eexists. split; [done|]. split; [|done].
  unfold QuotaService.load_template.
  rewrite (load_spec _ (Some (dumps (JList (map with_defaults DEFAULT_TEMPLATE)))))
    by done.
  change (map with_defaults DEFAULT_TEMPLATE) with DEFAULT_TEMPLATE.
  by rewrite Hround.
Qed.

End MoreTemplateStore.

(** ** The closed flag *)

Section MoreLifecycle.
Context `{Runtime}.

(** X6: where the table [day_status] exists, [set_day_closed] returns and
    [is_day_closed] then answers with the flag that was set; the answer for
    every other day, the rows of [day_item] and the template are as
    before. *)
Theorem set_day_closed_then_is_day_closed day closed now db :
  is_Some (day_status db) →
  ∃ db',
    DayRepository.set_day_closed day closed now db = (Ok tt, db')
    ∧ DayRepository.is_day_closed day db' = (Ok closed, db')
    ∧ (∀ day', isoformat day' ≠ isoformat day →
         DayRepository.is_day_closed day' db'
         = ((DayRepository.is_day_closed day' db).1, db'))
    ∧ day_item db' = day_item db
    ∧ template db' = template db.
Proof.
  intros [st Hst]. eexists. split; [by apply set_day_closed_spec|].
  split; [|split; [|done]].
  - rewrite is_day_closed_spec by (simpl; eauto).
    by rewrite closed_in_with_day_status.
  - intros day' Hday'. rewrite !is_day_closed_spec by (simpl; eauto).
    simpl. unfold closed_in. simpl. rewrite Hst.
    by rewrite lookup_insert_ne.
Qed.

(** X7: of two [set_day_closed] calls for one day the later one decides:
    the pair leaves what the later call alone would leave, so closing twice
    keeps the later time and reopening after closing leaves the day open
    without a time.  Calls for days with different ISO dates can be
    swapped. *)
Theorem set_day_closed_last_call_wins day c1 t1 c2 t2 db :
  DayRepository.set_day_closed day c2 t2
    (DayRepository.set_day_closed day c1 t1 db).2
  = DayRepository.set_day_closed day c2 t2 db
  ∧ ∀ day',
      isoformat day' ≠ isoformat day →
      (DayRepository.set_day_closed day' c2 t2
         (DayRepository.set_day_closed day c1 t1 db).2).2
      = (DayRepository.set_day_closed day c1 t1
           (DayRepository.set_day_closed day' c2 t2 db).2).2.
Proof.
  destruct (day_status db) as [st|] eqn:Hst.
  - split.
    + rewrite (set_day_closed_spec day c1 t1 db st) by done. simpl.
      rewrite (set_day_closed_spec day c2 t2 db st) by done.
      erewrite set_day_closed_spec by (simpl; done).
      unfold with_day_status. simpl. by rewrite insert_insert_eq.
    + intros day' Hday'.
      rewrite (set_day_closed_spec day c1 t1 db st) by done.
      rewrite (set_day_closed_spec day' c2 t2 db st) by done. simpl.
      erewrite !set_day_closed_spec by (simpl; done).
      unfold with_day_status. simpl. f_equal. f_equal.
      by apply insert_insert_ne.
  - assert (∀ d c t, DayRepository.set_day_closed d c t db
                     = (Raise (no_such_table "day_status"), db)) as Hraise.
    { intros d c t. unfold DayRepository.set_day_closed. unfold_M.
      by rewrite Hst. }
    split; [by rewrite !Hraise|]. intros day' _. by rewrite !Hraise.
Qed.

Lemma save_day_status template_data db :
  day_status (TemplateRepository.save template_data db).2 = day_status db.
Proof.
  unfold TemplateRepository.save. unfold_M.
  destruct (TemplateRepository._validate_template template_data); [|done].
  destruct (template db) as [[|]|]; done.
Qed.

Lemma instantiate_day_status day db :
  day_status (DayRepository.instantiate_day_if_needed day db).2
  = day_status db.
Proof.
  destruct (instantiate_outcome day db) as (r & db1 & -> & Hcases). simpl.
  destruct Hcases
    as [[_ ->]|(_ & _ & [->|(_ & rows & added & _ & _ & _ & ->)])]; done.
Qed.

Lemma set_item_checked_day_status day item_id checked evidence why now db :
  day_status
    (DayRepository.set_item_checked day item_id checked evidence why now db).2
  = day_status db.
Proof.
  destruct (set_item_checked_state day item_id checked evidence why now db)
    as [->|(_ & rows & _ & ->)]; done.
Qed.

Lemma statuses_ok_same db db' :
  day_status db' = day_status db → statuses_ok db → statuses_ok db'.
Proof. unfold statuses_ok. intros ->. done. Qed.

Lemma set_day_closed_statuses_ok day closed now db :
  statuses_ok db →
  statuses_ok (DayRepository.set_day_closed day closed now db).2.
Proof.
  intros Hok. destruct (day_status db) as [st|] eqn:Hst.
  - rewrite (set_day_closed_spec _ _ _ _ st) by done.
    intros st' day_str s [= <-].
    destruct (decide (isoformat day = day_str)) as [<-|Hne].
    + rewrite lookup_insert_eq. intros [= <-]. unfold status_ok. simpl.
      destruct closed; split; try done; by intros [? ?].
    + rewrite lookup_insert_ne by done. by apply Hok.
  - unfold DayRepository.set_day_closed. unfold_M. by rewrite Hst.
Qed.

(** X8: every call of the service, whether it returns or raises, keeps the
    invariant of [day_status]: a row is closed exactly when it has a
    [closed_at] time.  It holds on a new file, hence in every database the
    service produces. *)
Theorem service_preserves_status_invariant db c :
  statuses_ok db → statuses_ok (run db c).
Proof.
  intros Hok. destruct c; simpl.
  - rewrite initialize_spec. intros st day_str s [= <-].
    destruct (day_status db) as [st|] eqn:Hst; simpl; [by apply Hok|].
    by rewrite lookup_empty.
  - rewrite get_day_state.
    eapply statuses_ok_same; [apply instantiate_day_status|done].
  - eapply statuses_ok_same; [apply set_item_checked_day_status|done].
  - by apply set_day_closed_statuses_ok.
  - by apply set_day_closed_statuses_ok.
  - unfold QuotaService.get_checked_days, DayRepository.get_checked_days.
    unfold_M. by destruct (day_item db).
  - unfold QuotaService.load_template.
    destruct (template db) as [row|] eqn:Hrow.
    + by rewrite (load_spec _ row).
    + by rewrite load_no_table.
  - eapply statuses_ok_same; [apply save_day_status|done].
  - unfold QuotaService.reset_template.
    destruct (loads (dumps (JList DEFAULT_TEMPLATE))); [|done].
    unfold mbind, M_bind.
    pose proof (save_day_status j db) as Hst.
    destruct (TemplateRepository.save j db) as [[[]|e] db']; simpl in *;
      by eapply statuses_ok_same.
Qed.

End MoreLifecycle.

(** ** Rows: what changes and what does not *)

Section MoreRows.
Context `{Runtime}.

Lemma update_checked_snapshot day_str item_id c e w at_ r :
  row_snapshot (DayRepository.update_checked day_str item_id c e w at_ r)
  = row_snapshot r.
Proof. unfold DayRepository.update_checked. by destruct (same_key _ _ _). Qed.

Lemma update_checked_other day_str item_id c e w at_ r :
  same_key day_str item_id r = false →
  DayRepository.update_checked day_str item_id c e w at_ r = r.
Proof. unfold DayRepository.update_checked. by intros ->. Qed.

(** X9: [set_item_checked], whether it returns or raises, leaves the
    template and the closed flags alone, adds and removes no row, keeps
    [day], [item_id], [item_text] and [importance] of every row, and leaves
    every row other than the one named by [(day, item_id)] exactly as it
    was. *)
Theorem set_item_checked_touches_one_row
    day item_id checked evidence why now db :
  let db' :=
    (DayRepository.set_item_checked day item_id checked evidence why now db).2
  in
  template db' = template db
  ∧ day_status db' = day_status db
  ∧ ∀ rows,
      day_item db = Some rows →
      ∃ rows',
        day_item db' = Some rows'
        ∧ map row_snapshot rows' = map row_snapshot rows
        ∧ Forall2 (fun r r' =>
                     same_key (isoformat day) item_id r = false → r' = r)
            rows rows'.
Proof.
  simpl.
  destruct (set_item_checked_state day item_id checked evidence why now db)
    as [->|(_ & rows0 & Hrows0 & ->)].
  - repeat split; try done. intros rows Hrows. exists rows.
    split; [done|]. split; [done|]. by apply Forall_Forall2_diag, Forall_true.
  - repeat split; try done. simpl. intros rows Hrows.
    assert (rows = rows0) as -> by congruence.
    eexists. split; [done|]. split.
    + rewrite map_map. apply map_ext. intros r.
      apply update_checked_snapshot.
    + clear Hrows0 Hrows. induction rows0 as [|r rows0 IH]; simpl;
        constructor; [|done].
      intros Hr. by apply update_checked_other.
Qed.

(** X10: unchecking asks for no evidence.  On an open day, with the day
    tables in place, [set_item_checked] with [checked] false returns for
    any evidence, blank or not, and every row of that item is then
    unchecked, without [checked_at], holding the trimmed evidence and
    why. *)
Theorem uncheck_needs_no_evidence day item_id evidence why now db :
  is_Some (day_item db) →
  is_Some (day_status db) →
  closed_in db day = false →
  ∃ db',
    DayRepository.set_item_checked day item_id false evidence why now db
    = (Ok tt, db')
    ∧ ∀ r,
        r ∈ rows_of_day db' day →
        DayItem.item_id r = item_id →
        DayItem.checked r = false
        ∧ DayItem.checked_at r = None
        ∧ DayItem.evidence r = Py.strip evidence
        ∧ DayItem.why r = Py.strip why.
Proof.
  intros [rows Hrows] Hst Hopen. eexists. split.
  { by apply set_item_checked_passes. }
  intros r. unfold rows_of_day. simpl.
  rewrite filter_day_update_checked.
  intros (r0 & -> & Hr0)%list_elem_of_fmap Hid.
  apply list_elem_of_filter in Hr0 as [Hday _].
  rewrite <- (update_checked_day (isoformat day) item_id false
                (Py.strip evidence) (Py.strip why) None r0) in Hday.
  revert Hid Hday. unfold DayRepository.update_checked.
  destruct (same_key (isoformat day) item_id r0) eqn:Hkey; [done|].
  intros Hid Hday. unfold same_key in Hkey.
  rewrite Hday, Hid, !String.eqb_refl in Hkey. discriminate.
Qed.

Lemma same_key_row_key day_str item_id r :
  same_key day_str item_id r = true ↔ row_key r = (day_str, item_id).
Proof.
  unfold same_key, row_key. rewrite andb_true_iff, !String.eqb_eq.
  split; [by intros [-> ->]|by intros [= -> ->]].
Qed.

Lemma existsb_same_key_false day_str item_id rows :
  existsb (same_key day_str item_id) rows = false →
  (day_str, item_id) ∉ map row_key rows.
Proof.
  intros Hnone (r & Hkey & Hr)%list_elem_of_fmap.
  assert (existsb (same_key day_str item_id) rows = true); [|congruence].
  apply existsb_exists. exists r. split; [by apply list_elem_of_In|].
  by apply same_key_row_key.
Qed.

(** One [INSERT OR IGNORE] keeps the primary key. *)
Lemma insert_or_ignore_keys day_str line db rows :
  day_item db = Some rows →
  NoDup (map row_key rows) →
  ∃ r rows',
    DayRepository.insert_or_ignore day_str line db
    = (r, with_day_item db rows')
    ∧ NoDup (map row_key rows').
Proof.
  intros Hrows Hnodup. unfold DayRepository.insert_or_ignore. unfold_M.
  assert (db = with_day_item db rows) as Hsame
    by (by rewrite with_day_item_same).
  destruct (bind_parameter (line_text line)) as [text|e].
  2:{ exists (Raise e), rows. by rewrite <- Hsame. }
  destruct (bind_parameter (JInt (line_importance line))) as [imp|e].
  2:{ exists (Raise e), rows. by rewrite <- Hsame. }
  rewrite Hrows.
  destruct (as_text text) as [item_text|], (as_integer imp) as [importance|];
    try (exists (Ok tt), rows; by rewrite <- Hsame).
  destruct (existsb (same_key day_str (line_id line)) rows) eqn:Hkey.
  - exists (Ok tt), rows. by rewrite <- Hsame.
  - eexists (Ok tt), _. split; [done|].
    rewrite map_app. simpl. apply NoDup_app. split; [done|]. split.
    + intros k Hk Hk'. apply list_elem_of_singleton in Hk'. subst k.
      by apply existsb_same_key_false in Hkey.
    + apply NoDup_singleton.
Qed.

Lemma for_each_insert_keys day_str lines :
  ∀ db rows,
    day_item db = Some rows →
    NoDup (map row_key rows) →
    ∃ r rows',
      for_each lines (DayRepository.insert_or_ignore day_str) db
      = (r, with_day_item db rows')
      ∧ NoDup (map row_key rows').
Proof.
  induction lines as [|line lines IH]; intros db rows Hrows Hnodup.
  - exists (Ok tt), rows. split; [|done]. simpl. unfold_M.
    by rewrite with_day_item_same.
  - simpl. unfold mbind, M_bind.
    destruct (insert_or_ignore_keys day_str line db rows Hrows Hnodup)
      as (r & rows1 & -> & Hnodup1).
    destruct r as [[]|e]; [|by exists (Raise e), rows1].
    destruct (IH (with_day_item db rows1) rows1) as (r' & rows2 & -> & Hnodup2);
      [done..|].
    by exists r', rows2.
Qed.

Lemma instantiate_keys_unique day db :
  keys_unique db →
  keys_unique (DayRepository.instantiate_day_if_needed day db).2.
Proof.
  intros Hok.
  unfold DayRepository.instantiate_day_if_needed, transaction.
  unfold mbind at 1, M_bind. unfold table_day_item at 1.
  destruct (day_item db) as [rows|] eqn:Hrows; [|done].
  destruct (0 <? length _)%nat; [done|].
  unfold mbind at 1, M_bind.
  destruct (TemplateRepository.load db) as [[template_data|e] db0] eqn:Hload;
    [|done].
  assert (db0 = db) as ->.
  { destruct (template db) as [row|] eqn:Hrow.
    - rewrite (load_spec _ row) in Hload by done. congruence.
    - rewrite load_no_table in Hload by done. congruence. }
  unfold mbind at 1, M_bind. unfold lift at 1.
  destruct (TemplateRepository.flatten template_data) as [flat|e]; [|done].
  destruct (for_each_insert_keys (isoformat day) flat db rows Hrows
              (Hok rows Hrows)) as (r & rows' & -> & Hnodup).
  destruct r as [[]|e]; [|done].
  simpl. intros rows'' [= <-]. done.
Qed.

Lemma update_checked_keys day_str item_id c e w at_ rows :
  map row_key (map (DayRepository.update_checked day_str item_id c e w at_) rows)
  = map row_key rows.
Proof.
  rewrite map_map. apply map_ext. intros r.
  unfold DayRepository.update_checked. by destruct (same_key _ _ _).
Qed.

Lemma keys_unique_same db db' :
  day_item db' = day_item db → keys_unique db → keys_unique db'.
Proof. unfold keys_unique. intros ->. done. Qed.

(** X11: every call of the service, whether it returns or raises, keeps
    the primary key of [day_item]: no two rows share [(day, item_id)].  It
    holds on a new file, hence in every database the service produces. *)
Theorem service_preserves_primary_key db c :
  keys_unique db → keys_unique (run db c).
Proof.
  intros Hok. destruct c; simpl.
  - rewrite initialize_spec. intros rows [= <-].
    destruct (day_item db) as [rows|] eqn:Hrows; simpl; [by apply Hok|].
    constructor.
  - rewrite get_day_state. by apply instantiate_keys_unique.
  - unfold QuotaService.mark_item.
    destruct (set_item_checked_state day item_id checked evidence why now db)
      as [->|(_ & rows & Hrows & ->)]; [done|].
    intros rows' [= <-]. rewrite update_checked_keys. by apply Hok.
  - eapply keys_unique_same; [apply set_day_closed_items|done].
  - eapply keys_unique_same; [apply set_day_closed_items|done].
  - unfold QuotaService.get_checked_days, DayRepository.get_checked_days.
    unfold_M. by destruct (day_item db).
  - unfold QuotaService.load_template.
    destruct (template db) as [row|] eqn:Hrow.
    + by rewrite (load_spec _ row).
    + by rewrite load_no_table.
  - eapply keys_unique_same; [apply save_items|done].
  - unfold QuotaService.reset_template.
    destruct (loads (dumps (JList DEFAULT_TEMPLATE))); [|done].
    unfold mbind, M_bind.
    pose proof (save_items j db) as Hitems.
    destruct (TemplateRepository.save j db) as [[[]|e] db']; simpl in *;
      by eapply keys_unique_same.
Qed.

(** [get_day] on a day that has rows. *)
Lemma get_day_existing day db :
  rows_of_day db day ≠ [] →
  QuotaService.get_day day db
  = (match day_status db with
     | Some _ => Ok {| items := sorted_rows_of_day db day;
                       closed := closed_in db day |}
     | None => Raise (no_such_table "day_status")
     end, db).
Proof.
  intros Hrows. unfold QuotaService.get_day, DayRepository.get_day_items.
  unfold mbind, M_bind. rewrite instantiate_existing by done.
  unfold sorted_rows_of_day, rows_of_day in *.
  destruct (day_item db) as [rows|] eqn:Hitems; [|done].
  unfold transaction at 1. unfold table_day_item. rewrite Hitems.
  unfold mret, M_ret.
  destruct (day_status db) as [st|] eqn:Hst.
  - rewrite is_day_closed_spec by eauto. done.
  - by rewrite is_day_closed_no_table.
Qed.

(** X12: a day that has rows is read, never rebuilt.  With the table
    [day_status] in place, [get_day] returns the rows of that day and
    nothing else, ordered by [item_id], with the closed flag of the day,
    and leaves the database as it was, whatever the table [template] holds
    and even when it is missing. *)
Theorem get_day_reads_instantiated_day day db :
  rows_of_day db day ≠ [] →
  is_Some (day_status db) →
  ∃ rows,
    QuotaService.get_day day db
    = (Ok {| items := rows; closed := closed_in db day |}, db)
    ∧ rows ≡ₚ rows_of_day db day
    ∧ StronglySorted by_item_id rows
    ∧ Forall (fun r => DayItem.day r = isoformat day) rows.
Proof.
  intros Hrows [st Hst]. exists (sorted_rows_of_day db day).
  split; [|split; [|split]].
  - rewrite get_day_existing by done. by rewrite Hst.
  - apply merge_sort_Permutation.
  - apply StronglySorted_merge_sort; apply _.
  - unfold sorted_rows_of_day. rewrite merge_sort_Permutation.
    unfold rows_of_day. destruct (day_item db); [|done].
    apply Forall_forall. by intros r [Hr _]%list_elem_of_filter.
Qed.

Lemma reset_template_tables db :
  day_item (QuotaService.reset_template db).2 = day_item db
  ∧ day_status (QuotaService.reset_template db).2 = day_status db.
Proof.
  unfold QuotaService.reset_template.
  destruct (loads (dumps (JList DEFAULT_TEMPLATE))) as [copy|]; [|done].
  unfold mbind, M_bind.
  pose proof (save_items copy db). pose proof (save_day_status copy db).
  by destruct (TemplateRepository.save copy db) as [[[]|e] db'].
Qed.

Lemma get_day_same_tables day db db' :
  day_item db' = day_item db →
  day_status db' = day_status db →
  rows_of_day db day ≠ [] →
  (QuotaService.get_day day db').1 = (QuotaService.get_day day db).1.
Proof.
  intros Hitems Hst Hrows.
  assert (rows_of_day db' day = rows_of_day db day) as Hsame.
  { unfold rows_of_day. by rewrite Hitems. }
  rewrite !get_day_existing by congruence. simpl.
  unfold sorted_rows_of_day, closed_in. by rewrite Hsame, Hst.
Qed.

(** X13: template edits never reach a day that has rows.  After
    [save_template] (accepted or not) or [reset_template], [get_day] of such
    a day returns what it returned before, and the rows of the day are the
    same. *)
Theorem template_edits_leave_instantiated_days day db template_data :
  rows_of_day db day ≠ [] →
  (QuotaService.get_day day
     (QuotaService.save_template template_data db).2).1
  = (QuotaService.get_day day db).1
  ∧ (QuotaService.get_day day (QuotaService.reset_template db).2).1
    = (QuotaService.get_day day db).1
  ∧ rows_of_day (QuotaService.save_template template_data db).2 day
    = rows_of_day db day
  ∧ rows_of_day (QuotaService.reset_template db).2 day = rows_of_day db day.
Proof.
  intros Hrows. destruct (reset_template_tables db) as [Hri Hrs].
  split; [|split; [|split]].
  - apply get_day_same_tables; [apply save_items|apply save_day_status|done].
  - by apply get_day_same_tables.
  - unfold rows_of_day, QuotaService.save_template. by rewrite save_items.
  - unfold rows_of_day. by rewrite Hri.
Qed.

(** X14: [get_day_items] writes all rows of a day or none.  When it raises,
    be it for a missing table, a template [flatten] rejects or a line
    SQLite cannot store, the database is as it was before the call, with no
    row of the lines handled before the failure. *)
Theorem failed_get_day_items_writes_nothing day db e :
  (DayRepository.get_day_items day db).1 = Raise e →
  (DayRepository.get_day_items day db).2 = db.
Proof.
  unfold DayRepository.get_day_items. unfold mbind, M_bind.
  destruct (instantiate_outcome day db) as (r & db1 & -> & Hcases).
  destruct Hcases as [[[e' ->] ->]|(-> & [rows Hrows] & Hdb1)]; [done|].
  assert (∃ rows1, day_item db1 = Some rows1) as [rows1 Hrows1].
  { destruct Hdb1 as [->|(_ & ? & ? & _ & _ & _ & ->)]; simpl; eauto. }
  unfold transaction, table_day_item. rewrite Hrows1. simpl. discriminate.
Qed.

(** Lines with string texts and storable importances: the first line of
    every id that is new to the day becomes a row, later ones are
    ignored. *)
Lemma for_each_insert_first day_str lines :
  ∀ db rows seen,
    day_item db = Some rows →
    (∀ i, i ∈ seen ↔ existsb (same_key day_str i) rows = true) →
    Forall (fun line => ∃ s, line_text line = JStr s) lines →
    Forall (fun line => fits_int64 (line_importance line) = true) lines →
    for_each lines (DayRepository.insert_or_ignore day_str) db
    = (Ok tt,
       with_day_item db
         (rows ++ map (line_row day_str) (first_by_id seen lines))%list).
Proof.
  induction lines as [|line lines IH];
    intros db rows seen Hrows Hseen Htexts Hfits.
  - simpl. unfold_M. f_equal. by apply with_day_item_grown.
  - apply Forall_cons in Htexts as [[s Hs] Htexts].
    apply Forall_cons in Hfits as [Hfit Hfits].
    cbn [for_each first_by_id]. unfold mbind at 1, M_bind.
    destruct (existsb (same_key day_str (line_id line)) rows) eqn:Hkey.
    + assert (DayRepository.insert_or_ignore day_str line db = (Ok tt, db))
        as ->.
      { unfold DayRepository.insert_or_ignore. unfold_M.
        rewrite Hs. simpl. rewrite Hfit, Hrows. simpl. by rewrite Hkey. }
      rewrite bool_decide_eq_true_2 by (by apply Hseen).
      by apply IH.
    + assert (DayRepository.insert_or_ignore day_str line db
              = (Ok tt,
                 with_day_item db (rows ++ [line_row day_str line])%list))
        as ->.
      { unfold DayRepository.insert_or_ignore. unfold_M.
        rewrite Hs. simpl. rewrite Hfit, Hrows. simpl. rewrite Hkey.
        unfold line_row. rewrite Hs. done. }
      rewrite bool_decide_eq_false_2.
      2:{ rewrite Hseen, Hkey. discriminate. }
      rewrite (IH _ (rows ++ [line_row day_str line])%list
                 (line_id line :: seen)); try done.
      * unfold with_day_item. simpl. by rewrite <- app_assoc.
      * intros i. rewrite existsb_app, elem_of_cons, Hseen, orb_true_iff.
        cbn [existsb]. rewrite orb_false_r.
        assert (same_key day_str i (line_row day_str line)
                = String.eqb (line_id line) i) as ->.
        { unfold same_key, line_row. simpl. by rewrite String.eqb_refl. }
        rewrite String.eqb_eq. intuition congruence.
Qed.

(** X15: when ids collide, the first line wins.  On the first [get_day] of
    a day, with a stored template whose items and sub-items are typed as
    the data model says (ids need not be distinct), the day gets one row
    for the first line of every id, in flattening order; a later line with
    an id already used is dropped, not written over the first.  [get_day]
    returns these rows. *)
Theorem colliding_ids_keep_first_line day db template_data t :
  initialized db →
  template db = Some (Some (dumps (JList template_data))) →
  round_trips (JList template_data) →
  as_template template_data = Some t →
  Forall (fun line => fits_int64 (line_importance line) = true)
    (flatten_spec t) →
  rows_of_day db day = [] →
  ∃ rows db',
    QuotaService.get_day day db
    = (Ok {| items := rows; closed := closed_in db day |}, db')
    ∧ rows_of_day db' day
      = map (line_row (isoformat day)) (first_by_id [] (flatten_spec t))
    ∧ rows ≡ₚ rows_of_day db' day.
Proof.
  intros (_ & [rows0 Hrows0] & [st Hst]) Hrow Hround Ht Hfits Hnone.
  assert (TemplateRepository.flatten template_data = Ok (flatten_spec t))
    as Hflat.
  { apply mapM_Some in Ht. unfold TemplateRepository.flatten.
    by rewrite (flatten_items_typed _ t). }
  set (new := map (line_row (isoformat day)) (first_by_id [] (flatten_spec t))).
  unfold rows_of_day in Hnone. rewrite Hrows0 in Hnone.
  assert (DayRepository.instantiate_day_if_needed day db
          = (Ok tt, with_day_item db (rows0 ++ new)%list)) as Hinst.
  { unfold DayRepository.instantiate_day_if_needed, transaction.
    unfold mbind at 1, M_bind. unfold table_day_item at 1.
    rewrite Hrows0, Hnone. cbn [length Nat.ltb Nat.leb].
    unfold mbind at 1, M_bind.
    rewrite (load_spec _ (Some (dumps (JList template_data)))) by done.
    unfold round_trips in Hround. rewrite Hround.
    unfold mbind at 1, M_bind. unfold lift at 1. rewrite Hflat.
    rewrite (for_each_insert_first _ _ _ rows0 []); try done.
    - intros i. rewrite no_rows_no_key by done. split; [|done].
      by intros ?%elem_of_nil.
    - apply flatten_spec_texts. }
  assert (filter (fun r => DayItem.day r = isoformat day) (rows0 ++ new)%list
          = new) as Hfilter.
  { rewrite filter_app, Hnone. apply filter_day_line_rows. }
  exists (merge_sort by_item_id new), (with_day_item db (rows0 ++ new)%list).
  split; [|split].
  - unfold QuotaService.get_day, DayRepository.get_day_items.
    unfold mbind, M_bind. rewrite Hinst.
    unfold transaction at 1. unfold table_day_item. simpl.
    rewrite Hfilter. rewrite is_day_closed_spec by (simpl; eauto).
    unfold closed_in. simpl. done.
  - unfold rows_of_day. simpl. done.
  - unfold rows_of_day. simpl. rewrite Hfilter. apply merge_sort_Permutation.
Qed.

Lemma foldM_raises {A B} (f : A → B → result A) l1 x l2 :
  (∀ acc, ∃ e, f acc x = Raise e) →
  ∀ acc, ∃ e, foldM f acc (l1 ++ x :: l2)%list = Raise e.
Proof.
  intros Hx. induction l1 as [|y l1 IH]; intros acc; simpl.
  - destruct (Hx acc) as [e ->]. by exists e.
  - destruct (f acc y) as [acc'|e]; simpl; [apply IH|by exists e].
Qed.

(** X16: [load] falls back to the built-in template only for text that is
    not a JSON list; a stored list that holds something other than a dict
    is returned as it is, [flatten] raises on it, and so does [get_day] for
    every day that has no rows yet, leaving the database as it was. *)
Theorem stored_list_of_non_dicts_blocks_new_days
    day db data template_data item :
  template db = Some (Some data) →
  loads data = Some (JList template_data) →
  item ∈ template_data →
  (∀ d, item ≠ JDict d) →
  is_Some (day_item db) →
  rows_of_day db day = [] →
  ∃ e,
    TemplateRepository.load db = (Ok template_data, db)
    ∧ TemplateRepository.flatten template_data = Raise e
    ∧ QuotaService.get_day day db = (Raise e, db).
Proof.
  intros Hrow Hloads Hitem Hnodict [rows Hrows] Hnone.
  apply list_elem_of_split in Hitem as (l1 & l2 & ->).
  destruct (foldM_raises TemplateRepository.flatten_item l1 item l2) with (acc := @nil FlatLine)
    as [e He].
  { intros acc. exists AttributeError.
    destruct item as [| | | | |l|d]; try done. by destruct (Hnodict d). }
  exists e. split; [|split; [exact He|]].
  - rewrite (load_spec _ (Some data)) by done. by rewrite Hloads.
  - unfold QuotaService.get_day, DayRepository.get_day_items.
    unfold mbind, M_bind.
    assert (DayRepository.instantiate_day_if_needed day db = (Raise e, db))
      as ->; [|done].
    unfold DayRepository.instantiate_day_if_needed, transaction.
    unfold mbind at 1, M_bind. unfold table_day_item at 1.
    unfold rows_of_day in Hnone. rewrite Hrows in Hnone.
    rewrite Hrows, Hnone. cbn [length Nat.ltb Nat.leb].
    unfold mbind at 1, M_bind.
    rewrite (load_spec _ (Some data)) by done. rewrite Hloads.
    unfold mbind at 1, M_bind. unfold lift at 1.
    change (TemplateRepository.flatten (l1 ++ item :: l2))
      with (foldM TemplateRepository.flatten_item [] (l1 ++ item :: l2)).
    by rewrite He.
Qed.

End MoreRows.

(** ** [flatten] on templates with keys left out *)

Section MoreFlatten.
Context `{Runtime}.

Lemma get_optional_string d k o v :
  optional_string d k = Some o →
  Py.get d k v = match o with Some s => JStr s | None => v end.
Proof.
  unfold optional_string. destruct (Py.contains d k) eqn:Hk.
  - rewrite (get_present _ _ v JNull) by done.
    destruct (Py.get d k JNull); intros [= <-]; done.
  - intros [= <-]. by apply get_absent.
Qed.

Lemma flatten_sub_loose d base_id parent flat sub ls :
  Py.get d "importance" (JInt 1) = JInt parent →
  as_loose_sub sub = Some ls →
  TemplateRepository.flatten_sub d base_id flat sub
  = Ok (flat ++ loose_sub_lines base_id parent (length flat) [ls])%list.
Proof.
  intros Hparent Hsub. destruct sub as [| | | | |l|s]; try discriminate.
  simpl in Hsub.
  destruct (optional_string s "id") as [i|] eqn:Hid; [|discriminate].
  destruct (optional_string s "text") as [t|] eqn:Htext; [|discriminate].
  destruct (optional_int s "importance") as [imp|] eqn:Himp; [|discriminate].
  simpl in Hsub. injection Hsub as <-.
  unfold TemplateRepository.flatten_sub. simpl.
  rewrite (get_optional_string _ _ i), (get_optional_string _ _ t) by done.
  rewrite (get_optional_int _ _ imp) by done. rewrite Hparent.
  destruct i, t, imp; reflexivity.
Qed.

Lemma flatten_subs_loose d base_id parent subs lss :
  Py.get d "importance" (JInt 1) = JInt parent →
  Forall2 (fun sub ls => as_loose_sub sub = Some ls) subs lss →
  ∀ flat,
    foldM (TemplateRepository.flatten_sub d base_id) flat subs
    = Ok (flat ++ loose_sub_lines base_id parent (length flat) lss)%list.
Proof.
  intros Hparent. induction 1 as [|sub ls subs lss Hsub _ IH]; intros flat.
  - simpl. by rewrite app_nil_r.
  - cbn [foldM]. rewrite (flatten_sub_loose _ _ parent _ _ ls) by done.
    simpl. rewrite IH, <- app_assoc, length_app. simpl.
    by rewrite Nat.add_1_r.
Qed.

Lemma loose_sub_lines_length base_id parent pos lss :
  length (loose_sub_lines base_id parent pos lss) = length lss.
Proof.
  revert pos. induction lss as [|ls lss IH]; intros pos; simpl; [done|].
  by rewrite IH.
Qed.

Lemma flatten_item_loose flat item it :
  as_loose_item item = Some it →
  TemplateRepository.flatten_item flat item
  = Ok (flat ++ loose_lines (length flat) [it])%list.
Proof.
  intros Hitem. destruct item as [| | | | |l|d]; try discriminate.
  simpl in Hitem.
  destruct (optional_string d "id") as [i|] eqn:Hid; [|discriminate].
  destruct (optional_string d "text") as [t|] eqn:Htext; [|discriminate].
  destruct (optional_int d "importance") as [imp|] eqn:Himp; [|discriminate].
  simpl in Hitem.
  assert (Py.get d "importance" (JInt 1) = JInt (default 1 imp)) as Hparent.
  { rewrite (get_optional_int _ _ imp) by done. by destruct imp. }
  assert (∃ l, Py.iter (Py.or (Py.get d "subitems" (JList [])) (JList []))
               = Ok l
               ∧ ∃ lss, Forall2 (fun sub ls => as_loose_sub sub = Some ls) l lss
                        ∧ it = mkLooseItem i t imp lss)
    as (l & Hiter & lss & Hsubs & ->).
  { destruct (Py.get d "subitems" (JList [])) as [|b|z|x|s|l|d'] eqn:Hget;
      simpl in Hitem.
    - injection Hitem as <-. exists []. split; [done|]. exists []. eauto.
    - destruct b; [done|]. injection Hitem as <-.
      exists []. split; [done|]. exists []. eauto.
    - unfold Py.or. simpl. destruct (z =? 0) eqn:Hz; [|done].
      simpl in Hitem. injection Hitem as <-.
      exists []. split; [done|]. exists []. eauto.
    - unfold Py.or. destruct x; try done.
      simpl in Hitem. injection Hitem as <-.
      exists []. split; [done|]. exists []. eauto.
    - unfold Py.or. simpl. destruct (String.eqb s "") eqn:Hs; [|done].
      simpl in Hitem. injection Hitem as <-.
      exists []. split; [done|]. exists []. eauto.
    - destruct (mapM as_loose_sub l) as [lss|] eqn:Hl; [|discriminate].
      simpl in Hitem. injection Hitem as <-.
      exists l. split; [by destruct l|].
      exists lss. split; [by apply mapM_Some|done].
    - destruct d'; [|done]. injection Hitem as <-.
      exists []. split; [done|]. exists []. eauto. }
  unfold TemplateRepository.flatten_item. simpl.
  rewrite (get_optional_string _ _ i), (get_optional_string _ _ t) by done.
  rewrite Hparent. simpl. rewrite Hiter. simpl.
  assert (Py.str match i with Some s => JStr s | None => JNull end
          = default "None" i) as -> by (by destruct i).
  erewrite (flatten_subs_loose _ _ (default 1 imp) _ lss) by done.
  rewrite length_app, <- app_assoc. simpl.
  rewrite Nat.add_1_r, app_nil_r. by destruct t.
Qed.

Lemma flatten_items_loose template_data t :
  Forall2 (fun item it => as_loose_item item = Some it) template_data t →
  ∀ flat,
    foldM TemplateRepository.flatten_item flat template_data
    = Ok (flat ++ loose_lines (length flat) t)%list.
Proof.
  induction 1 as [|item it items t Hitem _ IH]; intros flat.
  - simpl. by rewrite app_nil_r.
  - cbn [foldM]. rewrite (flatten_item_loose _ _ it) by done.
    simpl. rewrite IH, <- app_assoc. simpl. rewrite app_nil_r.
    rewrite length_app. simpl. do 4 f_equal.
    by rewrite Nat.add_succ_r.
Qed.

(** X17: what [flatten] puts in for keys that are left out.  On a template
    whose items and sub-items are dicts, with a string for every [id] and
    [text] that is present and an integer for every [importance] that is
    present, [flatten] returns and: an item without [id] is named [None];
    a line without [text] has its own id for a text; a sub-item without
    [id] is named [<parent_id>:<n>] where [n] is the number of lines that
    precede it in the whole result; a [subitems] of [null], [false], [0],
    the empty string or an empty dict counts as no sub-items. *)
Theorem flatten_fills_in_missing_keys template_data t :
  mapM as_loose_item template_data = Some t →
  TemplateRepository.flatten template_data = Ok (loose_lines 0 t).
Proof.
  intros Ht%mapM_Some. unfold TemplateRepository.flatten.
  by rewrite (flatten_items_loose _ t).
Qed.


End MoreFlatten.

(** ** The functions of [app.py] *)

Section AppFunctions.
Context `{Runtime}.

(** X19: [init_db] of [app.py], which creates the three tables and the
    default row in one transaction, and [QuotaService.initialize] of
    [core.py], which does it in three, return and leave the same database
    from every starting point. *)
Theorem init_db_is_initialize db :
  App.init_db db = QuotaService.initialize db.
Proof.
  rewrite initialize_spec. unfold App.init_db, App.create_tables.
  unfold_M. destruct db as [[[data|]|] [rows|] [st|]]; reflexivity.
Qed.

Lemma app_set_item_checked_passes
    day item_id checked evidence why now db rows :
  (checked = true → blank evidence = false) →
  day_item db = Some rows →
  App.set_item_checked day item_id checked evidence why now db
  = (Ok tt,
     with_day_item db
       (map (DayRepository.update_checked (isoformat day) item_id checked
               (Py.strip evidence) (Py.strip why)
               (if checked then Some now else None)) rows)).
Proof.
  intros Hev Hrows. unfold App.set_item_checked. fold (blank evidence).
  assert (checked && blank evidence = false) as ->.
  { destruct checked; [by rewrite Hev|done]. }
  unfold_M. by rewrite Hrows.
Qed.

(** X20: [set_item_checked] of [app.py] has the evidence check of
    [DayRepository.set_item_checked] but not its closed-day check.  On an
    open day the two do the same; on a closed day the one of [core.py]
    raises and writes nothing while the one of [app.py] returns and
    updates the row. *)
Theorem app_set_item_checked_ignores_closed_flag
    day item_id checked evidence why now db rows :
  (checked = true → blank evidence = false) →
  day_item db = Some rows →
  is_Some (day_status db) →
  App.set_item_checked day item_id checked evidence why now db
  = (Ok tt,
     with_day_item db
       (map (DayRepository.update_checked (isoformat day) item_id checked
               (Py.strip evidence) (Py.strip why)
               (if checked then Some now else None)) rows))
  ∧ DayRepository.set_item_checked day item_id checked evidence why now db
    = if closed_in db day then (Raise day_is_closed, db)
      else App.set_item_checked day item_id checked evidence why now db.
Proof.
  intros Hev Hrows Hst.
  rewrite (app_set_item_checked_passes _ _ _ _ _ _ _ rows) by done.
  split; [done|]. destruct (closed_in db day) eqn:Hclosed.
  - by apply set_item_checked_closed.
  - by apply set_item_checked_passes.
Qed.

End AppFunctions.

(** ** ISO dates and [get_checked_days] *)

Section IsoDates.

Lemma compare_append s1 : ∀ s2 t1 t2,
  String.length s1 = String.length s2 →
  String.compare (s1 ++ t1) (s2 ++ t2)
  = match String.compare s1 s2 with
    | Eq => String.compare t1 t2
    | c => c
    end.
Proof.
  induction s1 as [|c1 s1 IH]; intros [|c2 s2] t1 t2 Hlen; try done.
  rewrite !append_cons. simpl.
  destruct (Ascii.compare c1 c2); [|done..].
  apply IH. simpl in Hlen. lia.
Qed.

(** The facts about two digits that are checked on all of them. *)
Lemma zero_pad_2_facts :
  forallb (fun n =>
    (String.length (zero_pad 2 n) =? 2)%nat
    && forallb (fun m =>
         bool_decide (String.compare (zero_pad 2 n) (zero_pad 2 m)
                      = Nat.compare n m)) (seq 0 100)) (seq 0 100) = true.
Proof. vm_compute. reflexivity. Qed.

Lemma zero_pad_2_length n :
  (n < 100)%nat → String.length (zero_pad 2 n) = 2%nat.
Proof.
  intros Hn. pose proof zero_pad_2_facts as Hall.
  rewrite forallb_forall in Hall.
  specialize (Hall n). rewrite in_seq in Hall.
  apply andb_true_iff in Hall as [Hlen _]; [|lia].
  by apply Nat.eqb_eq.
Qed.

Lemma zero_pad_2_compare n m :
  (n < 100)%nat → (m < 100)%nat →
  String.compare (zero_pad 2 n) (zero_pad 2 m) = Nat.compare n m.
Proof.
  intros Hn Hm. pose proof zero_pad_2_facts as Hall.
  rewrite forallb_forall in Hall.
  specialize (Hall n). rewrite in_seq in Hall.
  apply andb_true_iff in Hall as [_ Hcmp]; [|lia].
  rewrite forallb_forall in Hcmp. specialize (Hcmp m).
  rewrite in_seq in Hcmp. apply bool_decide_eq_true in Hcmp; [done|lia].
Qed.

(** Four digits are two and two. *)
Lemma zero_pad_4_facts :
  forallb (fun n =>
    String.eqb (zero_pad 4 n)
      (zero_pad 2 (n / 100) ++ zero_pad 2 (n mod 100))) (seq 0 (100 * 100))
  = true.
Proof. vm_compute. reflexivity. Qed.

Lemma zero_pad_4_split n :
  (n < 100 * 100)%nat →
  zero_pad 4 n = zero_pad 2 (n / 100) ++ zero_pad 2 (n mod 100).
Proof.
  intros Hn. pose proof zero_pad_4_facts as Hall.
  rewrite forallb_forall in Hall. apply String.eqb_eq, Hall, in_seq. lia.
Qed.
Lemma compare_div_mod n m :
  match Nat.compare (n / 100) (m / 100) with
  | Eq => Nat.compare (n mod 100) (m mod 100)
  | c => c
  end = Nat.compare n m.
Proof.
  pose proof (Nat.div_mod_eq n 100). pose proof (Nat.div_mod_eq m 100).
  pose proof (Nat.mod_upper_bound n 100). pose proof (Nat.mod_upper_bound m 100).
  destruct (Nat.compare_spec (n / 100) (m / 100)) as [Hq|Hq|Hq].
  - destruct (Nat.compare_spec (n mod 100) (m mod 100));
      symmetry; [apply Nat.compare_eq_iff|apply Nat.compare_lt_iff
                |apply Nat.compare_gt_iff]; lia.
  - symmetry. apply Nat.compare_lt_iff. lia.
  - symmetry. apply Nat.compare_gt_iff. lia.
Qed.

Lemma zero_pad_4_compare n m :
  (n < 100 * 100)%nat → (m < 100 * 100)%nat →
  String.compare (zero_pad 4 n) (zero_pad 4 m) = Nat.compare n m.
Proof.
  intros Hn Hm. rewrite !zero_pad_4_split by done.
  assert (n / 100 < 100 ∧ m / 100 < 100)%nat as [Hqn Hqm].
  { split; apply Nat.Div0.div_lt_upper_bound; lia. }
  pose proof (Nat.mod_upper_bound n 100). pose proof (Nat.mod_upper_bound m 100).
  rewrite compare_append by (rewrite !zero_pad_2_length; lia).
  rewrite !zero_pad_2_compare by lia. apply compare_div_mod.
Qed.

Lemma zero_pad_4_length n :
  (n < 100 * 100)%nat → String.length (zero_pad 4 n) = 4%nat.
Proof.
  intros Hn. rewrite zero_pad_4_split, length_append by done.
  rewrite !zero_pad_2_length; [done|..].
  - apply Nat.mod_upper_bound. lia.
  - apply Nat.Div0.div_lt_upper_bound. lia.
Qed.

Lemma valid_date_bounds d :
  valid_date d →
  (year d < 100 * 100 ∧ month d < 100 ∧ day_of_month d < 100)%nat.
Proof.
  intros (Hy & Hm & Hd). unfold MAXYEAR in Hy.
  assert (days_in_month (year d) (month d) ≤ 31)%nat.
  { unfold days_in_month.
    destruct (month d) as [|[|[|[|[|[|[|[|[|[|[|[|[]]]]]]]]]]]]];
      try destruct (is_leap _); lia. }
  lia.
Qed.

(** The ISO texts of two dates compare as the dates do. *)
Lemma isoformat_compare a b :
  valid_date a → valid_date b →
  String.compare (isoformat a) (isoformat b)
  = match Nat.compare (year a) (year b) with
    | Eq => match Nat.compare (month a) (month b) with
            | Eq => Nat.compare (day_of_month a) (day_of_month b)
            | c => c
            end
    | c => c
    end.
Proof.
  intros (Hya & Hma & Hda)%valid_date_bounds (Hyb & Hmb & Hdb)%valid_date_bounds.
  unfold isoformat.
  rewrite compare_append by (rewrite !zero_pad_4_length; done).
  rewrite zero_pad_4_compare by done.
  destruct (Nat.compare (year a) (year b)); [|done..].
  rewrite !append_cons. cbn [String.compare]. change (Ascii.compare "-" "-") with Eq.
  cbv iota. change ("" ++ ?s) with s.
  rewrite compare_append by (rewrite !zero_pad_2_length; done).
  rewrite zero_pad_2_compare by done.
  destruct (Nat.compare (month a) (month b)); [|done..].
  rewrite ?append_cons. cbn [String.compare]. change (Ascii.compare "-" "-") with Eq.
  cbv iota. change ("" ++ ?s) with s.
  by apply zero_pad_2_compare.
Qed.

Lemma isoformat_le a b :
  valid_date a → valid_date b →
  String.le (isoformat a) (isoformat b) ↔ date_le a b.
Proof.
  intros Ha Hb. unfold String.le, String.leb, date_le.
  rewrite isoformat_compare by done.
  destruct (Nat.compare_spec (year a) (year b));
    destruct (Nat.compare_spec (month a) (month b));
    destruct (Nat.compare_spec (day_of_month a) (day_of_month b));
    simpl; split; (lia || done || (intros; exact I)).
Qed.

Lemma isoformat_inj a b :
  valid_date a → valid_date b → isoformat a = isoformat b → a = b.
Proof.
  intros Ha Hb Hiso.
  assert (String.compare (isoformat a) (isoformat b) = Eq) as Hcmp.
  { rewrite Hiso. destruct (String.compare (isoformat b) (isoformat b)) eqn:Hc;
      [done|..]; pose proof (String.compare_antisym (isoformat b) (isoformat b)) as Hanti;
      rewrite Hc in Hanti; discriminate. }
  rewrite isoformat_compare in Hcmp by done.
  destruct (Nat.compare_spec (year a) (year b)); try done.
  destruct (Nat.compare_spec (month a) (month b)); try done.
  apply Nat.compare_eq_iff in Hcmp. destruct a, b. simpl in *. by subst.
Qed.

Lemma get_checked_days_spec a b db rows :
  day_item db = Some rows →
  DayRepository.get_checked_days a b db
  = (Ok (list_to_set
           (map DayItem.day
              (filter (fun r =>
                         String.le (isoformat a) (DayItem.day r)
                         ∧ String.le (DayItem.day r) (isoformat b)
                         ∧ DayItem.checked r = true) rows))), db).
Proof.
  intros Hrows. unfold DayRepository.get_checked_days. unfold_M.
  by rewrite Hrows.
Qed.

Lemma elem_of_checked_days (lo hi day_str : string) rows :
  day_str ∈@{gset string}
    list_to_set
      (map DayItem.day
         (filter (fun r =>
                    String.le lo (DayItem.day r)
                    ∧ String.le (DayItem.day r) hi
                    ∧ DayItem.checked r = true) rows))
  ↔ String.le lo day_str ∧ String.le day_str hi
    ∧ ∃ r, r ∈ rows ∧ DayItem.day r = day_str ∧ DayItem.checked r = true.
Proof.
  rewrite elem_of_list_to_set. split.
  - intros (r & -> & Hr)%list_elem_of_fmap.
    apply list_elem_of_filter in Hr as [(Hlo & Hhi & Hchecked) Hr].
    eauto 10.
  - intros (Hlo & Hhi & r & Hr & <- & Hchecked).
    apply (list_elem_of_fmap_2 (A := DayItem.t)). by apply list_elem_of_filter.
Qed.

(** X21: [get_checked_days] reads and never writes, and its comparison of
    ISO texts selects by date: for dates [a], [b] and [d], the text of [d]
    is in the result exactly when [a <= d <= b] and some row of day [d] is
    checked. *)
Theorem get_checked_days_selects_date_range a b d db rows :
  valid_date a → valid_date b → valid_date d →
  day_item db = Some rows →
  ∃ days,
    DayRepository.get_checked_days a b db = (Ok days, db)
    ∧ (isoformat d ∈ days
       ↔ date_le a d ∧ date_le d b
         ∧ ∃ r, r ∈ rows ∧ DayItem.day r = isoformat d
                ∧ DayItem.checked r = true).
Proof.
  intros Ha Hb Hd Hrows. eexists. split; [by apply get_checked_days_spec|].
  rewrite elem_of_checked_days. by rewrite !isoformat_le.
Qed.

(** X22: a day with a checked item shows up.  After [mark_item] has
    checked an existing item of day [d] (open day, evidence not blank),
    [get_checked_days] lists [d] for every range of dates around it. *)
Theorem checked_day_is_reported
    a b d item_id evidence why now db :
  valid_date a → valid_date b → valid_date d →
  date_le a d → date_le d b →
  has_row db d item_id = true →
  is_Some (day_status db) →
  closed_in db d = false →
  blank evidence = false →
  ∃ db' days,
    QuotaService.mark_item d item_id true evidence why now db = (Ok tt, db')
    ∧ QuotaService.get_checked_days a b db' = (Ok days, db')
    ∧ isoformat d ∈ days.
Proof.
  intros Ha Hb Hd Had Hdb Hrow Hst Hopen Hev.
  unfold has_row in Hrow. destruct (day_item db) as [rows|] eqn:Hrows; [|done].
  apply existsb_exists in Hrow as (r & Hr & Hkey).
  do 2 eexists. split; [|split].
  - unfold QuotaService.mark_item. by apply set_item_checked_passes.
  - unfold QuotaService.get_checked_days. by apply get_checked_days_spec.
  - apply elem_of_checked_days. rewrite !isoformat_le by done.
    split; [done|]. split; [done|].
    exists (DayRepository.update_checked (isoformat d) item_id true
              (Py.strip evidence) (Py.strip why) (Some now) r).
    split; [by apply list_elem_of_In, in_map|].
    rewrite update_checked_day. unfold DayRepository.update_checked.
    rewrite Hkey. simpl. apply same_key_row_key in Hkey.
    by injection Hkey as -> _.
Qed.

End IsoDates.

(** ** The calendar of [app.py] *)

Section Calendar.

Lemma days_in_month_bounds y m :
  (28 ≤ days_in_month y m ≤ 31)%nat.
Proof.
  unfold days_in_month.
  destruct m as [|[|[|[|[|[|[|[|[|[|[|[|[]]]]]]]]]]]]];
    try destruct (is_leap y); lia.
Qed.

Lemma replace_day_ok y m d k :
  (1 ≤ k ≤ days_in_month y m)%nat →
  replace_day {| year := y; month := m; day_of_month := d |} k
  = Ok {| year := y; month := m; day_of_month := k |}.
Proof.
  intros Hk. unfold replace_day. cbn [year month day_of_month].
  destruct (Nat.leb_spec 1 k); [|lia].
  destruct (Nat.leb_spec k (days_in_month y m)); [done|lia].
Qed.

Lemma next_day_within y m d :
  (d < days_in_month y m)%nat →
  next_day {| year := y; month := m; day_of_month := d |}
  = Ok {| year := y; month := m; day_of_month := S d |}.
Proof.
  intros Hd. unfold next_day. cbn [year month day_of_month].
  by destruct (Nat.ltb_spec d (days_in_month y m)); [|lia].
Qed.

Lemma next_day_last y m d :
  (days_in_month y m ≤ d)%nat →
  next_day {| year := y; month := m; day_of_month := d |}
  = if (m <? 12)%nat
    then Ok {| year := y; month := S m; day_of_month := 1 |}
    else if (y <? MAXYEAR)%nat
         then Ok {| year := S y; month := 1; day_of_month := 1 |}
         else Raise OverflowError.
Proof.
  intros Hd. unfold next_day. cbn [year month day_of_month].
  by destruct (Nat.ltb_spec d (days_in_month y m)); [lia|].
Qed.

Lemma previous_day_first y m :
  previous_day {| year := y; month := m; day_of_month := 1 |}
  = if (1 <? m)%nat
    then Ok {| year := y; month := pred m;
               day_of_month := days_in_month y (pred m) |}
    else if (1 <? y)%nat
         then Ok {| year := pred y; month := 12; day_of_month := 31 |}
         else Raise OverflowError.
Proof. reflexivity. Qed.

(** Four days after the 28th: a day of the next month, or past the last
    year. *)
Lemma add_4_days_to_28th y m :
  (1 ≤ m ≤ 12)%nat →
  ∃ k,
    (1 ≤ k ≤ 4)%nat
    ∧ add_days {| year := y; month := m; day_of_month := 28 |} 4
      = if (m <? 12)%nat
        then Ok {| year := y; month := S m; day_of_month := k |}
        else if (y <? MAXYEAR)%nat
             then Ok {| year := S y; month := 1; day_of_month := k |}
             else Raise OverflowError.
Proof.
  intros Hm. pose proof (days_in_month_bounds y m) as Hdim.
  pose proof (days_in_month_bounds y (S m)) as Hnext.
  pose proof (days_in_month_bounds (S y) 1) as Hjan.
  assert (∀ y' m' k n,
            (1 ≤ k)%nat → (k + n ≤ 4)%nat →
            (28 ≤ days_in_month y' m')%nat →
            add_days {| year := y'; month := m'; day_of_month := k |} n
            = Ok {| year := y'; month := m'; day_of_month := k + n |})
    as Hstay.
  { intros y' m' k n. revert k.
    induction n as [|n IH]; intros k Hk Hn Hd; simpl.
    - by rewrite Nat.add_0_r.
    - rewrite next_day_within by lia. simpl.
      rewrite IH by lia. do 2 f_equal. lia. }
  assert (∀ n d,
            (28 ≤ d ≤ days_in_month y m)%nat → (d + n = 32)%nat →
            ∃ k, (1 ≤ k ≤ 4)%nat
              ∧ add_days {| year := y; month := m; day_of_month := d |} n
                = if (m <? 12)%nat
                  then Ok {| year := y; month := S m; day_of_month := k |}
                  else if (y <? MAXYEAR)%nat
                       then Ok {| year := S y; month := 1;
                                  day_of_month := k |}
                       else Raise OverflowError) as Hwalk.
  { induction n as [|n IH]; intros d Hd Hsum; [lia|].
    simpl.
    destruct (Nat.eq_dec d (days_in_month y m)) as [Hlast|Hnot].
    - rewrite next_day_last by lia.
      exists (S n). split; [lia|].
      destruct (m <? 12)%nat.
      + simpl. rewrite (Hstay y (S m) 1%nat n) by lia. done.
      + destruct (y <? MAXYEAR)%nat; [|done].
        simpl. rewrite (Hstay (S y) 1%nat 1%nat n) by lia. done.
    - rewrite next_day_within by lia. simpl.
      apply IH; lia. }
  apply Hwalk; lia.
Qed.

Lemma month_window_spec new :
  valid_date new →
  CalendarView.month_window new
  = if (month new =? 12)%nat && (year new =? MAXYEAR)%nat
    then Raise OverflowError
    else Ok (first_of_month new, last_of_month new).
Proof.
  destruct new as [y m d]. intros (Hy & Hm & _). simpl in Hy, Hm.
  pose proof (days_in_month_bounds y m) as Hdim.
  unfold CalendarView.month_window, first_of_month, last_of_month.
  cbn [year month day_of_month].
  rewrite replace_day_ok by lia. cbn [mbind result_bind].
  rewrite replace_day_ok by lia. cbn [mbind result_bind].
  destruct (add_4_days_to_28th y m Hm) as (k & Hk & ->).
  destruct (Nat.ltb_spec m 12) as [Hlt|Hge].
  - destruct (Nat.eqb_spec m 12); [lia|]. cbn [mbind result_bind andb].
    pose proof (days_in_month_bounds y (S m)).
    rewrite replace_day_ok by lia. cbn [mbind result_bind subtract_days].
    rewrite previous_day_first.
    destruct (Nat.ltb_spec 1 (S m)); [|lia]. done.
  - assert (m = 12%nat) as -> by lia.
    change (12 =? 12)%nat with true. cbn [andb].
    destruct (Nat.ltb_spec y MAXYEAR) as [Hlty|Hgey].
    + destruct (Nat.eqb_spec y MAXYEAR); [lia|]. cbn [mbind result_bind].
      pose proof (days_in_month_bounds (S y) 1).
      rewrite replace_day_ok by lia. cbn [mbind result_bind subtract_days].
      rewrite previous_day_first. change (1 <? 1)%nat with false.
      cbv iota.
      destruct (Nat.ltb_spec 1 (S y)); [|lia]. done.
    + destruct (Nat.eqb_spec y MAXYEAR); [done|lia].
Qed.

Lemma first_of_month_valid d : valid_date d → valid_date (first_of_month d).
Proof.
  intros (Hy & Hm & Hd). pose proof (days_in_month_bounds (year d) (month d)).
  unfold valid_date, first_of_month. simpl. lia.
Qed.

Lemma last_of_month_valid d : valid_date d → valid_date (last_of_month d).
Proof.
  intros (Hy & Hm & Hd). pose proof (days_in_month_bounds (year d) (month d)).
  unfold valid_date, last_of_month. simpl. lia.
Qed.

Lemma in_month_iff new d :
  valid_date d →
  date_le (first_of_month new) d ∧ date_le d (last_of_month new)
  ↔ year d = year new ∧ month d = month new
    ∧ (day_of_month d ≤ days_in_month (year new) (month new))%nat.
Proof.
  intros (Hy & Hm & Hd). unfold date_le, first_of_month, last_of_month.
  simpl. lia.
Qed.

(** X23: the window [watch_month] and [load_day] compute for a date is its
    month: it starts on the first and ends on the last day of that month
    (the 28th, 29th, 30th or 31st as the month and the leap year rule have
    it), so a date lies in the window exactly when it has the same year
    and month.  For December 9999 the computation steps past the last year
    [date] allows and raises [OverflowError]. *)
Theorem month_window_is_the_month new :
  valid_date new →
  CalendarView.month_window new
  = (if (month new =? 12)%nat && (year new =? MAXYEAR)%nat
     then Raise OverflowError
     else Ok (first_of_month new, last_of_month new))
  ∧ valid_date (first_of_month new)
  ∧ valid_date (last_of_month new)
  ∧ ∀ d, valid_date d →
         (date_le (first_of_month new) d ∧ date_le d (last_of_month new)
          ↔ year d = year new ∧ month d = month new).
Proof.
  intros Hnew. split; [by apply month_window_spec|].
  split; [by apply first_of_month_valid|].
  split; [by apply last_of_month_valid|].
  intros d Hd. rewrite in_month_iff by done.
  destruct Hd as (_ & _ & Hd). split.
  - by intros (-> & -> & _).
  - intros [Hy Hm]. rewrite <- Hy, <- Hm. repeat split; [done..|lia].
Qed.

Lemma action_next_spec month_ :
  valid_date month_ →
  CalendarView.action_next month_
  = if (month month_ =? 12)%nat && (year month_ =? MAXYEAR)%nat
    then Raise OverflowError
    else Ok (first_of_next_month month_).
Proof.
  destruct month_ as [y m d]. intros (Hy & Hm & _). simpl in Hy, Hm.
  pose proof (days_in_month_bounds y m) as Hdim.
  unfold CalendarView.action_next, first_of_next_month.
  cbn [year month day_of_month].
  rewrite replace_day_ok by lia. cbn [mbind result_bind].
  destruct (add_4_days_to_28th y m Hm) as (k & Hk & ->).
  destruct (Nat.ltb_spec m 12) as [Hlt|Hge].
  - destruct (Nat.eqb_spec m 12); [lia|]. cbn [mbind result_bind andb].
    pose proof (days_in_month_bounds y (S m)).
    by rewrite replace_day_ok by lia.
  - assert (m = 12%nat) as -> by lia.
    change (12 =? 12)%nat with true. cbn [andb].
    destruct (Nat.ltb_spec y MAXYEAR) as [Hlty|Hgey].
    + destruct (Nat.eqb_spec y MAXYEAR); [lia|]. cbn [mbind result_bind].
      pose proof (days_in_month_bounds (S y) 1).
      by rewrite replace_day_ok by lia.
    + destruct (Nat.eqb_spec y MAXYEAR); [done|lia].
Qed.

Lemma action_prev_spec month_ :
  valid_date month_ →
  CalendarView.action_prev month_
  = if (month month_ =? 1)%nat && (year month_ =? 1)%nat
    then Raise OverflowError
    else Ok (first_of_previous_month month_).
Proof.
  destruct month_ as [y m d]. intros (Hy & Hm & _). simpl in Hy, Hm.
  pose proof (days_in_month_bounds y m) as Hdim.
  unfold CalendarView.action_prev, first_of_previous_month.
  cbn [year month day_of_month].
  rewrite replace_day_ok by lia. cbn [mbind result_bind subtract_days].
  rewrite previous_day_first.
  destruct (Nat.ltb_spec 1 m) as [Hlt|Hge].
  - destruct (Nat.eqb_spec m 1); [lia|]. cbn [mbind result_bind andb].
    pose proof (days_in_month_bounds y (pred m)).
    by rewrite replace_day_ok by lia.
  - assert (m = 1%nat) as -> by lia.
    change (1 =? 1)%nat with true. cbn [andb].
    destruct (Nat.ltb_spec 1 y) as [Hlty|Hgey].
    + destruct (Nat.eqb_spec y 1); [lia|]. cbn [mbind result_bind].
      by rewrite replace_day_ok by (simpl; lia).
    + destruct (Nat.eqb_spec y 1); [done|lia].
Qed.

Lemma first_of_next_month_valid d :
  valid_date d → ¬ (month d = 12%nat ∧ year d = MAXYEAR) →
  valid_date (first_of_next_month d).
Proof.
  destruct d as [y m dd]. intros (Hy & Hm & _) Hlast.
  unfold valid_date, first_of_next_month. cbn [year month day_of_month] in *.
  destruct (Nat.eqb_spec m 12) as [->|Hm12]; cbn [year month day_of_month].
  - change (days_in_month (S y) 1) with 31%nat. lia.
  - pose proof (days_in_month_bounds y (S m)). lia.
Qed.

Lemma first_of_previous_month_valid d :
  valid_date d → ¬ (month d = 1%nat ∧ year d = 1%nat) →
  valid_date (first_of_previous_month d).
Proof.
  destruct d as [y m dd]. intros (Hy & Hm & _) Hfirst.
  unfold valid_date, first_of_previous_month.
  cbn [year month day_of_month] in *.
  destruct (Nat.eqb_spec m 1) as [->|Hm1]; cbn [year month day_of_month].
  - change (days_in_month (pred y) 12) with 31%nat. lia.
  - pose proof (days_in_month_bounds y (pred m)). lia.
Qed.

Lemma previous_of_next_month d :
  valid_date d →
  first_of_previous_month (first_of_next_month d) = first_of_month d
  ∧ ¬ (month (first_of_next_month d) = 1%nat
       ∧ year (first_of_next_month d) = 1%nat).
Proof.
  destruct d as [y m dd]. intros (Hy & Hm & _).
  unfold first_of_previous_month, first_of_next_month, first_of_month.
  cbn [year month day_of_month] in *.
  destruct (Nat.eqb_spec m 12) as [->|Hm12]; cbn [year month day_of_month].
  - split; [done|lia].
  - destruct (Nat.eqb_spec (S m) 1); [lia|]. split; [done|lia].
Qed.

Lemma next_of_previous_month d :
  valid_date d → ¬ (month d = 1%nat ∧ year d = 1%nat) →
  first_of_next_month (first_of_previous_month d) = first_of_month d
  ∧ ¬ (month (first_of_previous_month d) = 12%nat
       ∧ year (first_of_previous_month d) = MAXYEAR).
Proof.
  destruct d as [y m dd]. intros (Hy & Hm & _) Hfirst.
  unfold first_of_previous_month, first_of_next_month, first_of_month.
  cbn [year month day_of_month] in *.
  destruct (Nat.eqb_spec m 1) as [->|Hm1]; cbn [year month day_of_month].
  - change (12 =? 12)%nat with true. cbn iota.
    split; [f_equal; lia|lia].
  - destruct (Nat.eqb_spec (pred m) 12); [lia|].
    split; [f_equal; lia|lia].
Qed.

Lemma andb_eqb_false (a b c d : nat) :
  ¬ (a = b ∧ c = d) → (a =? b)%nat && (c =? d)%nat = false.
Proof.
  intros Hn. destruct (Nat.eqb_spec a b), (Nat.eqb_spec c d); tauto.
Qed.

(** X24: [action_next] moves the calendar to the first day of the next
    month and [action_prev] to the first day of the month before, across
    the turn of the year; each undoes the other up to the day of the
    month.  At the ends of what [date] allows they raise [OverflowError]:
    [action_next] in December 9999, [action_prev] in January of year 1. *)
Theorem calendar_navigation month_ :
  valid_date month_ →
  CalendarView.action_next month_
  = (if (month month_ =? 12)%nat && (year month_ =? MAXYEAR)%nat
     then Raise OverflowError
     else Ok (first_of_next_month month_))
  ∧ CalendarView.action_prev month_
    = (if (month month_ =? 1)%nat && (year month_ =? 1)%nat
       then Raise OverflowError
       else Ok (first_of_previous_month month_))
  ∧ (∀ next, CalendarView.action_next month_ = Ok next →
             CalendarView.action_prev next = Ok (first_of_month month_))
  ∧ (∀ previous, CalendarView.action_prev month_ = Ok previous →
                 CalendarView.action_next previous
                 = Ok (first_of_month month_)).
Proof.
  intros Hvalid.
  split; [by apply action_next_spec|]. split; [by apply action_prev_spec|].
  split.
  - intros next. rewrite action_next_spec by done.
    destruct (Nat.eqb_spec (month month_) 12) as [H12|H12];
      destruct (Nat.eqb_spec (year month_) MAXYEAR) as [Hmax|Hmax];
      cbn [andb]; try discriminate; intros [= <-].
    all: destruct (previous_of_next_month month_ Hvalid) as [Heq Hnot].
    all: rewrite action_prev_spec
      by (apply first_of_next_month_valid; [done|tauto]).
    all: by rewrite andb_eqb_false, Heq.
  - intros previous. rewrite action_prev_spec by done.
    destruct (Nat.eqb_spec (month month_) 1) as [H1|H1];
      destruct (Nat.eqb_spec (year month_) 1) as [Hy1|Hy1];
      cbn [andb]; try discriminate; intros [= <-].
    all: destruct (next_of_previous_month month_ Hvalid) as [Heq Hnot];
      [tauto|].
    all: rewrite action_next_spec
      by (apply first_of_previous_month_valid; [done|tauto]).
    all: by rewrite andb_eqb_false, Heq.
Qed.

(** X25: the days [watch_month] marks.  For a month other than December
    9999 and with the table [day_item] in place, [watch_month] returns and
    writes nothing, and the ISO text of a date is in its result exactly
    when the date lies in that month and has a checked item; for December
    9999 it raises [OverflowError]. *)
Theorem watch_month_marks_the_checked_days_of_the_month new db rows :
  valid_date new →
  day_item db = Some rows →
  if (month new =? 12)%nat && (year new =? MAXYEAR)%nat then
    CalendarView.watch_month new db = (Raise OverflowError, db)
  else
    ∃ days,
      CalendarView.watch_month new db = (Ok days, db)
      ∧ ∀ d, valid_date d →
             (isoformat d ∈ days
              ↔ year d = year new ∧ month d = month new
                ∧ ∃ r, r ∈ rows ∧ DayItem.day r = isoformat d
                       ∧ DayItem.checked r = true).
Proof.
  intros Hnew Hrows. unfold CalendarView.watch_month.
  rewrite month_window_spec by done.
  destruct ((month new =? 12)%nat && (year new =? MAXYEAR)%nat); [done|].
  unfold mbind, M_bind, lift.
  rewrite (get_checked_days_spec _ _ _ rows) by done.
  eexists. split; [done|]. intros d Hd.
  rewrite elem_of_checked_days.
  rewrite !isoformat_le
    by auto using first_of_month_valid, last_of_month_valid.
  pose proof (in_month_iff new d Hd) as Hin.
  destruct Hd as (_ & _ & Hd). split.
  - intros (Hfirst & Hlast & Hr).
    destruct Hin as [Hin _]. destruct (Hin (conj Hfirst Hlast)) as (? & ? & _).
    done.
  - intros (Hy & Hm & Hr). destruct Hin as [_ Hin].
    destruct Hin as [? ?]; [|done]. rewrite <- Hy, <- Hm. repeat split; [done..|lia].
Qed.

End Calendar.

Lemma save_rejects_malformed_template_witness :
  TemplateRepository.save (H := mini)
    (JList [JDict [("id", JStr "walk")]]) started
  = (Raise (ValueError "Each item must have id and text"), started).
Proof.
  apply (save_rejects_malformed_template (H := mini)
           (JList [JDict [("id", JStr "walk")]]) started).
  intros (items & [= <-] & Hitems).
  apply Forall_cons in Hitems as [(d & [= <-] & _ & Htext) _].
  vm_compute in Htext. discriminate.
Defined.

Lemma save_again_changes_nothing_witness :
  TemplateRepository._validate_template
    (JList (map with_defaults [JDict [("id", JStr "walk"); ("text", JStr "Walk")]]))
  = Ok (JList (map with_defaults
                 [JDict [("id", JStr "walk"); ("text", JStr "Walk")]])).
Proof.
  apply (save_again_changes_nothing (H := mini) started
           [JDict [("id", JStr "walk"); ("text", JStr "Walk")]]).
  repeat constructor. eexists. repeat split.
Defined.

Lemma ensure_default_inserts_once_witness :
  ∃ db',
    TemplateRepository.ensure_default (H := mini) schema_only
    = (Ok tt, db')
    ∧ (template schema_only = Some None →
       template db' = Some (Some (MiniJson.dumps (JList DEFAULT_TEMPLATE)))).
Proof.
  destruct (ensure_default_inserts_once (H := mini) schema_only)
    as (db' & Hret & Hnew & _).
  - vm_compute. eauto.
  - exists db'. split; [exact Hret|exact Hnew].
Defined.

Lemma reset_template_restores_default_witness :
  ∃ db',
    QuotaService.reset_template (H := mini) opened
    = (Ok DEFAULT_TEMPLATE, db')
    ∧ QuotaService.load_template (H := mini) db'
      = (Ok DEFAULT_TEMPLATE, db')
    ∧ day_item db' = day_item opened
    ∧ day_status db' = day_status opened.
Proof.
  apply (reset_template_restores_default (H := mini) opened).
  - vm_compute. repeat split; eauto.
  - vm_compute. reflexivity.
Defined.

Lemma set_day_closed_then_is_day_closed_witness :
  ∃ db',
    DayRepository.set_day_closed new_year true "2024-01-01T21:00:00" opened
    = (Ok tt, db')
    ∧ DayRepository.is_day_closed new_year db' = (Ok true, db').
Proof.
  destruct (set_day_closed_then_is_day_closed new_year true
              "2024-01-01T21:00:00" opened) as (db' & Hset & Hget & _).
  - vm_compute. eauto.
  - exists db'. split; [exact Hset|exact Hget].
Defined.

Lemma service_preserves_status_invariant_witness :
  statuses_ok (run (H := mini) opened
                 (CloseDay new_year "2024-01-01T21:00:00")).
Proof.
  apply (service_preserves_status_invariant (H := mini)).
  intros st day_str s [= <-]. rewrite lookup_empty. discriminate.
Defined.

Lemma uncheck_needs_no_evidence_witness :
  ∃ db',
    DayRepository.set_item_checked new_year "care" false "" ""
      "2024-01-01T10:00:00" opened
    = (Ok tt, db').
Proof.
  destruct (uncheck_needs_no_evidence new_year "care" "" ""
              "2024-01-01T10:00:00" opened) as (db' & Hset & _).
  - vm_compute. eauto.
  - vm_compute. eauto.
  - vm_compute. reflexivity.
  - exists db'. exact Hset.
Defined.

Lemma service_preserves_primary_key_witness :
  keys_unique (run (H := mini) started (GetDay new_year)).
Proof.
  apply (service_preserves_primary_key (H := mini)).
  intros rows [= <-]. constructor.
Defined.

Lemma get_day_reads_instantiated_day_witness :
  ∃ rows,
    QuotaService.get_day (H := mini) new_year shut
    = (Ok {| items := rows; closed := closed_in shut new_year |}, shut)
    ∧ rows ≡ₚ rows_of_day shut new_year.
Proof.
  destruct (get_day_reads_instantiated_day (H := mini) new_year shut)
    as (rows & Hget & Hperm & _).
  - vm_compute. discriminate.
  - vm_compute. eauto.
  - exists rows. split; [exact Hget|exact Hperm].
Defined.

Lemma template_edits_leave_instantiated_days_witness :
  (QuotaService.get_day (H := mini) new_year
     (QuotaService.save_template (H := mini)
        (JList colliding_template) opened).2).1
  = (QuotaService.get_day (H := mini) new_year opened).1.
Proof.
  apply (template_edits_leave_instantiated_days (H := mini) new_year
           opened (JList colliding_template)).
  vm_compute. discriminate.
Defined.

Lemma failed_get_day_items_writes_nothing_witness :
  (DayRepository.get_day_items (H := mini) new_year unstorable).1
  = Raise BindingError
  ∧ (DayRepository.get_day_items (H := mini) new_year unstorable).2
    = unstorable.
Proof.
  split; [vm_compute; reflexivity|].
  apply (failed_get_day_items_writes_nothing (H := mini) new_year
           unstorable BindingError).
  vm_compute. reflexivity.
Defined.

Lemma colliding_ids_keep_first_line_witness :
  ∃ rows db',
    QuotaService.get_day (H := mini) new_year collided
    = (Ok {| items := rows; closed := closed_in collided new_year |}, db')
    ∧ rows_of_day db' new_year
      = [ DayItem.mk "2024-01-01" "walk" "Walk" 2 false "" "" None ].
Proof.
  destruct (colliding_ids_keep_first_line (H := mini) new_year collided
              colliding_template
              [ mkTemplateItem "walk" "Walk" (Some 2) [];
                mkTemplateItem "walk" "Walk again" (Some 5) [] ])
    as (rows & db' & Hget & Hrows & _).
  - vm_compute. repeat split; eauto.
  - vm_compute. reflexivity.
  - vm_compute. reflexivity.
  - vm_compute. reflexivity.
  - repeat constructor.
  - vm_compute. reflexivity.
  - exists rows, db'. split; [exact Hget|]. rewrite Hrows.
    vm_compute. reflexivity.
Defined.

Lemma stored_list_of_non_dicts_blocks_new_days_witness :
  ∃ e,
    TemplateRepository.load (H := mini) overwritten
    = (Ok [JInt 1; JInt 2], overwritten)
    ∧ TemplateRepository.flatten (H := mini) [JInt 1; JInt 2] = Raise e
    ∧ QuotaService.get_day (H := mini) new_year overwritten
      = (Raise e, overwritten).
Proof.
  apply (stored_list_of_non_dicts_blocks_new_days (H := mini) new_year
           overwritten "[1, 2]" [JInt 1; JInt 2] (JInt 1)).
  - vm_compute. reflexivity.
  - vm_compute. reflexivity.
  - apply list_elem_of_here.
  - intros d. discriminate.
  - vm_compute. eauto.
  - vm_compute. reflexivity.
Defined.

Lemma flatten_fills_in_missing_keys_witness :
  TemplateRepository.flatten (H := mini)
    [ JDict [("id", JStr "home");
             ("subitems", JList [JDict [("text", JStr "Dishes")]; JDict []])];
      JDict [("text", JStr "Untitled"); ("subitems", JNull)] ]
  = Ok [ {| line_id := "home"; line_text := JStr "home"; line_importance := 1 |};
         {| line_id := "home:1"; line_text := JStr "Dishes";
            line_importance := 1 |};
         {| line_id := "home:2"; line_text := JStr "home:2";
            line_importance := 1 |};
         {| line_id := "None"; line_text := JStr "Untitled";
            line_importance := 1 |} ].
Proof.
  apply (flatten_fills_in_missing_keys (H := mini) _
           [ mkLooseItem (Some "home") None None
               [mkLooseSub None (Some "Dishes") None; mkLooseSub None None None];
             mkLooseItem None (Some "Untitled") None [] ]).
  vm_compute. reflexivity.
Defined.


Lemma app_set_item_checked_ignores_closed_flag_witness :
  is_ok (App.set_item_checked new_year "care" true "walked" ""
           "2024-01-01T22:00:00" shut).1 = true
  ∧ DayRepository.set_item_checked new_year "care" true "walked" ""
      "2024-01-01T22:00:00" shut
    = (Raise day_is_closed, shut).
Proof.
  destruct (app_set_item_checked_ignores_closed_flag new_year "care" true
              "walked" "" "2024-01-01T22:00:00" shut
              (rows_of_day shut new_year)) as [Happ Hcore].
  - intros _. vm_compute. reflexivity.
  - vm_compute. reflexivity.
  - vm_compute. eauto.
  - split; [by rewrite Happ|]. rewrite Hcore. vm_compute. reflexivity.
Defined.

Lemma get_checked_days_selects_date_range_witness :
  ∃ days,
    DayRepository.get_checked_days
      {| year := 2024; month := 1; day_of_month := 1 |}
      {| year := 2024; month := 1; day_of_month := 31 |} opened
    = (Ok days, opened)
    ∧ (isoformat new_year ∈ days
       ↔ date_le {| year := 2024; month := 1; day_of_month := 1 |} new_year
         ∧ date_le new_year {| year := 2024; month := 1; day_of_month := 31 |}
         ∧ ∃ r, r ∈ rows_of_day opened new_year
                ∧ DayItem.day r = isoformat new_year
                ∧ DayItem.checked r = true).
Proof.
  apply (get_checked_days_selects_date_range
           {| year := 2024; month := 1; day_of_month := 1 |}
           {| year := 2024; month := 1; day_of_month := 31 |} new_year opened
           (rows_of_day opened new_year)).
  - unfold valid_date, MAXYEAR. simpl. lia.
  - unfold valid_date, MAXYEAR. simpl. lia.
  - unfold valid_date, MAXYEAR. simpl. lia.
  - vm_compute. reflexivity.
Defined.

Lemma checked_day_is_reported_witness :
  ∃ db' days,
    QuotaService.mark_item new_year "progress" true "did X" ""
      "2024-01-01T12:00:00" opened = (Ok tt, db')
    ∧ QuotaService.get_checked_days
        {| year := 2024; month := 1; day_of_month := 1 |}
        {| year := 2024; month := 1; day_of_month := 31 |} db'
      = (Ok days, db')
    ∧ isoformat new_year ∈ days.
Proof.
  apply (checked_day_is_reported
           {| year := 2024; month := 1; day_of_month := 1 |}
           {| year := 2024; month := 1; day_of_month := 31 |} new_year).
  - unfold valid_date, MAXYEAR. simpl. lia.
  - unfold valid_date, MAXYEAR. simpl. lia.
  - unfold valid_date, MAXYEAR. simpl. lia.
  - unfold date_le. simpl. lia.
  - unfold date_le. simpl. lia.
  - vm_compute. reflexivity.
  - vm_compute. eauto.
  - vm_compute. reflexivity.
  - vm_compute. reflexivity.
Defined.

Lemma month_window_is_the_month_witness :
  CalendarView.month_window {| year := 2024; month := 2; day_of_month := 15 |}
  = Ok ({| year := 2024; month := 2; day_of_month := 1 |},
        {| year := 2024; month := 2; day_of_month := 29 |})
  ∧ ∀ d, valid_date d →
         (date_le {| year := 2024; month := 2; day_of_month := 1 |} d
          ∧ date_le d {| year := 2024; month := 2; day_of_month := 29 |}
          ↔ year d = 2024%nat ∧ month d = 2%nat).
Proof.
  assert (valid_date {| year := 2024; month := 2; day_of_month := 15 |})
    as Hvalid by (unfold valid_date, MAXYEAR; simpl; lia).
  destruct (month_window_is_the_month _ Hvalid) as (Hwindow & _ & _ & Hin).
  split; [exact Hwindow | exact Hin].
Defined.

Lemma calendar_navigation_witness :
  CalendarView.action_next {| year := 2024; month := 12; day_of_month := 15 |}
  = Ok {| year := 2025; month := 1; day_of_month := 1 |}
  ∧ CalendarView.action_prev {| year := 2025; month := 1; day_of_month := 1 |}
    = Ok {| year := 2024; month := 12; day_of_month := 1 |}.
Proof.
  assert (valid_date {| year := 2024; month := 12; day_of_month := 15 |})
    as Hvalid by (unfold valid_date, MAXYEAR; simpl; lia).
  destruct (calendar_navigation _ Hvalid) as (Hnext & _ & Hback & _).
  split; [exact Hnext | exact (Hback _ Hnext)].
Defined.

Lemma watch_month_marks_the_checked_days_of_the_month_witness :
  ∃ days,
    CalendarView.watch_month new_year opened = (Ok days, opened)
    ∧ ∀ d, valid_date d →
           (isoformat d ∈ days
            ↔ year d = 2024%nat ∧ month d = 1%nat
              ∧ ∃ r, r ∈ rows_of_day opened new_year
                     ∧ DayItem.day r = isoformat d
                     ∧ DayItem.checked r = true).
Proof.
  apply (watch_month_marks_the_checked_days_of_the_month new_year opened
           (rows_of_day opened new_year)).
  - unfold valid_date, MAXYEAR. simpl. lia.
  - vm_compute. reflexivity.
Defined.
